(** * Restaurant management backend: order, reservation and inventory engine

    A shallow embedding of [src/resturant/server.js].  The Express handlers
    are state transformers over the five Mongoose collections; each handler
    returns the HTTP response it sends.

    Modelling conventions.
    - A collection is a finite map from [ObjectId] to documents; a freshly
      created document receives an identifier that the collection does not
      use yet.  The [timestamps] fields are left out.
    - The Numbers on which the code computes (prices, quantities, amounts,
      stock levels) are IEEE 754 doubles, with the machine's addition,
      subtraction, multiplication and comparisons.  The Numbers that it
      only stores and compares (table numbers, capacities, party sizes) are
      integers of [Z].
    - A string is a sequence of code units below 256.  A path declared with
      [trim: true] passes through [String.prototype.trim] whenever a value
      is set on a document, cast in an update or cast in a query filter.
    - [doc.save()] runs the validators that the schema declares
      ([required], [min], [enum]) on the values the document holds and
      throws [ValidationError] when one fails; [findByIdAndUpdate] runs
      none.  A path declared [unique: true] has a unique index: inserting a
      document, or moving one to a key that the index holds already, throws
      a duplicate key error.
    - [return res.status(..)] ends a handler with a response; an exception
      is caught by the handler's [catch], which answers 400 for a cast
      error on an identifier and 500 otherwise.  Writes made before the
      exception stay.
    - [Date.now()] is the argument [now] of a handler, and the database's
      [.sort({ capacity: 1 })] is an argument of the handler that uses it:
      the statements about it hold for every sort by ascending capacity,
      whatever it does with ties.
    - [console.warn] and [console.error] append to the [console] of the
      state. *)

From Stdlib Require Import ZArith String Ascii List Lia PrimFloat.
From stdpp Require Import base option list gmap strings sorting.

Set Warnings "-inexact-float".

Local Open Scope string_scope.
Local Open Scope list_scope.
Local Open Scope Z_scope.

(** ** Numbers and strings *)

(** A JavaScript Number: [+], [-], [*], [<], [<=] and [===] on Numbers are
    the operations of binary64. *)
Abbreviation Number := float (only parsing).

(** The white space of [String.prototype.trim] among the code units below
    256: U+0009 to U+000D, U+0020 and U+00A0. *)
Definition isWhiteSpace (c : ascii) : bool :=
  let n := N_of_ascii c in
  ((9 <=? n) && (n <=? 13) || (n =? 32) || (n =? 160))%N.

Fixpoint trimStart (s : string) : string :=
  match s with
  | String c s' => if isWhiteSpace c then trimStart s' else s
  | EmptyString => EmptyString
  end.

Fixpoint trimEnd (s : string) : string :=
  match s with
  | EmptyString => EmptyString
  | String c s' =>
      match trimEnd s' with
      | EmptyString => if isWhiteSpace c then EmptyString else String c EmptyString
      | t => String c t
      end
  end.

(** String.prototype.trim *)
Definition trim (s : string) : string := trimEnd (trimStart s).

(** ** Documents *)

Definition ObjectId := positive.
Definition Date := Z.

(** An identifier as it arrives in a request: a well-formed ObjectId, or a
    string that Mongoose cannot cast to one. *)
Inductive IdParam :=
  | Oid (i : ObjectId)
  | Malformed (raw : string).

Definition menuCategories : list string :=
  ["Appetizer"; "Main Course"; "Dessert"; "Beverage"; "Other"].

Module MenuItem.
Record t := mk {
  name : string;
  description : option string;
  price : Number;
  category : string;
  isAvailable : bool;
  imageUrl : option string
}.

(** name: required; price: min 0; category: enum. *)
Definition valid (d : t) : bool :=
  negb (String.eqb (name d) "")
  && (0 <=? price d)%float
  && bool_decide (category d ∈ menuCategories).
End MenuItem.

Module Table.
Record t := mk {
  tableNumber : Z;
  capacity : Z;
  isAvailable : bool
}.

Definition setAvailable (b : bool) (d : t) : t :=
  mk (tableNumber d) (capacity d) b.

(** tableNumber: min 1; capacity: min 1. *)
Definition valid (d : t) : bool :=
  (1 <=? tableNumber d) && (1 <=? capacity d).
End Table.

Module OrderItem.
Record t := mk {
  menuItem : ObjectId;
  quantity : Number;
  priceAtOrder : Number
}.

(** quantity: min 1; priceAtOrder: min 0. *)
Definition valid (d : t) : bool :=
  (1 <=? quantity d)%float && (0 <=? priceAtOrder d)%float.
End OrderItem.

Module Order.
Record t := mk {
  table : ObjectId;
  items : list OrderItem.t;
  totalAmount : Number;
  status : string;
  orderTime : Date;
  completionTime : option Date
}.

Definition statuses : list string :=
  ["pending"; "preparing"; "completed"; "cancelled"].

Definition setStatus (s : string) (d : t) : t :=
  mk (table d) (items d) (totalAmount d) s (orderTime d) (completionTime d).

Definition setCompletionTime (c : Date) (d : t) : t :=
  mk (table d) (items d) (totalAmount d) (status d) (orderTime d) (Some c).

(** items as above; totalAmount: min 0; status: enum. *)
Definition valid (d : t) : bool :=
  forallb OrderItem.valid (items d)
  && (0 <=? totalAmount d)%float
  && bool_decide (status d ∈ statuses).
End Order.

Module Reservation.
Record t := mk {
  customerName : string;
  phoneNumber : string;
  table : option ObjectId;
  date : Date;
  time : string;
  numberOfGuests : Z;
  status : string;
  notes : option string
}.

Definition statuses : list string :=
  ["pending"; "confirmed"; "cancelled"; "completed"].

Definition setStatus (s : string) (d : t) : t :=
  mk (customerName d) (phoneNumber d) (table d) (date d) (time d)
     (numberOfGuests d) s (notes d).

(** customerName, phoneNumber, time: required; numberOfGuests: min 1;
    status: enum.  The validators read the values that the document
    holds: those of a new document have passed the setters. *)
Definition valid (d : t) : bool :=
  negb (String.eqb (customerName d) "")
  && negb (String.eqb (phoneNumber d) "")
  && negb (String.eqb (time d) "")
  && (1 <=? numberOfGuests d)
  && bool_decide (status d ∈ statuses).
End Reservation.

Module Inventory.
Record t := mk {
  itemName : string;
  quantity : Number;
  unit : string;
  minStockLevel : Number;
  lastUpdated : Date
}.

Definition units : list string :=
  ["kg"; "grams"; "liters"; "ml"; "pieces"; "packs"; "other"].

Definition setQuantity (q : Number) (d : t) : t :=
  mk (itemName d) q (unit d) (minStockLevel d) (lastUpdated d).

Definition setLastUpdated (n : Date) (d : t) : t :=
  mk (itemName d) (quantity d) (unit d) (minStockLevel d) n.

(** itemName: required; quantity: min 0; unit: enum. *)
Definition valid (d : t) : bool :=
  negb (String.eqb (itemName d) "")
  && (0 <=? quantity d)%float
  && bool_decide (unit d ∈ units).
End Inventory.

(** ** The store, the console and the responses *)

Inductive Exn :=
  | CastError        (* err.kind === 'ObjectId' *)
  | ValidationError
  | DuplicateKey.    (* E11000 of a unique index *)

Inductive LogEntry :=
  | WarnInventoryNotFound (itemName : string)
  | WarnBelowZero (itemName : string)
  | WarnLowStock (itemName : string) (quantity : Number) (unit : string)
  | LogError (e : Exn).

Record Db := mkDb {
  menuItems : gmap ObjectId MenuItem.t;
  tables : gmap ObjectId Table.t;
  orders : gmap ObjectId Order.t;
  reservations : gmap ObjectId Reservation.t;
  inventory : gmap ObjectId Inventory.t;
  console : list LogEntry
}.

Definition setMenuItems (f : gmap ObjectId MenuItem.t → gmap ObjectId MenuItem.t)
    (s : Db) : Db :=
  mkDb (f (menuItems s)) (tables s) (orders s) (reservations s) (inventory s)
       (console s).
Definition setTables (f : gmap ObjectId Table.t → gmap ObjectId Table.t)
    (s : Db) : Db :=
  mkDb (menuItems s) (f (tables s)) (orders s) (reservations s) (inventory s)
       (console s).
Definition setOrders (f : gmap ObjectId Order.t → gmap ObjectId Order.t)
    (s : Db) : Db :=
  mkDb (menuItems s) (tables s) (f (orders s)) (reservations s) (inventory s)
       (console s).
Definition setReservations
    (f : gmap ObjectId Reservation.t → gmap ObjectId Reservation.t)
    (s : Db) : Db :=
  mkDb (menuItems s) (tables s) (orders s) (f (reservations s)) (inventory s)
       (console s).
Definition setInventory (f : gmap ObjectId Inventory.t → gmap ObjectId Inventory.t)
    (s : Db) : Db :=
  mkDb (menuItems s) (tables s) (orders s) (reservations s) (f (inventory s))
       (console s).
Definition logEntry (e : LogEntry) (s : Db) : Db :=
  mkDb (menuItems s) (tables s) (orders s) (reservations s) (inventory s)
       (console s ++ [e]).

(** One constructor per message template of the handlers. *)
Inductive Msg :=
  | MsgProvideTableAndItems
  | MsgTableNotFound
  | MsgMenuItemIdNotFound (menuItemId : IdParam)
  | MsgNotAvailable (name : string)
  | MsgQuantityAtLeastOne (name : string)
  | MsgInvalidIdFormat
  | MsgProvideOrderStatus
  | MsgOrderNotFound
  | MsgInvalidOrderId
  | MsgMenuItemNotFound
  | MsgMenuItemNameExists
  | MsgInvalidMenuItemId
  | MsgFillRequiredFields
  | MsgSpecifiedTableNotFound
  | MsgTableNotAvailable (tableNumber : Z)
  | MsgCannotAccommodate (tableNumber guests capacity : Z)
  | MsgAlreadyReserved (tableNumber : Z) (time : string) (date : Date)
  | MsgNoTablesForGuests
  | MsgNoSuitableTable
  | MsgInvalidTableIdFormat
  | MsgProvideReservationStatus
  | MsgReservationNotFound
  | MsgInvalidReservationId
  | MsgReservationRemoved.

Inductive Body :=
  | BNull
  | BMsg (m : Msg)
  | BMenuItem (id : ObjectId) (d : MenuItem.t)
  | BOrder (id : ObjectId) (d : Order.t)
  | BReservation (id : ObjectId) (d : Reservation.t).

Inductive Response :=
  | Json (status : Z) (body : Body)   (* res.status(s).json(body) *)
  | Send (status : Z) (text : string). (* res.status(s).send(text) *)

Definition statusCode (r : Response) : Z :=
  match r with Json s _ | Send s _ => s end.

(** The error classes of the specification, read off the message that the
    handler sends (the status code alone does not separate Conflict from
    InvalidArgument: both are 400). *)
Inductive ErrorKind := NotFound | InvalidArgument | Conflict | Internal.

Definition errorKind (r : Response) : option ErrorKind :=
  match r with
  | Send 500 _ => Some Internal
  | Json 404 (BMsg _) => Some NotFound
  | Json 400 (BMsg m) =>
      match m with
      | MsgNotAvailable _ | MsgMenuItemNameExists | MsgTableNotAvailable _
      | MsgCannotAccommodate _ _ _ | MsgAlreadyReserved _ _ _
      | MsgNoTablesForGuests | MsgNoSuitableTable => Some Conflict
      | _ => Some InvalidArgument
      end
  | _ => None
  end.

(** ** Asynchronous code: state, early response, exception *)

Inductive Result (A : Type) :=
  | Val (a : A)
  | Done (r : Response)
  | Exc (e : Exn).
Arguments Val {A} a.
Arguments Done {A} r.
Arguments Exc {A} e.

Definition Async (A : Type) : Type := Db → Db * Result A.

Global Instance Async_ret : MRet Async := λ A a s, (s, Val a).
Global Instance Async_bind : MBind Async := λ A B f m s,
  match m s with
  | (s', Val a) => f a s'
  | (s', Done r) => (s', Done r)
  | (s', Exc e) => (s', Exc e)
  end.

Definition respond {A} (r : Response) : Async A := λ s, (s, Done r).
Definition throw {A} (e : Exn) : Async A := λ s, (s, Exc e).
Definition gets {A} (f : Db → A) : Async A := λ s, (s, Val (f s)).
Definition modify (f : Db → Db) : Async () := λ s, (f s, Val ()).

(** [try { body } catch (err) { console.error(..); .. }] around a handler
    body whose every path sends a response. *)
Definition handler (invalidId : Msg) (body : Async Response) : Db → Db * Response :=
  λ s,
  match body s with
  | (s', Val r) | (s', Done r) => (s', r)
  | (s', Exc CastError) =>
      (logEntry (LogError CastError) s', Json 400 (BMsg invalidId))
  | (s', Exc e) => (logEntry (LogError e) s', Send 500 "Server Error")
  end.

(** ** Mongoose models and queries *)

(** [unique] tells when two documents agree on the path of the schema that
    is declared [unique: true], if there is one. *)
Record Model (D : Type) := mkModel {
  docs : Db → gmap ObjectId D;
  setDocs : (gmap ObjectId D → gmap ObjectId D) → Db → Db;
  validate : D → bool;
  unique : option (D → D → bool)
}.
Arguments docs {D} _ _.
Arguments setDocs {D} _ _ _.
Arguments validate {D} _ _.
Arguments unique {D} _.

(** [mongoose.model('MenuItem', MenuItemSchema)] and the other four. *)
Definition MenuItemModel : Model MenuItem.t :=
  mkModel _ menuItems setMenuItems MenuItem.valid
    (Some (λ a b, String.eqb (MenuItem.name a) (MenuItem.name b))).
Definition TableModel : Model Table.t :=
  mkModel _ tables setTables Table.valid
    (Some (λ a b, Table.tableNumber a =? Table.tableNumber b)).
Definition OrderModel : Model Order.t :=
  mkModel _ orders setOrders Order.valid None.
Definition ReservationModel : Model Reservation.t :=
  mkModel _ reservations setReservations Reservation.valid None.
Definition InventoryModel : Model Inventory.t :=
  mkModel _ inventory setInventory Inventory.valid
    (Some (λ a b, String.eqb (Inventory.itemName a) (Inventory.itemName b))).

Section Queries.
Context {D : Type} (M : Model D).

(** Model.findById(id) *)
Definition findById (id : IdParam) : Async (option (ObjectId * D)) :=
  match id with
  | Malformed _ => throw CastError
  | Oid i => gets (λ s, (λ d, (i, d)) <$> docs M s !! i)
  end.

(** Model.findOne(filter): the first match in the collection's order. *)
Definition findOne (p : ObjectId * D → bool) : Async (option (ObjectId * D)) :=
  gets (λ s, List.find p (map_to_list (docs M s))).

(** Model.find(filter) *)
Definition find (p : ObjectId * D → bool) : Async (list (ObjectId * D)) :=
  gets (λ s, List.filter p (map_to_list (docs M s))).

(** Does the unique index hold the key of [d]? *)
Definition taken (d : D) (s : Db) : bool :=
  match unique M with
  | Some clash => existsb (λ kv, clash d kv.2) (map_to_list (docs M s))
  | None => false
  end.

(** Does writing [d'] over [d] change the key of the unique index? *)
Definition rekeys (d d' : D) : bool :=
  match unique M with
  | Some clash => negb (clash d' d)
  | None => false
  end.

(** doc.save() on a loaded document.  No handler changes a unique path of
    a loaded document, so the index is not consulted. *)
Definition save (i : ObjectId) (d : D) : Async () :=
  if validate M d then modify (setDocs M <[i := d]>) else throw ValidationError.

(** new Model(d).save(): validation, then the insertion. *)
Definition create (d : D) : Async ObjectId :=
  if validate M d then
    isTaken ← gets (taken d);
    if isTaken : bool then throw DuplicateKey
    else
      i ← gets (λ s, fresh (dom (docs M s)));
      modify (setDocs M <[i := d]>);;
      mret i
  else throw ValidationError.

(** Model.findByIdAndUpdate(id, { $set: .. }, { new: true }): no
    validators; the index refuses a key that changes to one it holds. *)
Definition findByIdAndUpdate (id : IdParam) (set : D → D)
    : Async (option (ObjectId * D)) :=
  found ← findById id;
  match found with
  | None => mret None
  | Some (i, d) =>
      isTaken ← gets (taken (set d));
      if rekeys d (set d) && isTaken then throw DuplicateKey
      else modify (setDocs M <[i := set d]>);; mret (Some (i, set d))
  end.

(** Model.findByIdAndDelete(id) *)
Definition findByIdAndDelete (id : IdParam) : Async (option (ObjectId * D)) :=
  found ← findById id;
  match found with
  | None => mret None
  | Some (i, d) => modify (setDocs M (delete i));; mret (Some (i, d))
  end.
End Queries.

Arguments taken {D} M d s : simpl never.
Arguments rekeys {D} M d d' : simpl never.

(** ** Helper: updateInventoryForOrder (server.js 214-243) *)

Record StockItem := mkStockItem {
  si_name : string;
  si_quantity : Number
}.

Definition warn (e : LogEntry) : Async () := modify (logEntry e).

(** The filter [{ itemName: inventoryItemName }] is cast through the
    setter of the path. *)
Fixpoint updateInventoryForOrder (now : Date) (orderItems : list StockItem)
    (isDecrement : bool) : Async () :=
  match orderItems with
  | [] => mret ()
  | item :: rest =>
      let inventoryItemName := si_name item in
      inventoryItem ← findOne InventoryModel
        (λ kv, String.eqb (Inventory.itemName kv.2) (trim inventoryItemName));
      match inventoryItem with
      | None =>
          warn (WarnInventoryNotFound inventoryItemName);;
          updateInventoryForOrder now rest isDecrement
      | Some (i, inv) =>
          let q := if isDecrement
                   then (Inventory.quantity inv - si_quantity item)%float
                   else (Inventory.quantity inv + si_quantity item)%float in
          q' ← (if (q <? 0)%float
                then warn (WarnBelowZero inventoryItemName);; mret 0%float
                else mret q);
          let inv' := Inventory.setLastUpdated now (Inventory.setQuantity q' inv) in
          save InventoryModel i inv';;
          (if (Inventory.quantity inv' <=? Inventory.minStockLevel inv')%float
           then warn (WarnLowStock (Inventory.itemName inv')
                        (Inventory.quantity inv') (Inventory.unit inv'))
           else mret ());;
          updateInventoryForOrder now rest isDecrement
      end
  end.

(** ** Requests *)

(** JavaScript truthiness of an optional string, number or identifier:
    [None] is an absent ([undefined]) field.  Among the doubles, 0, -0 and
    NaN are falsy. *)
Definition truthy (o : option string) : option string :=
  match o with
  | Some s => if String.eqb s "" then None else Some s
  | None => None
  end.

Definition truthyNum (o : option Z) : option Z :=
  match o with
  | Some n => if n =? 0 then None else Some n
  | None => None
  end.

Definition truthyNumber (o : option Number) : option Number :=
  match o with
  | Some n => if (n =? 0)%float || negb (n =? n)%float then None else Some n
  | None => None
  end.

Definition truthyId (o : option IdParam) : option IdParam :=
  match o with
  | Some (Malformed raw) => if String.eqb raw "" then None else o
  | _ => o
  end.

Fixpoint mapAsync {A B} (f : A → Async B) (l : list A) : Async (list B) :=
  match l with
  | [] => mret []
  | x :: l' => y ← f x; ys ← mapAsync f l'; mret (y :: ys)
  end.

(** ** PUT /api/menu/:id (server.js 307-337) *)

Record MenuItemBody := mkMenuItemBody {
  mb_name : option string;
  mb_description : option string;
  mb_price : option Number;
  mb_category : option string;
  mb_isAvailable : option bool;
  mb_imageUrl : option string
}.

(** The [menuItemFields] object. *)
Definition menuItemFields (b : MenuItemBody) : MenuItemBody :=
  mkMenuItemBody (truthy (mb_name b)) (truthy (mb_description b))
    (truthyNumber (mb_price b)) (truthy (mb_category b)) (mb_isAvailable b)
    (truthy (mb_imageUrl b)).

(** Its [$set], cast by the schema: name, description and category are
    trimmed. *)
Definition setFields (f : MenuItemBody) (m : MenuItem.t) : MenuItem.t :=
  MenuItem.mk
    (default (MenuItem.name m) (trim <$> mb_name f))
    (match mb_description f with
     | Some d => Some (trim d)
     | None => MenuItem.description m
     end)
    (default (MenuItem.price m) (mb_price f))
    (default (MenuItem.category m) (trim <$> mb_category f))
    (default (MenuItem.isAvailable m) (mb_isAvailable f))
    (match mb_imageUrl f with Some u => Some u | None => MenuItem.imageUrl m end).

Definition updateMenuItem (id : IdParam) (body : MenuItemBody) : Db → Db * Response :=
  let fields := menuItemFields body in
  handler MsgInvalidMenuItemId (
    menuItem ← findById MenuItemModel id;
    match menuItem with
    | None => respond (Json 404 (BMsg MsgMenuItemNotFound))
    | Some (i, m) =>
        (match mb_name fields with
         | Some name =>
             if negb (String.eqb name (MenuItem.name m)) then
               existingMenuItem ← findOne MenuItemModel
                 (λ kv, String.eqb (MenuItem.name kv.2) (trim name));
               match existingMenuItem with
               | Some (j, _) =>
                   if negb (Pos.eqb j i)
                   then respond (Json 400 (BMsg MsgMenuItemNameExists))
                   else mret ()
               | None => mret ()
               end
             else mret ()
         | None => mret ()
         end);;
        updated ← findByIdAndUpdate MenuItemModel (Oid i) (setFields fields);
        mret (Json 200 (match updated with
                        | Some (j, m') => BMenuItem j m'
                        | None => BNull
                        end))
    end).

(** ** POST /api/orders (server.js 490-542) *)

Record OrderRequestItem := mkOrderRequestItem {
  menuItemId : IdParam;
  ri_quantity : Number
}.

Record OrderBody := mkOrderBody {
  ob_tableId : option IdParam;
  ob_items : option (list OrderRequestItem)
}.

(** The three accumulators of the loop over [items]. *)
Record OrderAcc := mkOrderAcc {
  acc_totalAmount : Number;
  acc_orderItems : list OrderItem.t;
  acc_menuItemsForInventoryUpdate : list StockItem
}.

Fixpoint orderLoop (items : list OrderRequestItem) (acc : OrderAcc) : Async OrderAcc :=
  match items with
  | [] => mret acc
  | item :: rest =>
      menuItem ← findById MenuItemModel (menuItemId item);
      match menuItem with
      | None => respond (Json 404 (BMsg (MsgMenuItemIdNotFound (menuItemId item))))
      | Some (mid, m) =>
          if negb (MenuItem.isAvailable m) then
            respond (Json 400 (BMsg (MsgNotAvailable (MenuItem.name m))))
          else if (ri_quantity item <=? 0)%float then
            respond (Json 400 (BMsg (MsgQuantityAtLeastOne (MenuItem.name m))))
          else
            orderLoop rest
              (mkOrderAcc
                 (acc_totalAmount acc + MenuItem.price m * ri_quantity item)%float
                 (acc_orderItems acc
                    ++ [OrderItem.mk mid (ri_quantity item) (MenuItem.price m)])
                 (acc_menuItemsForInventoryUpdate acc
                    ++ [mkStockItem (MenuItem.name m) (ri_quantity item)]))
      end
  end.

Definition placeOrder (now : Date) (body : OrderBody) : Db → Db * Response :=
  match truthyId (ob_tableId body), ob_items body with
  | Some tableId, Some ((_ :: _) as items) =>
      handler MsgInvalidIdFormat (
        table ← findById TableModel tableId;
        match table with
        | None => respond (Json 404 (BMsg MsgTableNotFound))
        | Some (tid, _) =>
            acc ← orderLoop items (mkOrderAcc 0%float [] []);
            let newOrder :=
              Order.mk tid (acc_orderItems acc) (acc_totalAmount acc)
                "pending" now None in
            oid ← create OrderModel newOrder;
            updateInventoryForOrder now (acc_menuItemsForInventoryUpdate acc) true;;
            mret (Json 201 (BOrder oid newOrder))
        end)
  | _, _ => λ s, (s, Json 400 (BMsg MsgProvideTableAndItems))
  end.

(** ** PUT /api/orders/:id/status (server.js 588-619) *)

(** The arrow function under [Promise.all(order.items.map(..))]. *)
Definition itemToReturn (item : OrderItem.t) : Async StockItem :=
  menuItem ← findById MenuItemModel (Oid (OrderItem.menuItem item));
  mret (mkStockItem
          (match menuItem with
           | Some (_, m) => MenuItem.name m
           | None => "Unknown Item"
           end)
          (OrderItem.quantity item)).

Definition updateOrderStatus (now : Date) (id : IdParam) (status : option string)
    : Db → Db * Response :=
  match truthy status with
  | None => λ s, (s, Json 400 (BMsg MsgProvideOrderStatus))
  | Some status =>
      handler MsgInvalidOrderId (
        found ← findById OrderModel id;
        match found with
        | None => respond (Json 404 (BMsg MsgOrderNotFound))
        | Some (oid, order) =>
            let oldStatus := Order.status order in
            let order := Order.setStatus status order in
            let order :=
              if String.eqb status "completed" && negb (String.eqb oldStatus "completed")
              then Order.setCompletionTime now order
              else order in
            (if String.eqb status "cancelled" && negb (String.eqb oldStatus "cancelled")
             then
               itemsToReturn ← mapAsync itemToReturn (Order.items order);
               updateInventoryForOrder now itemsToReturn false
             else mret ());;
            save OrderModel oid order;;
            mret (Json 200 (BOrder oid order))
        end)
  end.

(** ** POST /api/reservations (server.js 644-713) *)

Record ReservationBody := mkReservationBody {
  rb_customerName : option string;
  rb_phoneNumber : option string;
  rb_date : option Date;      (* [new Date(date)] of a present date *)
  rb_time : option string;
  rb_numberOfGuests : option Z;
  rb_tableId : option IdParam;
  rb_notes : option string
}.

(** The filter [{ table, date, time, status: { $in: ['pending','confirmed'] } }]. *)
Definition activeAt (tid : ObjectId) (date : Date) (time : string)
    (kv : ObjectId * Reservation.t) : bool :=
  bool_decide (Reservation.table kv.2 = Some tid)
  && (Reservation.date kv.2 =? date)
  && String.eqb (Reservation.time kv.2) time
  && (String.eqb (Reservation.status kv.2) "pending"
      || String.eqb (Reservation.status kv.2) "confirmed").

(** The loop over [availableTables] with its [break]. *)
Fixpoint firstFreeTable (date : Date) (time : string)
    (availableTables : list (ObjectId * Table.t))
    : Async (option (ObjectId * Table.t)) :=
  match availableTables with
  | [] => mret None
  | tbl :: rest =>
      existingReservation ← findOne ReservationModel (activeAt tbl.1 date time);
      match existingReservation with
      | None => mret (Some tbl)
      | Some _ => firstFreeTable date time rest
      end
  end.

(** [new Reservation({ .. })]: customerName and phoneNumber are trimmed,
    status defaults to pending. *)
Definition newReservation (customerName phoneNumber : string)
    (table : option ObjectId) (date : Date) (time : string) (numberOfGuests : Z)
    (notes : option string) : Reservation.t :=
  Reservation.mk (trim customerName) (trim phoneNumber) table date time
    numberOfGuests "pending" notes.

(** [sortByCapacity] stands for [.sort({ capacity: 1 })]; the order among
    tables of equal capacity is the database's. *)
Definition createReservation
    (sortByCapacity : list (ObjectId * Table.t) → list (ObjectId * Table.t))
    (body : ReservationBody) : Db → Db * Response :=
  match truthy (rb_customerName body), truthy (rb_phoneNumber body),
        rb_date body, truthy (rb_time body), truthyNum (rb_numberOfGuests body) with
  | Some customerName, Some phoneNumber, Some date, Some time, Some numberOfGuests =>
      handler MsgInvalidTableIdFormat (
        tableToReserve ←
          match truthyId (rb_tableId body) with
          | Some tableId =>
              found ← findById TableModel tableId;
              match found with
              | None => respond (Json 404 (BMsg MsgSpecifiedTableNotFound))
              | Some (tid, tbl) =>
                  if negb (Table.isAvailable tbl) then
                    respond (Json 400 (BMsg (MsgTableNotAvailable (Table.tableNumber tbl))))
                  else if Table.capacity tbl <? numberOfGuests then
                    respond (Json 400 (BMsg (MsgCannotAccommodate
                      (Table.tableNumber tbl) numberOfGuests (Table.capacity tbl))))
                  else
                    existingReservation ←
                      findOne ReservationModel (activeAt tid date time);
                    match existingReservation with
                    | Some _ =>
                        respond (Json 400 (BMsg (MsgAlreadyReserved
                          (Table.tableNumber tbl) time date)))
                    | None => mret (Some (tid, tbl))
                    end
              end
          | None =>
              availableTables ← find TableModel
                (λ kv, Table.isAvailable kv.2
                       && (numberOfGuests <=? Table.capacity kv.2));
              let availableTables := sortByCapacity availableTables in
              if (Z.of_nat (length availableTables) =? 0) then
                respond (Json 400 (BMsg MsgNoTablesForGuests))
              else
                chosen ← firstFreeTable date time availableTables;
                match chosen with
                | None => respond (Json 400 (BMsg MsgNoSuitableTable))
                | Some tbl => mret (Some tbl)
                end
          end;
        let newReservation :=
          newReservation customerName phoneNumber
            (match tableToReserve with
             | Some (tid, _) => Some tid
             | None => None
             end)
            date time numberOfGuests (rb_notes body) in
        rid ← create ReservationModel newReservation;
        mret (Json 201 (BReservation rid newReservation)))
  | _, _, _, _, _ => λ s, (s, Json 400 (BMsg MsgFillRequiredFields))
  end.

(** ** PUT /api/reservations/:id/status (server.js 768-800) *)

Definition updateReservationStatus (id : IdParam) (status : option string)
    : Db → Db * Response :=
  match truthy status with
  | None => λ s, (s, Json 400 (BMsg MsgProvideReservationStatus))
  | Some status =>
      handler MsgInvalidReservationId (
        found ← findById ReservationModel id;
        match found with
        | None => respond (Json 404 (BMsg MsgReservationNotFound))
        | Some (rid, reservation) =>
            let oldStatus := Reservation.status reservation in
            let reservation := Reservation.setStatus status reservation in
            (match Reservation.table reservation with
             | Some tid =>
                 table ← findById TableModel (Oid tid);
                 match table with
                 | Some (_, table) =>
                     let table :=
                       if String.eqb status "confirmed"
                          && negb (String.eqb oldStatus "confirmed")
                       then Table.setAvailable false table
                       else if (String.eqb status "cancelled"
                                || String.eqb status "completed")
                               && negb (String.eqb oldStatus "cancelled")
                               && negb (String.eqb oldStatus "completed")
                       then Table.setAvailable true table
                       else table in
                     save TableModel tid table
                 | None => mret ()
                 end
             | None => mret ()
             end);;
            save ReservationModel rid reservation;;
            mret (Json 200 (BReservation rid reservation))
        end)
  end.

(** ** DELETE /api/reservations/:id (server.js 805-826) *)

Definition deleteReservation (id : IdParam) : Db → Db * Response :=
  handler MsgInvalidReservationId (
    found ← findByIdAndDelete ReservationModel id;
    match found with
    | None => respond (Json 404 (BMsg MsgReservationNotFound))
    | Some (_, reservation) =>
        (match Reservation.table reservation with
         | Some tid =>
             if String.eqb (Reservation.status reservation) "confirmed" then
               table ← findById TableModel (Oid tid);
               match table with
               | Some (_, table) => save TableModel tid (Table.setAvailable true table)
               | None => mret ()
               end
             else mret ()
         | None => mret ()
         end);;
        mret (Json 200 (BMsg MsgReservationRemoved))
    end).

(** * The other writing routes

    The routes below answer with messages and documents of their own; a
    route ends with the [Reply] that its body computes, or with the answer
    of its [catch]. *)

Inductive Note :=
  | NoteMenuItemNameExists
  | NoteMenuItemNotFound
  | NoteInvalidMenuItemId
  | NoteMenuItemRemoved
  | NoteTableNumberExists
  | NoteTableNotFound
  | NoteInvalidTableId
  | NoteProvideIsAvailable
  | NoteTableRemoved
  | NoteOrderNotFound
  | NoteInvalidOrderId
  | NoteOrderRemoved
  | NoteInventoryNameExists
  | NoteInventoryNotFound
  | NoteInvalidInventoryId
  | NoteInventoryRemoved.

Inductive Reply (A : Type) :=
  | Sent (status : Z) (doc : A)        (* res.status(s).json(doc) *)
  | Said (status : Z) (note : Note)    (* res.status(s).json({ msg }) *)
  | Text (status : Z) (text : string)  (* res.status(s).send(text) *)
  | Replied (r : Response).            (* a response of the handlers above *)
Arguments Sent {A} status doc.
Arguments Said {A} status note.
Arguments Text {A} status text.
Arguments Replied {A} r.

Definition replyCode {A} (r : Reply A) : Z :=
  match r with
  | Sent s _ | Said s _ | Text s _ => s
  | Replied r => statusCode r
  end.

(** [try { body } catch (err) { .. }]: [invalidId] is the message of the
    [err.kind === 'ObjectId'] branch, where the route has one. *)
Definition route {A} (invalidId : option Note) (body : Async (Reply A))
    : Db → Db * Reply A :=
  λ s,
  match body s with
  | (s', Val r) => (s', r)
  | (s', Done r) => (s', Replied r)
  | (s', Exc e) =>
      (logEntry (LogError e) s',
       match e, invalidId with
       | CastError, Some n => Said 400 n
       | _, _ => Text 500 "Server Error"
       end)
  end.

(** ** POST /api/menu and DELETE /api/menu/:id (server.js 288-302, 342-356) *)

(** [new MenuItem({ .. })]: name, description and category are trimmed,
    isAvailable defaults to true.  [None] when a required path is
    absent, which [save] reports as a validation error. *)
Definition newMenuItem (b : MenuItemBody) : option MenuItem.t :=
  match mb_name b, mb_price b, mb_category b with
  | Some name, Some price, Some category =>
      Some (MenuItem.mk (trim name) (trim <$> mb_description b) price
              (trim category) (default true (mb_isAvailable b)) (mb_imageUrl b))
  | _, _, _ => None
  end.

(** The filter [{ name }] is cast through the setter of the path. *)
Definition createMenuItem (body : MenuItemBody)
    : Db → Db * Reply (ObjectId * MenuItem.t) :=
  route None (
    menuItem ← findOne MenuItemModel
      (λ kv, bool_decide (Some (MenuItem.name kv.2) = trim <$> mb_name body));
    match menuItem with
    | Some _ => mret (Said 400 NoteMenuItemNameExists)
    | None =>
        match newMenuItem body with
        | None => throw ValidationError
        | Some d => i ← create MenuItemModel d; mret (Sent 201 (i, d))
        end
    end).

Definition deleteMenuItem (id : IdParam) : Db → Db * Reply () :=
  route (Some NoteInvalidMenuItemId) (
    menuItem ← findByIdAndDelete MenuItemModel id;
    match menuItem with
    | None => mret (Said 404 NoteMenuItemNotFound)
    | Some _ => mret (Said 200 NoteMenuItemRemoved)
    end).

(** ** The table routes (server.js 394-484) *)

Record TableBody := mkTableBody {
  tb_tableNumber : option Z;
  tb_capacity : option Z;
  tb_isAvailable : option bool
}.

(** POST /api/tables *)
Definition createTable (body : TableBody)
    : Db → Db * Reply (option (ObjectId * Table.t)) :=
  route None (
    table ← findOne TableModel
      (λ kv, bool_decide (Some (Table.tableNumber kv.2) = tb_tableNumber body));
    match table with
    | Some _ => mret (Said 400 NoteTableNumberExists)
    | None =>
        match tb_tableNumber body, tb_capacity body with
        | Some tableNumber, Some capacity =>
            let table := Table.mk tableNumber capacity true in
            i ← create TableModel table;
            mret (Sent 201 (Some (i, table)))
        | _, _ => throw ValidationError
        end
    end).

(** The [tableFields] object and its [$set]. *)
Definition tableFields (b : TableBody) : TableBody :=
  mkTableBody (truthyNum (tb_tableNumber b)) (truthyNum (tb_capacity b))
    (tb_isAvailable b).

Definition setTableFields (f : TableBody) (t : Table.t) : Table.t :=
  Table.mk (default (Table.tableNumber t) (tb_tableNumber f))
    (default (Table.capacity t) (tb_capacity f))
    (default (Table.isAvailable t) (tb_isAvailable f)).

(** PUT /api/tables/:id *)
Definition updateTable (id : IdParam) (body : TableBody)
    : Db → Db * Reply (option (ObjectId * Table.t)) :=
  let fields := tableFields body in
  route (Some NoteInvalidTableId) (
    found ← findById TableModel id;
    match found with
    | None => mret (Said 404 NoteTableNotFound)
    | Some (i, table) =>
        let proceed :=
          updated ← findByIdAndUpdate TableModel (Oid i) (setTableFields fields);
          mret (Sent 200 updated) in
        match tb_tableNumber fields with
        | Some tableNumber =>
            if negb (tableNumber =? Table.tableNumber table) then
              existingTable ← findOne TableModel
                (λ kv, Table.tableNumber kv.2 =? tableNumber);
              match existingTable with
              | Some (j, _) =>
                  if negb (Pos.eqb j i)
                  then mret (Said 400 NoteTableNumberExists)
                  else proceed
              | None => proceed
              end
            else proceed
        | None => proceed
        end
    end).

(** PUT /api/tables/:id/availability *)
Definition setTableAvailability (id : IdParam) (isAvailable : option bool)
    : Db → Db * Reply (option (ObjectId * Table.t)) :=
  match isAvailable with
  | None => λ s, (s, Said 400 NoteProvideIsAvailable)
  | Some isAvailable =>
      route (Some NoteInvalidTableId) (
        found ← findById TableModel id;
        match found with
        | None => mret (Said 404 NoteTableNotFound)
        | Some (i, table) =>
            let table := Table.setAvailable isAvailable table in
            save TableModel i table;;
            mret (Sent 200 (Some (i, table)))
        end)
  end.

(** DELETE /api/tables/:id *)
Definition deleteTable (id : IdParam) : Db → Db * Reply () :=
  route (Some NoteInvalidTableId) (
    table ← findByIdAndDelete TableModel id;
    match table with
    | None => mret (Said 404 NoteTableNotFound)
    | Some _ => mret (Said 200 NoteTableRemoved)
    end).

(** ** DELETE /api/orders/:id (server.js 624-638) *)

Definition deleteOrder (id : IdParam) : Db → Db * Reply () :=
  route (Some NoteInvalidOrderId) (
    order ← findByIdAndDelete OrderModel id;
    match order with
    | None => mret (Said 404 NoteOrderNotFound)
    | Some _ => mret (Said 200 NoteOrderRemoved)
    end).

(** ** The inventory routes (server.js 864-934) *)

Record InventoryBody := mkInventoryBody {
  ib_itemName : option string;
  ib_quantity : option Number;
  ib_unit : option string;
  ib_minStockLevel : option Number
}.

(** POST /api/inventory: itemName and unit are trimmed, minStockLevel
    defaults to 0 and lastUpdated to [Date.now]; the filter
    [{ itemName }] is cast through the setter of the path. *)
Definition createInventory (now : Date) (body : InventoryBody)
    : Db → Db * Reply (option (ObjectId * Inventory.t)) :=
  route None (
    inventoryItem ← findOne InventoryModel
      (λ kv, bool_decide
               (Some (Inventory.itemName kv.2) = trim <$> ib_itemName body));
    match inventoryItem with
    | Some _ => mret (Said 400 NoteInventoryNameExists)
    | None =>
        match ib_itemName body, ib_quantity body, ib_unit body with
        | Some itemName, Some quantity, Some unit =>
            let inventoryItem :=
              Inventory.mk (trim itemName) quantity (trim unit)
                (default 0%float (ib_minStockLevel body)) now in
            i ← create InventoryModel inventoryItem;
            mret (Sent 201 (Some (i, inventoryItem)))
        | _, _, _ => throw ValidationError
        end
    end).

(** The [inventoryFields] object: quantity and minStockLevel are tested
    against [undefined], not for truth. *)
Definition inventoryFields (b : InventoryBody) : InventoryBody :=
  mkInventoryBody (truthy (ib_itemName b)) (ib_quantity b) (truthy (ib_unit b))
    (ib_minStockLevel b).

(** Its [$set], cast by the schema: itemName and unit are trimmed. *)
Definition setInventoryFields (now : Date) (f : InventoryBody) (d : Inventory.t)
    : Inventory.t :=
  Inventory.mk (default (Inventory.itemName d) (trim <$> ib_itemName f))
    (default (Inventory.quantity d) (ib_quantity f))
    (default (Inventory.unit d) (trim <$> ib_unit f))
    (default (Inventory.minStockLevel d) (ib_minStockLevel f))
    now.

(** PUT /api/inventory/:id.  Reading a field of a null [inventoryItem]
    after the update would be a TypeError; like every error that is not a
    cast error it is answered 500. *)
Definition updateInventory (now : Date) (id : IdParam) (body : InventoryBody)
    : Db → Db * Reply (option (ObjectId * Inventory.t)) :=
  let fields := inventoryFields body in
  route (Some NoteInvalidInventoryId) (
    found ← findById InventoryModel id;
    match found with
    | None => mret (Said 404 NoteInventoryNotFound)
    | Some (i, inventoryItem) =>
        let proceed :=
          updated ← findByIdAndUpdate InventoryModel (Oid i)
            (setInventoryFields now fields);
          match updated with
          | None => throw ValidationError
          | Some (_, inv) =>
              (if (Inventory.quantity inv <=? Inventory.minStockLevel inv)%float
               then warn (WarnLowStock (Inventory.itemName inv)
                            (Inventory.quantity inv) (Inventory.unit inv))
               else mret ());;
              mret (Sent 200 updated)
          end in
        match ib_itemName fields with
        | Some itemName =>
            if negb (String.eqb itemName (Inventory.itemName inventoryItem)) then
              existingItem ← findOne InventoryModel
                (λ kv, String.eqb (Inventory.itemName kv.2) (trim itemName));
              match existingItem with
              | Some (j, _) =>
                  if negb (Pos.eqb j i)
                  then mret (Said 400 NoteInventoryNameExists)
                  else proceed
              | None => proceed
              end
            else proceed
        | None => proceed
        end
    end).

(** DELETE /api/inventory/:id *)
Definition deleteInventory (id : IdParam) : Db → Db * Reply () :=
  route (Some NoteInvalidInventoryId) (
    inventoryItem ← findByIdAndDelete InventoryModel id;
    match inventoryItem with
    | None => mret (Said 404 NoteInventoryNotFound)
    | Some _ => mret (Said 200 NoteInventoryRemoved)
    end).

(** * Vocabulary of the statements *)

(** The quantity that one turn of the loop gives a record that holds [q]
    for an item that moves [d]: the difference or the sum, or zero when
    that is below zero. *)
Definition clampStep (isDecrement : bool) (q d : Number) : Number :=
  let q' := if isDecrement then (q - d)%float else (q + d)%float in
  if (q' <? 0)%float then 0%float else q'.

(** The record that one turn of the loop saves for a matching record. *)
Definition adjusted (now : Date) (isDecrement : bool) (item : StockItem)
    (inv : Inventory.t) : Inventory.t :=
  let q := if isDecrement
           then (Inventory.quantity inv - si_quantity item)%float
           else (Inventory.quantity inv + si_quantity item)%float in
  Inventory.setLastUpdated now
    (Inventory.setQuantity (if (q <? 0)%float then 0%float else q) inv).

(** The filter [{ itemName: n }]. *)
Definition named (n : string) (kv : ObjectId * Inventory.t) : bool :=
  String.eqb (Inventory.itemName kv.2) (trim n).

(** Two states that differ at most in the inventory and the console. *)
Definition sameButInventory (st st' : Db) : Prop :=
  menuItems st' = menuItems st ∧ tables st' = tables st
  ∧ orders st' = orders st ∧ reservations st' = reservations st.

(** The sum of priceAtOrder × quantity over line items, as the doubles
    give it: the products are added one after the other, in the order of
    the line items, to [a]. *)
Definition lineTotalFrom (a : Number) (l : list OrderItem.t) : Number :=
  foldl (λ acc it,
           (acc + OrderItem.priceAtOrder it * OrderItem.quantity it)%float)
        a l.

Definition lineTotal (l : list OrderItem.t) : Number := lineTotalFrom 0%float l.

(** The line item and the stock movement that the order loop derives from
    one requested item that passes its three checks. *)
Definition lineOf (st : Db) (item : OrderRequestItem)
    : option (OrderItem.t * StockItem) :=
  match menuItemId item with
  | Oid mid =>
      match menuItems st !! mid with
      | Some m =>
          if MenuItem.isAvailable m && negb (ri_quantity item <=? 0)%float
          then Some (OrderItem.mk mid (ri_quantity item) (MenuItem.price m),
                     mkStockItem (MenuItem.name m) (ri_quantity item))
          else None
      | None => None
      end
  | Malformed _ => None
  end.

(** A requested item whose menu item exists and is switched off. *)
Definition unavailable (st : Db) (item : OrderRequestItem) : Prop :=
  ∃ mid m, menuItemId item = Oid mid ∧ menuItems st !! mid = Some m
           ∧ MenuItem.isAvailable m = false.

(** A run of later edits of the menu. *)
Definition thenUpdateMenu (edits : list (IdParam * MenuItemBody)) (st : Db) : Db :=
  foldl (λ s e, (updateMenuItem e.1 e.2 s).1) st edits.

(** The [itemsToReturn] of an order: its line items under the current
    names of their menu items. *)
Definition stockOf (st : Db) (o : Order.t) : list StockItem :=
  map (λ it, mkStockItem
               (match menuItems st !! OrderItem.menuItem it with
                | Some m => MenuItem.name m
                | None => "Unknown Item"
                end)
               (OrderItem.quantity it))
      (Order.items o).

(** What a batch makes of the quantity [q] of the record named [n]: the
    items that the filter matches with [n] are applied one after the
    other, each with its clamp. *)
Definition sweep (isDecrement : bool) (l : list StockItem) (n : string)
    (q : Number) : Number :=
  foldl (λ q it, if String.eqb n (trim (si_name it))
                 then clampStep isDecrement q (si_quantity it) else q)
        q l.

(** Is the record named [n] matched by an item of the batch? *)
Definition touched (l : list StockItem) (n : string) : bool :=
  existsb (λ it, String.eqb n (trim (si_name it))) l.

(** What a batch that ends normally makes of a record: its quantity is
    swept and, if an item matched it, it is stamped. *)
Definition swept (now : Date) (isDecrement : bool) (l : list StockItem)
    (d : Inventory.t) : Inventory.t :=
  Inventory.mk (Inventory.itemName d)
    (sweep isDecrement l (Inventory.itemName d) (Inventory.quantity d))
    (Inventory.unit d) (Inventory.minStockLevel d)
    (if touched l (Inventory.itemName d) then now else Inventory.lastUpdated d).

(** The items of a batch that match the record named [n], in their
    order. *)
Definition matching (n : string) (l : list StockItem) : list StockItem :=
  List.filter (λ it, String.eqb n (trim (si_name it))) l.

(** The unique index on [itemName]. *)
Definition uniqueNames (inv : gmap ObjectId Inventory.t) : Prop :=
  ∀ i j d e, inv !! i = Some d → inv !! j = Some e →
             Inventory.itemName d = Inventory.itemName e → i = j.

(** An active reservation (pending or confirmed) holds the table at the
    date and time. *)
Definition activeReservation (st : Db) (tid : ObjectId) (date : Date)
    (time : string) : Prop :=
  ∃ rid r, reservations st !! rid = Some r
    ∧ Reservation.table r = Some tid
    ∧ Reservation.date r = date
    ∧ Reservation.time r = time
    ∧ (Reservation.status r = "pending" ∨ Reservation.status r = "confirmed").


(** A request that carries the five required fields. *)
Definition requiredFields (body : ReservationBody) (customerName phoneNumber : string)
    (date : Date) (time : string) (numberOfGuests : Z) : Prop :=
  truthy (rb_customerName body) = Some customerName
  ∧ truthy (rb_phoneNumber body) = Some phoneNumber
  ∧ rb_date body = Some date
  ∧ truthy (rb_time body) = Some time
  ∧ truthyNum (rb_numberOfGuests body) = Some numberOfGuests.

(** The order of [.sort({ capacity: 1 })]. *)
Definition byCapacity (a b : ObjectId * Table.t) : Prop :=
  Table.capacity a.2 ≤ Table.capacity b.2.


Global Instance byCapacity_dec : RelDecision byCapacity :=
  λ a b, decide (Table.capacity a.2 ≤ Table.capacity b.2).

(** One such sort. *)
Definition mergeSortByCapacity (l : list (ObjectId * Table.t))
    : list (ObjectId * Table.t) :=
  merge_sort byCapacity l.

(** The outcome of [new Reservation(..).save()] at the end of the handler. *)
Definition persistReservation (r : Reservation.t) (st : Db) : Db * Response :=
  if Reservation.valid r
  then (setReservations <[fresh (dom (reservations st)) := r]> st,
        Json 201 (BReservation (fresh (dom (reservations st))) r))
  else (logEntry (LogError ValidationError) st, Send 500 "Server Error").

(** The tables that the auto-assign path fetches. *)
Definition availableFor (guests : Z) (kv : ObjectId * Table.t) : bool :=
  Table.isAvailable kv.2 && (guests <=? Table.capacity kv.2).

(** The availability that a status change gives the attached table. *)
Definition syncedTable (status oldStatus : string) (table : Table.t) : Table.t :=
  if String.eqb status "confirmed" && negb (String.eqb oldStatus "confirmed")
  then Table.setAvailable false table
  else if (String.eqb status "cancelled" || String.eqb status "completed")
          && negb (String.eqb oldStatus "cancelled")
          && negb (String.eqb oldStatus "completed")
  then Table.setAvailable true table
  else table.

(** ** A small restaurant, for the examples *)

Definition sampleMenu : gmap ObjectId MenuItem.t :=
  list_to_map
    [(1%positive, MenuItem.mk "Burger" None 500 "Main Course" true None);
     (2%positive, MenuItem.mk "Cola" None 150 "Beverage" true None);
     (3%positive, MenuItem.mk "Soup" None 300 "Appetizer" false None)].

Definition sampleTables : gmap ObjectId Table.t :=
  list_to_map
    [(1%positive, Table.mk 1 2 true);
     (2%positive, Table.mk 2 4 true);
     (3%positive, Table.mk 3 6 true)].

Definition sampleInventory : gmap ObjectId Inventory.t :=
  list_to_map
    [(1%positive, Inventory.mk "Burger" 2 "pieces" 1 0);
     (2%positive, Inventory.mk "Cola" 10 "pieces" 2 0)].

Definition sampleDb : Db :=
  mkDb sampleMenu sampleTables ∅ ∅ sampleInventory [].

(** Two colas for table 1. *)
Definition colaOrder : OrderBody :=
  mkOrderBody (Some (Oid 1%positive))
    (Some [mkOrderRequestItem (Oid 2%positive) 2]).

(** Five burgers for table 1, three more than the stock holds. *)
Definition burgerOrder : OrderBody :=
  mkOrderBody (Some (Oid 1%positive))
    (Some [mkOrderRequestItem (Oid 1%positive) 5]).

(** The order that [colaOrder] creates at time 1000. *)
Definition colaPlaced : Order.t :=
  Order.mk 1%positive [OrderItem.mk 2%positive 2 150] 300 "pending" 1000 None.

(** A price edit of the cola. *)
Definition colaPriceEdit : list (IdParam * MenuItemBody) :=
  [(Oid 2%positive, mkMenuItemBody None None (Some 999%float) None None None)].

(** The burger record after a decrement by five at time 1000. *)
Definition burgerEmptied : Inventory.t :=
  Inventory.mk "Burger" 0 "pieces" 1 1000.

(** An order for table 1 that names a menu item that does not exist and
    then the soup, which is switched off. *)
Definition ghostThenSoupOrder : OrderBody :=
  mkOrderBody (Some (Oid 1%positive))
    (Some [mkOrderRequestItem (Oid 9%positive) 1;
           mkOrderRequestItem (Oid 3%positive) 1]).

(** An order for table 1 of a cola and then the soup. *)
Definition colaThenSoupOrder : OrderBody :=
  mkOrderBody (Some (Oid 1%positive))
    (Some [mkOrderRequestItem (Oid 2%positive) 1;
           mkOrderRequestItem (Oid 3%positive) 1]).

(** The sample restaurant with the cola order of table 1 served. *)
Definition colaServed : Order.t :=
  Order.mk 1%positive [OrderItem.mk 2%positive 2 150] 300 "completed" 1000
    (Some 1500).

Definition servedDb : Db :=
  mkDb sampleMenu sampleTables {[1%positive := colaServed]} ∅ sampleInventory [].

(** The same, after PUT /api/inventory/:id has given the cola record a
    unit that the schema does not list. *)
Definition gallonsDb : Db :=
  mkDb sampleMenu sampleTables {[1%positive := colaServed]} ∅
    (<[2%positive := Inventory.mk "Cola" 10 "gallons" 2 0]> sampleInventory) [].

(** A party of three for 19:00, no table named. *)
Definition partyOfThree : ReservationBody :=
  mkReservationBody (Some "Ann") (Some "555-0101") (Some 20240101)
    (Some "19:00") (Some 3) None None.

(** The reservation that [partyOfThree] obtains: table 2, of capacity 4. *)
Definition annAtTableTwo : Reservation.t :=
  Reservation.mk "Ann" "555-0101" (Some 2%positive) 20240101 "19:00" 3
    "pending" None.

(** The sample restaurant with Ann's reservation stored. *)
Definition bookedDb : Db :=
  mkDb sampleMenu sampleTables ∅ {[1%positive := annAtTableTwo]}
    sampleInventory [].

(** A party of two that names table 2 for the same evening. *)
Definition partyAtTableTwo : ReservationBody :=
  mkReservationBody (Some "Bob") (Some "555-0102") (Some 20240101)
    (Some "19:00") (Some 2) (Some (Oid 2%positive)) None.

(** Table 2 has been deleted; Ann's reservation still names it. *)
Definition staleDb : Db :=
  mkDb sampleMenu (delete 2%positive sampleTables) ∅
    {[1%positive := annAtTableTwo]} sampleInventory [].



(** A menu with one dish at the largest odd price that a double holds,
    and an order of three of it. *)
Definition caviarDb : Db :=
  mkDb {[1%positive := MenuItem.mk "Caviar" None 9007199254740991
                         "Appetizer" true None]}
    sampleTables ∅ ∅ ∅ [].

Definition caviarOrder : OrderBody :=
  mkOrderBody (Some (Oid 1%positive))
    (Some [mkOrderRequestItem (Oid 1%positive) 3]).

Definition caviarPlaced : Order.t :=
  Order.mk 1%positive [OrderItem.mk 1%positive 3 9007199254740991]
    27021597764222972 "pending" 1000 None.

(** Rice by weight: 3.4 kg in stock, and orders of 1.2 and of half a
    portion. *)
Definition riceDb : Db :=
  mkDb {[1%positive := MenuItem.mk "Rice" None 200 "Main Course" true None]}
    sampleTables ∅ ∅
    {[1%positive := Inventory.mk "Rice" 3.4 "kg" 1 0]} [].

Definition riceOrder : OrderBody :=
  mkOrderBody (Some (Oid 1%positive))
    (Some [mkOrderRequestItem (Oid 1%positive) 1.2]).

Definition halfRiceOrder : OrderBody :=
  mkOrderBody (Some (Oid 1%positive))
    (Some [mkOrderRequestItem (Oid 1%positive) 0.5]).


(** ** Vocabulary of the further statements *)

(** No two documents of a collection share the value of a field: the
    unique indexes on MenuItem.name, Table.tableNumber and
    Inventory.itemName. *)
Definition uniqueBy {D K : Type} (key : D → K) (m : gmap ObjectId D) : Prop :=
  ∀ i j d e, m !! i = Some d → m !! j = Some e → key d = key e → i = j.

(** A reservation that counts toward booking conflicts. *)
Definition active (r : Reservation.t) : Prop :=
  Reservation.status r = "pending" ∨ Reservation.status r = "confirmed".

(** No two active reservations hold the same table at the same date and
    time. *)
Definition noDoubleBooking (rs : gmap ObjectId Reservation.t) : Prop :=
  ∀ i j r1 r2 tid,
    rs !! i = Some r1 → rs !! j = Some r2 →
    active r1 → active r2 →
    Reservation.table r1 = Some tid → Reservation.table r2 = Some tid →
    Reservation.date r1 = Reservation.date r2 →
    Reservation.time r1 = Reservation.time r2 →
    i = j.

(** Every stored order passes its schema and carries the sum of its line
    items as total. *)
Definition ordersSound (os : gmap ObjectId Order.t) : Prop :=
  map_Forall (λ _ o, Order.valid o = true
                     ∧ Order.totalAmount o = lineTotal (Order.items o)) os.

(** The fields of an inventory record that no stock movement touches. *)
Definition sameItem (d d' : Inventory.t) : Prop :=
  Inventory.itemName d' = Inventory.itemName d
  ∧ Inventory.unit d' = Inventory.unit d
  ∧ Inventory.minStockLevel d' = Inventory.minStockLevel d.

(** Two inventories with the same identifiers whose records agree on the
    fields that stock movements leave alone. *)
Definition sameItems (inv inv' : gmap ObjectId Inventory.t) : Prop :=
  (∀ i, inv !! i = None → inv' !! i = None)
  ∧ (∀ i d, inv !! i = Some d → ∃ d', inv' !! i = Some d' ∧ sameItem d d').

(** The low-stock alert that follows a write of the record [d]. *)
Definition lowStockAlert (d : Inventory.t) : list LogEntry :=
  if (Inventory.quantity d <=? Inventory.minStockLevel d)%float
  then [WarnLowStock (Inventory.itemName d) (Inventory.quantity d)
          (Inventory.unit d)]
  else [].

(** The order document that the handler builds from the lines of the
    loop. *)
Definition orderOf (now : Date) (tid : ObjectId)
    (lines : list (OrderItem.t * StockItem)) : Order.t :=
  Order.mk tid lines.*1 (lineTotal lines.*1) "pending" now None.

(** ** Further examples *)

(** A free glass of water. *)
Definition waterBody : MenuItemBody :=
  mkMenuItemBody (Some "Water") None (Some 0%float) (Some "Beverage") None None.

(** An attempt to make the cola free. *)
Definition freeColaEdit : MenuItemBody :=
  mkMenuItemBody None None (Some 0%float) None None None.

(** * Properties *)

Ltac async_unfold :=
  repeat progress
    unfold handler, mbind, mret, Async_bind, Async_ret, respond, throw, gets,
      modify, warn, findById, findOne, find, save, create,
      findByIdAndDelete, findByIdAndUpdate in *.

Lemma taken_Order d st : taken OrderModel d st = false.
Proof. reflexivity. Qed.

Lemma taken_Reservation d st : taken ReservationModel d st = false.
Proof. reflexivity. Qed.

(** ** Doubles and trimmed strings *)

Lemma clampStep_not_negative dec q d : (clampStep dec q d <? 0)%float = false.
Proof.
  unfold clampStep.
  destruct ((if dec then q - d else q + d) <? 0)%float eqn:H; [reflexivity|exact H].
Qed.

(** ** Queries on a collection *)

Lemma find_map_to_list_Some {D} (p : ObjectId * D → bool) (m : gmap ObjectId D) i d :
  List.find p (map_to_list m) = Some (i, d) → m !! i = Some d ∧ p (i, d) = true.
Proof.
  intros H. apply find_some in H as [Hin Hp]. split; [|done].
  apply elem_of_map_to_list. by apply list_elem_of_In.
Qed.

Lemma find_map_to_list_None {D} (p : ObjectId * D → bool) (m : gmap ObjectId D) :
  List.find p (map_to_list m) = None → ∀ i d, m !! i = Some d → p (i, d) = false.
Proof.
  intros H i d Hid. eapply find_none in H; [exact H|].
  apply list_elem_of_In. by apply elem_of_map_to_list.
Qed.

Lemma existsb_map_to_list_false {D} (p : ObjectId * D → bool) (m : gmap ObjectId D) :
  existsb p (map_to_list m) = false → ∀ i d, m !! i = Some d → p (i, d) = false.
Proof.
  intros H i d Hid. destruct (p (i, d)) eqn:Hp; [|done].
  assert (existsb p (map_to_list m) = true); [|congruence].
  apply existsb_exists. exists (i, d). split; [|done].
  apply list_elem_of_In. by apply elem_of_map_to_list.
Qed.

Lemma existsb_map_to_list_true {D} (p : ObjectId * D → bool) (m : gmap ObjectId D) :
  existsb p (map_to_list m) = true → ∃ i d, m !! i = Some d ∧ p (i, d) = true.
Proof.
  intros H. apply existsb_exists in H as [[i d] [Hin Hp]]. exists i, d.
  split; [|done]. apply elem_of_map_to_list. by apply list_elem_of_In.
Qed.

(** ** The inventory adjuster *)

Lemma sameButInventory_refl st : sameButInventory st st.
Proof. by repeat split. Qed.

Lemma sameButInventory_trans st1 st2 st3 :
  sameButInventory st1 st2 → sameButInventory st2 st3 → sameButInventory st1 st3.
Proof.
  intros (?&?&?&?) (?&?&?&?). repeat split; etrans; eauto.
Qed.

(** One turn of the loop, up to the console. *)
Lemma updateInventoryForOrder_step now item rest dec st :
  ∃ st1, sameButInventory st st1 ∧
    match List.find (named (si_name item)) (map_to_list (inventory st)) with
    | None =>
        inventory st1 = inventory st
        ∧ updateInventoryForOrder now (item :: rest) dec st
          = updateInventoryForOrder now rest dec st1
    | Some (i, inv) =>
        if Inventory.valid (adjusted now dec item inv) then
          inventory st1 = <[i := adjusted now dec item inv]> (inventory st)
          ∧ updateInventoryForOrder now (item :: rest) dec st
            = updateInventoryForOrder now rest dec st1
        else
          inventory st1 = inventory st
          ∧ updateInventoryForOrder now (item :: rest) dec st
            = (st1, Exc ValidationError)
    end.
Proof.
  simpl. async_unfold. unfold named, adjusted. simpl.
  destruct (List.find _ _) as [[i inv]|]; simpl.
  - set (q := if dec then _ else _).
    destruct (q <? 0)%float; simpl;
      destruct (Inventory.valid _); simpl;
      try (destruct (_ <=? Inventory.minStockLevel inv)%float; simpl);
      eexists; (split; [|split; [|reflexivity]]); try reflexivity;
      by repeat split.
  - eexists; (split; [|split; [|reflexivity]]); [by repeat split|reflexivity].
Qed.

(** One turn of the loop, with what it logs. *)
Lemma updateInventoryForOrder_step_console now item rest dec st :
  match List.find (named (si_name item)) (map_to_list (inventory st)) with
  | None =>
      updateInventoryForOrder now (item :: rest) dec st
      = updateInventoryForOrder now rest dec
          (logEntry (WarnInventoryNotFound (si_name item)) st)
  | Some (i, inv) =>
      ∃ st1,
        (∀ e, e ∈ console st → e ∈ console st1)
        ∧ if Inventory.valid (adjusted now dec item inv) then
            inventory st1 = <[i := adjusted now dec item inv]> (inventory st)
            ∧ (∀ e, e ∈ lowStockAlert (adjusted now dec item inv) →
                    e ∈ console st1)
            ∧ updateInventoryForOrder now (item :: rest) dec st
              = updateInventoryForOrder now rest dec st1
          else
            inventory st1 = inventory st
            ∧ updateInventoryForOrder now (item :: rest) dec st
              = (st1, Exc ValidationError)
  end.
Proof.
  simpl. async_unfold. unfold named, adjusted, lowStockAlert. simpl.
  destruct (List.find _ _) as [[i inv]|]; simpl; [|done].
  set (q := if dec then _ else _).
  destruct (q <? 0)%float; simpl;
    destruct (Inventory.valid _); simpl;
    try (destruct (_ <=? Inventory.minStockLevel inv)%float; simpl);
    eexists; (split; [|split; [|try split]]); try reflexivity; simpl;
    try reflexivity;
    intros e; rewrite ?elem_of_app; auto; by intros ?%elem_of_nil.
Qed.

Lemma adjusted_quantity now dec item inv :
  Inventory.quantity (adjusted now dec item inv)
  = clampStep dec (Inventory.quantity inv) (si_quantity item).
Proof. reflexivity. Qed.

Lemma Inventory_valid_quantity d :
  Inventory.valid d = true → (0 <=? Inventory.quantity d)%float = true.
Proof.
  unfold Inventory.valid. intros H. apply andb_prop in H as [H _].
  by apply andb_prop in H as [_ H].
Qed.

(** The batch touches nothing but the inventory and the console, and it
    ends normally or with the validation error of a [save]. *)
Lemma updateInventoryForOrder_frame now items dec st :
  sameButInventory st (updateInventoryForOrder now items dec st).1
  ∧ ((updateInventoryForOrder now items dec st).2 = Val ()
     ∨ (updateInventoryForOrder now items dec st).2 = Exc ValidationError).
Proof.
  revert st. induction items as [|item rest IH]; intros st.
  - split; [apply sameButInventory_refl|by left].
  - destruct (updateInventoryForOrder_step now item rest dec st) as (st1 & Hs & H).
    destruct (List.find _ _) as [[i inv]|].
    + destruct (Inventory.valid _); destruct H as [_ ->].
      * destruct (IH st1) as [? ?]. split; [|done].
        by eapply sameButInventory_trans.
      * split; [done|by right].
    + destruct H as [_ ->]. destruct (IH st1) as [? ?]. split; [|done].
      by eapply sameButInventory_trans.
Qed.

(** Every record that the batch leaves in a state other than the one it
    found has passed its schema and holds a quantity that is at least
    zero and not below zero. *)
Lemma updateInventoryForOrder_nonneg now items dec st i d' :
  inventory (updateInventoryForOrder now items dec st).1 !! i = Some d' →
  inventory st !! i = Some d'
  ∨ (Inventory.valid d' = true
     ∧ (0 <=? Inventory.quantity d')%float = true
     ∧ (Inventory.quantity d' <? 0)%float = false).
Proof.
  revert st. induction items as [|item rest IH]; intros st Hd'.
  - by left.
  - destruct (updateInventoryForOrder_step now item rest dec st) as (st1 & Hs & H).
    destruct (List.find _ _) as [[j inv]|].
    + destruct (Inventory.valid (adjusted now dec item inv)) eqn:Hv;
        destruct H as [Hinv Heq]; rewrite Heq in Hd'.
      * apply IH in Hd' as [Hd'|?]; [|by right].
        rewrite Hinv in Hd'. destruct (decide (j = i)) as [->|Hne].
        -- rewrite lookup_insert_eq in Hd'. injection Hd' as <-. right.
           split_and!; [done|by apply Inventory_valid_quantity|].
           rewrite adjusted_quantity. apply clampStep_not_negative.
        -- rewrite lookup_insert_ne in Hd' by done. by left.
      * simpl in Hd'. rewrite Hinv in Hd'. by left.
    + destruct H as [Hinv Heq]. rewrite Heq in Hd'.
      apply IH in Hd' as [Hd'|?]; [|by right]. rewrite Hinv in Hd'. by left.
Qed.

(** Every record that a batch writes has passed its schema. *)
Lemma updateInventoryForOrder_valid now l dec : ∀ st,
  map_Forall (λ _ d, Inventory.valid d = true) (inventory st) →
  map_Forall (λ _ d, Inventory.valid d = true)
    (inventory (updateInventoryForOrder now l dec st).1).
Proof.
  induction l as [|item rest IH]; intros st Hv; [done|].
  destruct (updateInventoryForOrder_step now item rest dec st) as (st1 & _ & H).
  destruct (List.find _ _) as [[j inv]|] eqn:Hf.
  - destruct (Inventory.valid _) eqn:Hadj; destruct H as [Hinv ->].
    + apply IH. rewrite Hinv. by apply map_Forall_insert_2.
    + simpl. by rewrite Hinv.
  - destruct H as [Hinv ->]. apply IH. by rewrite Hinv.
Qed.

(** Batches run one after the other. *)
Lemma updateInventoryForOrder_app now l1 l2 dec : ∀ st,
  updateInventoryForOrder now (l1 ++ l2) dec st
  = match updateInventoryForOrder now l1 dec st with
    | (st1, Val _) => updateInventoryForOrder now l2 dec st1
    | r => r
    end.
Proof.
  induction l1 as [|item rest IH]; intros st.
  - simpl. by destruct (updateInventoryForOrder now l2 dec st) as [? [[]| |]].
  - rewrite <- app_comm_cons.
    destruct (updateInventoryForOrder_step now item (rest ++ l2) dec st)
      as (st1 & _ & H).
    destruct (updateInventoryForOrder_step now item rest dec st)
      as (st1' & _ & H').
    revert H H'. simpl. async_unfold. unfold named, adjusted. simpl.
    destruct (List.find _ _) as [[i inv]|]; simpl.
    + set (q := if dec then _ else _).
      destruct (q <? 0)%float; simpl; destruct (Inventory.valid _); simpl;
        try (destruct (_ <=? Inventory.minStockLevel inv)%float; simpl);
        intros _ _; try done; apply IH.
    + intros _ _. apply IH.
Qed.

(** ** Stock movements in closed form *)

Lemma find_named_Some n (inv : gmap ObjectId Inventory.t) i d :
  List.find (named n) (map_to_list inv) = Some (i, d) →
  inv !! i = Some d ∧ Inventory.itemName d = trim n.
Proof.
  intros H. apply find_map_to_list_Some in H as [? H]. split; [done|].
  by apply String.eqb_eq in H.
Qed.

Lemma find_named_None n (inv : gmap ObjectId Inventory.t) i d :
  List.find (named n) (map_to_list inv) = None →
  inv !! i = Some d → Inventory.itemName d ≠ trim n.
Proof.
  intros H Hd. eapply find_map_to_list_None in H; [|exact Hd].
  by apply String.eqb_neq in H.
Qed.

Lemma find_named_absent n (inv : gmap ObjectId Inventory.t) :
  (∀ i d, inv !! i = Some d → Inventory.itemName d ≠ trim n) →
  List.find (named n) (map_to_list inv) = None.
Proof.
  intros Habs. destruct (List.find _ _) as [[i d]|] eqn:Hf; [|done].
  apply find_named_Some in Hf as [Hi Hn]. by destruct (Habs i d Hi).
Qed.

Lemma uniqueNames_insert inv i d d' :
  uniqueNames inv → inv !! i = Some d →
  Inventory.itemName d' = Inventory.itemName d →
  uniqueNames (<[i := d']> inv).
Proof.
  intros Hu Hi Hn j k e f Hj Hk Hjk.
  destruct (decide (i = j)) as [<-|Hij], (decide (i = k)) as [<-|Hik];
    simplify_map_eq; try done.
  - exfalso. apply Hik. eapply (Hu i k); eauto. congruence.
  - exfalso. apply Hij. eapply (Hu i j); eauto. congruence.
  - eapply Hu; eauto.
Qed.

Lemma swept_nil now dec d : swept now dec [] d = d.
Proof. by destruct d. Qed.

Lemma swept_cons_other now dec item rest d :
  Inventory.itemName d ≠ trim (si_name item) →
  swept now dec (item :: rest) d = swept now dec rest d.
Proof.
  intros Hne. apply String.eqb_neq in Hne. unfold swept, sweep, touched. simpl.
  by rewrite Hne.
Qed.

Lemma swept_cons_same now dec item rest d :
  Inventory.itemName d = trim (si_name item) →
  swept now dec (item :: rest) d = swept now dec rest (adjusted now dec item d).
Proof.
  intros Heq. apply String.eqb_eq in Heq. unfold swept, sweep, touched. simpl.
  rewrite Heq. simpl. by destruct (existsb _ _).
Qed.

(** A batch that ends normally on an inventory with unique names sweeps
    every record. *)
Lemma updateInventoryForOrder_swept now dec l : ∀ st,
  uniqueNames (inventory st) →
  (updateInventoryForOrder now l dec st).2 = Val () →
  inventory (updateInventoryForOrder now l dec st).1
  = swept now dec l <$> inventory st.
Proof.
  induction l as [|item rest IH]; intros st Hu Hres.
  - simpl. apply map_eq. intros i. rewrite lookup_fmap.
    destruct (inventory st !! i); simpl; [|done]. by rewrite swept_nil.
  - destruct (updateInventoryForOrder_step now item rest dec st) as (st1 & _ & H).
    destruct (List.find _ _) as [[j inv]|] eqn:Hf.
    + apply find_named_Some in Hf as [Hj Hn].
      destruct (Inventory.valid _); destruct H as [Hinv Heq];
        rewrite Heq in Hres |- *; [|done].
      rewrite IH; [|rewrite Hinv; by eapply uniqueNames_insert|done].
      rewrite Hinv. apply map_eq. intros i.
      rewrite !lookup_fmap. destruct (decide (j = i)) as [->|Hne].
      * rewrite lookup_insert_eq, Hj. simpl. f_equal. symmetry.
        by apply swept_cons_same.
      * rewrite lookup_insert_ne by done.
        destruct (inventory st !! i) as [d|] eqn:Hi; [|done]. simpl. f_equal.
        symmetry. apply swept_cons_other. intros Heq'. apply Hne.
        eapply Hu; eauto. congruence.
    + destruct H as [Hinv Heq]. rewrite Heq in Hres |- *.
      rewrite IH; [|by rewrite Hinv|done].
      rewrite Hinv. apply map_eq. intros i. rewrite !lookup_fmap.
      destruct (inventory st !! i) as [d|] eqn:Hi; [|done]. simpl. f_equal.
      symmetry. apply swept_cons_other. by eapply find_named_None.
Qed.

Lemma sweep_matching dec l n q :
  sweep dec l n q
  = foldl (λ q it, clampStep dec q (si_quantity it)) q (matching n l).
Proof.
  revert q. induction l as [|it l IH]; intros q; [done|].
  unfold sweep, matching in *. simpl.
  destruct (String.eqb n (trim (si_name it))); simpl; apply IH.
Qed.

Lemma touched_matching l n : touched l n = negb (bool_decide (matching n l = [])).
Proof.
  induction l as [|it l IH]; [done|]. unfold touched, matching in *. simpl.
  destruct (String.eqb n (trim (si_name it))); simpl; [done|apply IH].
Qed.

Lemma swept_matching now dec l l' d :
  matching (Inventory.itemName d) l = matching (Inventory.itemName d) l' →
  swept now dec l d = swept now dec l' d.
Proof.
  intros H. unfold swept. by rewrite !sweep_matching, !touched_matching, H.
Qed.

(** ** The order loop *)

Lemma orderLoop_state items acc st : (orderLoop items acc st).1 = st.
Proof.
  revert acc. induction items as [|item rest IH]; intros acc; simpl; [done|].
  async_unfold. destruct (menuItemId item) as [mid|raw]; simpl; [|done].
  destruct (menuItems st !! mid) as [m|]; simpl; [|done].
  destruct (MenuItem.isAvailable m); simpl; [|done].
  destruct (ri_quantity item <=? 0)%float; simpl; [done|]. apply IH.
Qed.

Lemma lineTotalFrom_app a l k :
  lineTotalFrom a (l ++ k) = lineTotalFrom (lineTotalFrom a l) k.
Proof. unfold lineTotalFrom. apply foldl_app. Qed.

Lemma orderLoop_Val items acc st st' acc' :
  orderLoop items acc st = (st', Val acc') →
  ∃ lines, Forall2 (λ item line, lineOf st item = Some line) items lines
    ∧ acc_orderItems acc' = acc_orderItems acc ++ lines.*1
    ∧ acc_menuItemsForInventoryUpdate acc'
      = acc_menuItemsForInventoryUpdate acc ++ lines.*2
    ∧ acc_totalAmount acc' = lineTotalFrom (acc_totalAmount acc) lines.*1.
Proof.
  revert acc. induction items as [|item rest IH]; intros acc; simpl.
  - intros [= <- <-]. exists []. simpl. rewrite !app_nil_r.
    repeat split; constructor.
  - pose proof (eq_refl (lineOf st item)) as Hl. unfold lineOf at 2 in Hl.
    async_unfold.
    destruct (menuItemId item) as [mid|raw]; simpl; [|done].
    destruct (menuItems st !! mid) as [m|]; simpl; [|done].
    destruct (MenuItem.isAvailable m); simpl; [|done].
    destruct (ri_quantity item <=? 0)%float; simpl; [done|].
    simpl in Hl.
    intros H. apply IH in H as (lines & HF & Hi & Hs & Ht). simpl in *.
    eexists (_ :: lines). split; [by constructor|]. simpl.
    rewrite Hi, Hs, Ht, <- !app_assoc. simpl.
    repeat split; reflexivity.
Qed.

(** The loop answers only with one of its three rejections. *)
Lemma orderLoop_Done items acc st st' r :
  orderLoop items acc st = (st', Done r) →
  (∃ id, r = Json 404 (BMsg (MsgMenuItemIdNotFound id)))
  ∨ (∃ n, r = Json 400 (BMsg (MsgNotAvailable n)))
  ∨ (∃ n, r = Json 400 (BMsg (MsgQuantityAtLeastOne n))).
Proof.
  revert acc. induction items as [|item rest IH]; intros acc; simpl; [done|].
  async_unfold. destruct (menuItemId item) as [mid|raw]; simpl; [|done].
  destruct (menuItems st !! mid) as [m|]; simpl; [|intros [= <- <-]; eauto].
  destruct (MenuItem.isAvailable m); simpl; [|intros [= <- <-]; eauto].
  destruct (ri_quantity item <=? 0)%float; simpl; [intros [= <- <-]; eauto|].
  apply IH.
Qed.

(** The loop on items that all pass its checks. *)
Lemma orderLoop_lines st items lines : ∀ acc,
  Forall2 (λ item line, lineOf st item = Some line) items lines →
  orderLoop items acc st
  = (st, Val (mkOrderAcc (lineTotalFrom (acc_totalAmount acc) lines.*1)
                (acc_orderItems acc ++ lines.*1)
                (acc_menuItemsForInventoryUpdate acc ++ lines.*2))).
Proof.
  intros acc HF. revert acc.
  induction HF as [|item line items lines Hl _ IH]; intros acc.
  - simpl. rewrite !app_nil_r. by destruct acc.
  - simpl. async_unfold.
    pose proof Hl as Hl'. unfold lineOf in Hl'.
    destruct (menuItemId item) as [mid|]; [|done]. simpl.
    destruct (menuItems st !! mid) as [m|]; [|done]. simpl.
    destruct (MenuItem.isAvailable m); [|done]. simpl in *.
    destruct (ri_quantity item <=? 0)%float; [done|]. simpl in *.
    injection Hl' as <-. rewrite IH. simpl.
    by rewrite <- !app_assoc.
Qed.

(** ** Placing an order *)

Local Arguments orderLoop : simpl never.
Local Arguments updateInventoryForOrder : simpl never.

(** The handler once the table is found and the loop has passed: the
    order document is validated and stored, then the stock is moved. *)
Lemma placeOrder_lines now body st tid items lines :
  truthyId (ob_tableId body) = Some (Oid tid) →
  is_Some (tables st !! tid) →
  ob_items body = Some items → items ≠ [] →
  Forall2 (λ item line, lineOf st item = Some line) items lines →
  placeOrder now body st
  = if Order.valid (orderOf now tid lines) then
      match updateInventoryForOrder now lines.*2 true
              (setOrders <[fresh (dom (orders st)) := orderOf now tid lines]> st)
      with
      | (st2, Val _) =>
          (st2, Json 201 (BOrder (fresh (dom (orders st))) (orderOf now tid lines)))
      | (st2, _) =>
          (logEntry (LogError ValidationError) st2, Send 500 "Server Error")
      end
    else (logEntry (LogError ValidationError) st, Send 500 "Server Error").
Proof.
  intros Htid [t Ht] Hitems Hne HF. unfold placeOrder. rewrite Htid, Hitems.
  destruct items as [|it items]; [done|].
  async_unfold. simpl. rewrite Ht. simpl.
  rewrite (orderLoop_lines st (it :: items) lines _ HF). simpl.
  change (Order.mk tid lines.*1 (lineTotalFrom 0 lines.*1) "pending" now None)
    with (orderOf now tid lines).
  destruct (Order.valid _); simpl; [|done].
  match goal with
  | |- context [updateInventoryForOrder ?n ?l ?d ?s] =>
      pose proof (updateInventoryForOrder_frame n l d s) as [_ Hres];
      destruct (updateInventoryForOrder n l d s) as [st2 res]
  end.
  simpl in Hres. by destruct Hres as [-> | ->].
Qed.

Lemma placeOrder_created now body st st' oid o :
  placeOrder now body st = (st', Json 201 (BOrder oid o)) →
  ∃ tid items lines,
    truthyId (ob_tableId body) = Some (Oid tid) ∧ is_Some (tables st !! tid)
    ∧ ob_items body = Some items ∧ items ≠ []
    ∧ Forall2 (λ item line, lineOf st item = Some line) items lines
    ∧ o = orderOf now tid lines
    ∧ Order.valid o = true
    ∧ oid = fresh (dom (orders st))
    ∧ updateInventoryForOrder now lines.*2 true (setOrders <[oid := o]> st)
      = (st', Val ()).
Proof.
  unfold placeOrder.
  destruct (truthyId (ob_tableId body)) as [[tid|raw]|]; [| |done];
    (destruct (ob_items body) as [[|it items]|]; [done| |done]).
  2: { async_unfold. simpl. done. }
  async_unfold. simpl.
  destruct (tables st !! tid) as [t|] eqn:Ht; simpl; [|done].
  destruct (orderLoop (it :: items) _ st) as [st1 [acc|r|e]] eqn:Hloop.
  2: { intros [= <- ->]. apply orderLoop_Done in Hloop.
       destruct Hloop as [[? ?]|[[? ?]|[? ?]]]; done. }
  2: { by destruct e. }
  pose proof (orderLoop_state (it :: items) (mkOrderAcc 0 [] []) st) as Hst.
  rewrite Hloop in Hst. simpl in Hst. subst st1.
  apply orderLoop_Val in Hloop as (lines & HF & Hi & Hs & Ht'). simpl in *.
  rewrite Hi, Hs, Ht'. simpl.
  change (Order.mk tid lines.*1 (lineTotalFrom 0 lines.*1) "pending" now None)
    with (orderOf now tid lines).
  destruct (Order.valid _) eqn:Hv; simpl; [|done].
  destruct (updateInventoryForOrder _ _ _ _) as [st2 [[]|r|e]] eqn:Hupd.
  - intros [= <- <- <-]. exists tid, (it :: items), lines.
    split_and!; done.
  - match type of Hupd with
    | updateInventoryForOrder ?n ?l ?d ?s = _ =>
        pose proof (updateInventoryForOrder_frame n l d s) as [_ [H|H]]
    end; rewrite Hupd in H; done.
  - by destruct e.
Qed.

Lemma updateMenuItem_frame id body st :
  orders (updateMenuItem id body st).1 = orders st
  ∧ inventory (updateMenuItem id body st).1 = inventory st
  ∧ tables (updateMenuItem id body st).1 = tables st
  ∧ reservations (updateMenuItem id body st).1 = reservations st.
Proof.
  unfold updateMenuItem. cbv zeta. generalize (menuItemFields body) as fields.
  intros fields. async_unfold. destruct id as [i|raw]; simpl; [|done].
  destruct (menuItems st !! i) as [m|] eqn:Hm; simpl; [|done].
  destruct (mb_name fields) as [n|]; simpl.
  2: { rewrite Hm. simpl. by destruct (_ && taken _ _ _). }
  destruct (negb (n =? MenuItem.name m)%string); simpl.
  2: { rewrite Hm. simpl. by destruct (_ && taken _ _ _). }
  destruct (List.find _ _) as [[j ?]|]; simpl.
  2: { rewrite Hm. simpl. by destruct (_ && taken _ _ _). }
  destruct (negb (j =? i)%positive); simpl; [done|].
  rewrite Hm. simpl. by destruct (_ && taken _ _ _).
Qed.

Lemma thenUpdateMenu_orders edits st :
  orders (thenUpdateMenu edits st) = orders st.
Proof.
  revert st. induction edits as [|e edits IH]; intros st; simpl; [done|].
  unfold thenUpdateMenu in *. simpl. rewrite IH.
  apply updateMenuItem_frame.
Qed.

Lemma fresh_lookup_None {D} (m : gmap ObjectId D) : m !! fresh (dom m) = None.
Proof. apply not_elem_of_dom, is_fresh. Qed.

Lemma lineOf_price st item line :
  lineOf st item = Some line →
  ∃ m, menuItems st !! OrderItem.menuItem line.1 = Some m
       ∧ OrderItem.priceAtOrder line.1 = MenuItem.price m
       ∧ OrderItem.quantity line.1 = ri_quantity item
       ∧ menuItemId item = Oid (OrderItem.menuItem line.1)
       ∧ line.2 = mkStockItem (MenuItem.name m) (ri_quantity item)
       ∧ (ri_quantity item <=? 0)%float = false
       ∧ MenuItem.isAvailable m = true.
Proof.
  unfold lineOf. destruct (menuItemId item) as [mid|]; [|done].
  destruct (menuItems st !! mid) as [m|] eqn:Hm; [|done].
  destruct (MenuItem.isAvailable m) eqn:Ha; [|done].
  destruct (ri_quantity item <=? 0)%float eqn:Hq; [done|].
  intros [= <-]. simpl. exists m. by split_and!.
Qed.

(** C1. A placed order stores as totalAmount the sum of priceAtOrder times
    quantity over its line items, the products being added in the order of
    the line items as the doubles add them; each priceAtOrder is the price
    that the referenced menu item had when the order was placed; later
    edits of the menu, price included, leave the stored order as it is. *)
Theorem placeOrder_total_snapshot now body st st' oid o :
  placeOrder now body st = (st', Json 201 (BOrder oid o)) →
  orders st !! oid = None
  ∧ orders st' !! oid = Some o
  ∧ Order.totalAmount o = lineTotal (Order.items o)
  ∧ Forall (λ it, ∃ m, menuItems st !! OrderItem.menuItem it = Some m
                      ∧ OrderItem.priceAtOrder it = MenuItem.price m)
           (Order.items o)
  ∧ ∀ edits, orders (thenUpdateMenu edits st') !! oid = Some o.
Proof.
  intros H.
  apply placeOrder_created in H
    as (tid & items & lines & _ & _ & _ & _ & HF & -> & _ & -> & Hupd).
  assert (orders st' !! fresh (dom (orders st)) = Some (orderOf now tid lines))
    as Hst'.
  { match type of Hupd with
    | updateInventoryForOrder ?n ?l ?d ?s = _ =>
        pose proof (updateInventoryForOrder_frame n l d s) as [(_&_&Ho&_) _]
    end.
    rewrite Hupd in Ho. simpl in Ho. rewrite Ho. apply lookup_insert_eq. }
  split_and!; try done.
  - apply fresh_lookup_None.
  - simpl. clear Hupd Hst'. induction HF as [|item line items lines Hl _ IH];
      simpl; constructor; [|done].
    apply lineOf_price in Hl as (m & ? & ? & _). eauto.
  - intros edits. by rewrite thenUpdateMenu_orders.
Qed.

Lemma placeOrder_total_snapshot_witness :
  placeOrder 1000 caviarOrder caviarDb
  = ((placeOrder 1000 caviarOrder caviarDb).1,
     Json 201 (BOrder 1%positive caviarPlaced))
  ∧ Order.totalAmount caviarPlaced = 27021597764222972%float
  ∧ Order.totalAmount caviarPlaced = lineTotal (Order.items caviarPlaced)
  ∧ orders (thenUpdateMenu [(Oid 1%positive,
                             mkMenuItemBody None None (Some 10%float) None None
                               None)]
              (placeOrder 1000 caviarOrder caviarDb).1)
      !! 1%positive
    = Some caviarPlaced.
Proof.
  assert (placeOrder 1000 caviarOrder caviarDb
          = ((placeOrder 1000 caviarOrder caviarDb).1,
             Json 201 (BOrder 1%positive caviarPlaced))) as H
    by (vm_compute; reflexivity).
  split; [exact H|]. split; [reflexivity|].
  pose proof (placeOrder_total_snapshot _ _ _ _ _ _ H) as (_ & _ & Ht & _ & He).
  split; [exact Ht|apply He].
Defined.

(** C2. Whatever the batch, a decrement or an increment, and whatever its
    length: every inventory record that it leaves changed holds a quantity
    that is at least zero; and every turn of its loop, on the state that
    the turns before it left, stores for the record that it finds the
    difference or the sum, or exactly zero when that is below zero, and
    goes on with the rest of the batch.  (A turn whose record does not
    pass its schema throws, and nothing is stored by it.)  So, where item
    names are unique, a batch that ends normally leaves each record with
    its quantity moved by every item of its name in turn, each step
    replacing a result below zero by zero. *)
Theorem updateInventoryForOrder_never_negative now items dec st :
  (∀ i d', inventory (updateInventoryForOrder now items dec st).1 !! i = Some d' →
     inventory st !! i = Some d'
     ∨ ((0 <=? Inventory.quantity d')%float = true
        ∧ (Inventory.quantity d' <? 0)%float = false))
  ∧ (∀ item rest,
       items = item :: rest →
       match List.find (named (si_name item)) (map_to_list (inventory st)) with
       | Some (i, d) =>
           let q := if dec
                    then (Inventory.quantity d - si_quantity item)%float
                    else (Inventory.quantity d + si_quantity item)%float in
           let d' :=
             Inventory.setLastUpdated now
               (Inventory.setQuantity (if (q <? 0)%float then 0%float else q) d) in
           ∃ st1, sameButInventory st st1 ∧
             if Inventory.valid d' then
               inventory st1 = <[i := d']> (inventory st)
               ∧ updateInventoryForOrder now items dec st
                 = updateInventoryForOrder now rest dec st1
             else
               inventory st1 = inventory st
               ∧ updateInventoryForOrder now items dec st
                 = (st1, Exc ValidationError)
       | None =>
           ∃ st1, sameButInventory st st1 ∧ inventory st1 = inventory st
             ∧ updateInventoryForOrder now items dec st
               = updateInventoryForOrder now rest dec st1
       end)
  ∧ (uniqueNames (inventory st) →
     (updateInventoryForOrder now items dec st).2 = Val () →
     ∀ i d, inventory st !! i = Some d →
       ∃ d', inventory (updateInventoryForOrder now items dec st).1 !! i = Some d'
             ∧ Inventory.quantity d'
               = foldl (λ q item,
                          if String.eqb (Inventory.itemName d) (trim (si_name item))
                          then
                            let q' := if dec then (q - si_quantity item)%float
                                      else (q + si_quantity item)%float in
                            if (q' <? 0)%float then 0%float else q'
                          else q)
                       (Inventory.quantity d) items).
Proof.
  split_and!.
  - intros i d' Hd'.
    destruct (updateInventoryForOrder_nonneg now items dec st i d' Hd')
      as [?|(_ & ? & ?)]; auto.
  - intros item rest ->.
    destruct (updateInventoryForOrder_step now item rest dec st) as (st1 & Hs & H).
    destruct (List.find _ _) as [[i d]|]; cbv zeta; exists st1; by split.
  - intros Hu Hres i d Hi.
    rewrite (updateInventoryForOrder_swept now dec items st Hu Hres).
    rewrite lookup_fmap, Hi. simpl. by eexists.
Qed.

Lemma updateInventoryForOrder_never_negative_witness :
  Inventory.quantity
    <$> inventory (updateInventoryForOrder 1000
                     [mkStockItem "Burger" 5; mkStockItem "Cola" 2;
                      mkStockItem "Burger" 1] true sampleDb).1 !! 1%positive
  = Some 0%float
  ∧ Inventory.quantity
      <$> inventory (updateInventoryForOrder 1000
                       [mkStockItem "Burger" 5; mkStockItem "Cola" 2;
                        mkStockItem "Burger" 1] true sampleDb).1 !! 2%positive
    = Some 8%float
  ∧ (inventory sampleDb !! 1%positive = Some burgerEmptied
     ∨ ((0 <=? Inventory.quantity burgerEmptied)%float = true
        ∧ (Inventory.quantity burgerEmptied <? 0)%float = false)).
Proof.
  split; [vm_compute; reflexivity|]. split; [vm_compute; reflexivity|].
  apply (proj1 (updateInventoryForOrder_never_negative 1000
                  [mkStockItem "Burger" 5; mkStockItem "Cola" 2;
                   mkStockItem "Burger" 1] true sampleDb) 1%positive).
  vm_compute; reflexivity.
Defined.

(** ** Rejected orders *)

Lemma orderLoop_Exc items acc st st' e :
  orderLoop items acc st = (st', Exc e) → e = CastError.
Proof.
  revert acc. induction items as [|item rest IH]; intros acc;
    unfold orderLoop; fold orderLoop; [done|].
  async_unfold. destruct (menuItemId item) as [mid|raw]; simpl; [|by intros [= _ <-]].
  destruct (menuItems st !! mid) as [m|]; simpl; [|done].
  destruct (MenuItem.isAvailable m); simpl; [|done].
  destruct (ri_quantity item <=? 0)%float; simpl; [done|]. apply IH.
Qed.

Lemma unavailable_lineOf st item : unavailable st item → lineOf st item = None.
Proof.
  intros (mid & m & Hid & Hm & Ha). unfold lineOf. by rewrite Hid, Hm, Ha.
Qed.

(** The loop stops at the first requested item that is switched off when
    the items before it pass. *)
Lemma orderLoop_first_unavailable pre item post acc st mid m :
  Forall (λ it, is_Some (lineOf st it)) pre →
  menuItemId item = Oid mid → menuItems st !! mid = Some m →
  MenuItem.isAvailable m = false →
  orderLoop (pre ++ item :: post) acc st
  = (st, Done (Json 400 (BMsg (MsgNotAvailable (MenuItem.name m))))).
Proof.
  intros Hpre Hid Hm Ha. revert acc.
  induction Hpre as [|it pre [line Hl] _ IH]; intros acc; simpl;
    unfold orderLoop; fold orderLoop; async_unfold.
  - rewrite Hid. simpl. rewrite Hm. simpl. by rewrite Ha.
  - apply lineOf_price in Hl as (m' & Hm' & _ & _ & Hid' & _ & Hq & Ha').
    rewrite Hid'. simpl. rewrite Hm'. simpl. rewrite Ha'. simpl.
    rewrite Hq. apply IH.
Qed.

(** A request with an item that is switched off never gets past the loop,
    and the handler leaves every collection as it found it. *)
Lemma placeOrder_unavailable_rejected now body st items item :
  ob_items body = Some items → item ∈ items → unavailable st item →
  (statusCode (placeOrder now body st).2 = 400
   ∨ statusCode (placeOrder now body st).2 = 404)
  ∧ orders (placeOrder now body st).1 = orders st
  ∧ inventory (placeOrder now body st).1 = inventory st.
Proof.
  intros Hitems Hin Hun. unfold placeOrder. rewrite Hitems.
  destruct (truthyId (ob_tableId body)) as [tableId|]; [|simpl; auto].
  destruct items as [|it0 items0]; [simpl; auto|].
  async_unfold. destruct tableId as [tid|raw]; simpl; [|auto].
  destruct (tables st !! tid) as [t|]; simpl; [|auto].
  pose proof (orderLoop_state (it0 :: items0) (mkOrderAcc 0 [] []) st) as Hst.
  destruct (orderLoop (it0 :: items0) _ st) as [st1 [acc|r|e]] eqn:Hloop;
    simpl in Hst; subst st1.
  - apply orderLoop_Val in Hloop as (lines & HF & _).
    apply unavailable_lineOf in Hun.
    apply list_elem_of_lookup in Hin as [k Hk].
    destruct (Forall2_lookup_l _ _ _ _ _ HF Hk) as (line & _ & Hl). congruence.
  - apply orderLoop_Done in Hloop as [[? ->]|[[? ->]|[? ->]]]; simpl; auto.
  - apply orderLoop_Exc in Hloop as ->. simpl. auto.
Qed.

(** C6, as amended.  An order that asks for a menu item that is switched
    off is rejected, no order is stored and no inventory record changes;
    the rejection is the Conflict of that item when the table exists and
    every item requested before it passes its checks, and otherwise the
    rejection of the earlier check. *)
Theorem placeOrder_unavailable_item now body st items item :
  ob_items body = Some items → item ∈ items → unavailable st item →
  ((statusCode (placeOrder now body st).2 = 400
    ∨ statusCode (placeOrder now body st).2 = 404)
   ∧ orders (placeOrder now body st).1 = orders st
   ∧ inventory (placeOrder now body st).1 = inventory st)
  ∧ (∀ tid pre post mid m,
       truthyId (ob_tableId body) = Some (Oid tid) →
       is_Some (tables st !! tid) →
       items = pre ++ item :: post →
       Forall (λ it, is_Some (lineOf st it)) pre →
       menuItemId item = Oid mid → menuItems st !! mid = Some m →
       placeOrder now body st
       = (st, Json 400 (BMsg (MsgNotAvailable (MenuItem.name m))))
       ∧ errorKind (placeOrder now body st).2 = Some Conflict).
Proof.
  intros Hitems Hin Hun. split.
  - by eapply placeOrder_unavailable_rejected.
  - intros tid pre post mid m Htid [t Ht] -> Hpre Hid Hm.
    destruct Hun as (mid' & m' & Hid' & Hm' & Ha).
    assert (mid' = mid) as -> by congruence.
    assert (m' = m) as -> by congruence.
    assert (placeOrder now body st
            = (st, Json 400 (BMsg (MsgNotAvailable (MenuItem.name m))))) as Heq.
    { unfold placeOrder. rewrite Hitems, Htid.
      destruct pre; simpl app; async_unfold; simpl; rewrite Ht; simpl.
      - by rewrite (orderLoop_first_unavailable [] item post _ st mid m).
      - by rewrite (orderLoop_first_unavailable (o :: pre) item post _ st mid m). }
    by rewrite Heq.
Qed.

Lemma placeOrder_unavailable_item_witness :
  unavailable sampleDb (mkOrderRequestItem (Oid 3%positive) 1)
  ∧ placeOrder 1000 colaThenSoupOrder sampleDb
    = (sampleDb, Json 400 (BMsg (MsgNotAvailable "Soup")))
  ∧ orders (placeOrder 1000 colaThenSoupOrder sampleDb).1 = orders sampleDb
  ∧ inventory (placeOrder 1000 colaThenSoupOrder sampleDb).1 = inventory sampleDb.
Proof.
  assert (unavailable sampleDb (mkOrderRequestItem (Oid 3%positive) 1)) as Hun.
  { exists 3%positive, (MenuItem.mk "Soup" None 300 "Appetizer" false None).
    split_and!; reflexivity. }
  assert (mkOrderRequestItem (Oid 3%positive) 1
          ∈ [mkOrderRequestItem (Oid 2%positive) 1;
             mkOrderRequestItem (Oid 3%positive) 1]) as Hin
    by (apply list_elem_of_further, list_elem_of_here).
  pose proof (placeOrder_unavailable_item 1000 colaThenSoupOrder sampleDb _ _
                eq_refl Hin Hun) as [(_ & Ho & Hi) Hc].
  split; [exact Hun|]. split; [|by split].
  refine (proj1 (Hc 1%positive [mkOrderRequestItem (Oid 2%positive) 1] []
            3%positive (MenuItem.mk "Soup" None 300 "Appetizer" false None)
            eq_refl _ eq_refl _ eq_refl eq_refl)).
  - eexists. reflexivity.
  - constructor; [|constructor]. eexists. reflexivity.
Defined.

(** C6 as stated fails: the soup is switched off, yet the request is
    answered 404 for the unknown item that precedes it, not with Conflict. *)
Lemma placeOrder_unavailable_not_always_conflict :
  ob_items ghostThenSoupOrder
  = Some [mkOrderRequestItem (Oid 9%positive) 1;
          mkOrderRequestItem (Oid 3%positive) 1]
  ∧ unavailable sampleDb (mkOrderRequestItem (Oid 3%positive) 1)
  ∧ (placeOrder 1000 ghostThenSoupOrder sampleDb).2
    = Json 404 (BMsg (MsgMenuItemIdNotFound (Oid 9%positive)))
  ∧ errorKind (placeOrder 1000 ghostThenSoupOrder sampleDb).2 ≠ Some Conflict.
Proof.
  split_and!.
  - reflexivity.
  - exists 3%positive, (MenuItem.mk "Soup" None 300 "Appetizer" false None).
    split_and!; reflexivity.
  - vm_compute. reflexivity.
  - vm_compute. discriminate.
Qed.

(** ** Order status *)

Lemma mapAsync_itemToReturn st o :
  mapAsync itemToReturn (Order.items o) st = (st, Val (stockOf st o)).
Proof.
  unfold stockOf. induction (Order.items o) as [|it its IH]; simpl; [done|].
  unfold mbind, Async_bind at 1. unfold itemToReturn at 1. async_unfold. simpl.
  rewrite IH. by destruct (menuItems st !! OrderItem.menuItem it).
Qed.

Lemma Order_valid_setStatus s o :
  Order.valid o = true → s ∈ Order.statuses →
  Order.valid (Order.setStatus s o) = true.
Proof.
  unfold Order.valid. simpl. intros H Hs.
  apply andb_prop in H as [-> _]. simpl. by apply bool_decide_eq_true.
Qed.

Lemma Order_valid_setCompletionTime c o :
  Order.valid (Order.setCompletionTime c o) = Order.valid o.
Proof. done. Qed.

Lemma Order_invalid_status s o :
  s ∉ Order.statuses → Order.valid (Order.setStatus s o) = false.
Proof.
  unfold Order.valid. simpl. intros Hs.
  rewrite (bool_decide_eq_false_2 _ Hs). apply andb_false_r.
Qed.

Lemma truthy_Some s : s ≠ "" → truthy (Some s) = Some s.
Proof. intros H. simpl. apply String.eqb_neq in H. by rewrite H. Qed.

(** The handler on an order that exists, for a non-empty status. *)
Lemma updateOrderStatus_found now oid o status st :
  orders st !! oid = Some o → status ≠ "" →
  let order := Order.setStatus status o in
  let order :=
    if String.eqb status "completed" && negb (String.eqb (Order.status o) "completed")
    then Order.setCompletionTime now order else order in
  let restock :=
    if String.eqb status "cancelled" && negb (String.eqb (Order.status o) "cancelled")
    then updateInventoryForOrder now (stockOf st o) false st
    else (st, Val ()) in
  updateOrderStatus now (Oid oid) (Some status) st
  = match restock.2 with
    | Val _ =>
        if Order.valid order
        then (setOrders <[oid := order]> restock.1, Json 200 (BOrder oid order))
        else (logEntry (LogError ValidationError) restock.1,
              Send 500 "Server Error")
    | _ => (logEntry (LogError ValidationError) restock.1,
            Send 500 "Server Error")
    end.
Proof.
  intros Ho Hs. unfold updateOrderStatus. rewrite (truthy_Some _ Hs).
  async_unfold. simpl. rewrite Ho. simpl.
  destruct (String.eqb status "cancelled"
            && negb (String.eqb (Order.status o) "cancelled")); simpl.
  - rewrite mapAsync_itemToReturn.
    match goal with
    | |- context [stockOf st ?o'] =>
        assert (stockOf st o' = stockOf st o) as ->
          by (unfold stockOf; destruct (String.eqb status "completed" && _);
              reflexivity)
    end.
    pose proof (updateInventoryForOrder_frame now (stockOf st o) false st)
      as [_ Hres].
    destruct (updateInventoryForOrder now (stockOf st o) false st) as [st1 res].
    simpl in *. destruct Hres as [->| ->]; [|done].
    by destruct (Order.valid _).
  - by destruct (Order.valid _).
Qed.

Lemma status_in_enum_nonempty s : s ∈ Order.statuses → s ≠ "".
Proof.
  unfold Order.statuses. rewrite !elem_of_cons, elem_of_nil.
  intros [->|[->|[->|[->|[]]]]]; discriminate.
Qed.

Lemma status_not_in_enum s :
  s ∉ Order.statuses →
  String.eqb s "completed" = false ∧ String.eqb s "cancelled" = false.
Proof.
  unfold Order.statuses. rewrite !elem_of_cons, elem_of_nil. intros H.
  split; apply String.eqb_neq; intros ->; apply H; auto.
Qed.

Lemma cancelled_in_enum : "cancelled" ∈ Order.statuses.
Proof. unfold Order.statuses. rewrite !elem_of_cons. auto. Qed.

(** C8, as amended.  No transition graph is enforced.  For a stored order
    that passes its schema: each status of the enumeration other than a
    change into cancelled is accepted and stored whatever the current
    status is (a completed order may go back to pending), nothing but
    the order being written; a change into cancelled from another status
    first returns the stock, and is accepted and stored exactly when that
    batch ends normally: when a record it writes fails its schema the
    answer is 500 and the status is not stored.  An absent or empty
    status is answered 400, and a status outside the enumeration is
    refused by the schema when the order is saved: the answer is 500 and
    the stored order keeps its status. *)
Theorem updateOrderStatus_no_transition_graph now oid o st :
  orders st !! oid = Some o →
  Order.valid o = true →
  (∀ status,
     status ∈ Order.statuses →
     status ≠ "cancelled" ∨ Order.status o = "cancelled" →
     ∃ o',
       updateOrderStatus now (Oid oid) (Some status) st
       = (setOrders <[oid := o']> st, Json 200 (BOrder oid o'))
       ∧ Order.status o' = status)
  ∧ (Order.status o ≠ "cancelled" →
     updateOrderStatus now (Oid oid) (Some "cancelled") st
     = match updateInventoryForOrder now (stockOf st o) false st with
       | (st1, Val _) =>
           (setOrders <[oid := Order.setStatus "cancelled" o]> st1,
            Json 200 (BOrder oid (Order.setStatus "cancelled" o)))
       | (st1, _) =>
           (logEntry (LogError ValidationError) st1, Send 500 "Server Error")
       end)
  ∧ updateOrderStatus now (Oid oid) (Some "") st
    = (st, Json 400 (BMsg MsgProvideOrderStatus))
  ∧ updateOrderStatus now (Oid oid) None st
    = (st, Json 400 (BMsg MsgProvideOrderStatus))
  ∧ (∀ status,
       status ∉ Order.statuses → status ≠ "" →
       updateOrderStatus now (Oid oid) (Some status) st
       = (logEntry (LogError ValidationError) st, Send 500 "Server Error")
       ∧ orders (updateOrderStatus now (Oid oid) (Some status) st).1 !! oid
         = Some o).
Proof.
  intros Ho Hv. split_and!; [| |done|done|].
  - intros status Hs Hnc.
    rewrite (updateOrderStatus_found now oid o status st Ho
               (status_in_enum_nonempty _ Hs)).
    cbv zeta.
    set (order := if String.eqb status "completed" && _ then _ else _).
    assert (Order.valid order = true ∧ Order.status order = status) as [Hvo Hso].
    { unfold order. destruct (String.eqb status "completed" && _);
        rewrite ?Order_valid_setCompletionTime;
        split; try done; by apply Order_valid_setStatus. }
    assert (String.eqb status "cancelled"
            && negb (String.eqb (Order.status o) "cancelled") = false) as ->.
    { destruct Hnc as [Hnc|Hnc]; [apply String.eqb_neq in Hnc; by rewrite Hnc|].
      rewrite Hnc. simpl. apply andb_false_r. }
    simpl. rewrite Hvo. by exists order.
  - intros Hnc.
    rewrite (updateOrderStatus_found now oid o "cancelled" st Ho) by done.
    cbv zeta. apply String.eqb_neq in Hnc. rewrite Hnc. simpl.
    rewrite (Order_valid_setStatus "cancelled" o Hv cancelled_in_enum).
    by destruct (updateInventoryForOrder _ _ _ _) as [st1 [[]| |]].
  - intros status Hs Hne.
    rewrite (updateOrderStatus_found now oid o status st Ho Hne).
    destruct (status_not_in_enum _ Hs) as [-> ->]. simpl.
    by rewrite (Order_invalid_status _ _ Hs).
Qed.

Lemma updateOrderStatus_no_transition_graph_witness :
  orders servedDb !! 1%positive = Some colaServed
  ∧ updateOrderStatus 2000 (Oid 1%positive) (Some "pending") servedDb
    = (setOrders <[1%positive := Order.setStatus "pending" colaServed]> servedDb,
       Json 200 (BOrder 1%positive (Order.setStatus "pending" colaServed))).
Proof.
  split; [reflexivity|].
  destruct (updateOrderStatus_no_transition_graph 2000 1%positive colaServed
              servedDb eq_refl eq_refl) as [Hacc _].
  destruct (Hacc "pending") as (o' & Heq & Hs).
  - apply list_elem_of_here.
  - left. discriminate.
  - rewrite Heq.
    assert (updateOrderStatus 2000 (Oid 1%positive) (Some "pending") servedDb
            = (setOrders <[1%positive := Order.setStatus "pending" colaServed]>
                 servedDb,
               Json 200 (BOrder 1%positive (Order.setStatus "pending" colaServed))))
      as Hc by (vm_compute; reflexivity).
    rewrite Heq in Hc. exact Hc.
Defined.

(** C8 as stated fails: an empty status is answered 400, and the status
    "served" is answered 500; in both cases the order stays completed.
    A status of the enumeration can be refused as well: with a cola
    record whose unit the schema does not list, the cancellation is
    answered 500 and the order stays completed. *)
Lemma updateOrderStatus_not_any_string :
  updateOrderStatus 2000 (Oid 1%positive) (Some "") servedDb
  = (servedDb, Json 400 (BMsg MsgProvideOrderStatus))
  ∧ (updateOrderStatus 2000 (Oid 1%positive) (Some "served") servedDb).2
    = Send 500 "Server Error"
  ∧ orders (updateOrderStatus 2000 (Oid 1%positive) (Some "served") servedDb).1
      !! 1%positive = Some colaServed
  ∧ (updateOrderStatus 2000 (Oid 1%positive) (Some "cancelled") gallonsDb).2
    = Send 500 "Server Error"
  ∧ orders (updateOrderStatus 2000 (Oid 1%positive) (Some "cancelled") gallonsDb).1
      !! 1%positive = Some colaServed.
Proof. split_and!; vm_compute; reflexivity. Qed.

(** ** Cancelling a placed order *)

Lemma lines_stock st items lines :
  Forall2 (λ item line, lineOf st item = Some line) items lines →
  map (λ it, mkStockItem
               (match menuItems st !! OrderItem.menuItem it with
                | Some m => MenuItem.name m
                | None => "Unknown Item"
                end)
               (OrderItem.quantity it)) lines.*1
  = lines.*2.
Proof.
  induction 1 as [|item line items lines Hl _ IH]; [done|].
  rewrite !fmap_cons. cbn [map].
  apply lineOf_price in Hl as (m & Hm & _ & Hq & _ & Hs & _).
  f_equal; [|done]. by rewrite Hm, Hq, Hs.
Qed.

Lemma stockOf_ext st st' o :
  menuItems st' = menuItems st → stockOf st' o = stockOf st o.
Proof. unfold stockOf. by intros ->. Qed.

Lemma uniqueNames_swept now dec l inv :
  uniqueNames inv → uniqueNames (swept now dec l <$> inv).
Proof.
  intros Hu i j d e Hi Hj Hn. rewrite lookup_fmap in Hi, Hj.
  destruct (inv !! i) as [d0|] eqn:Hi0; [|done].
  destruct (inv !! j) as [e0|] eqn:Hj0; [|done].
  simpl in Hi, Hj. injection Hi as <-. injection Hj as <-.
  by eapply (Hu i j).
Qed.

Lemma sweep_untouched dec l n q :
  (∀ it, it ∈ l → n ≠ trim (si_name it)) → sweep dec l n q = q.
Proof.
  unfold sweep. revert q. induction l as [|it l IH]; intros q H; [done|]. simpl.
  assert (String.eqb n (trim (si_name it)) = false) as ->.
  { apply String.eqb_neq, H, list_elem_of_here. }
  apply IH. intros it' Hit'. by apply H, list_elem_of_further.
Qed.

(** C7, as amended.  Cancelling an order right after it was placed, in an
    inventory whose item names are unique.  The cancellation first runs
    the restock over the lines of the order, and is answered 200, the
    order being stored as cancelled, exactly when the restock ends
    normally; otherwise it is answered 500.  When it is answered 200, no
    inventory record has been added or removed, and the quantity of each
    is what the restock makes of what the placement left: the quantities
    of the lines under the record's name are first subtracted one after
    the other, a negative result being replaced by zero, and then added
    one after the other, in the arithmetic of the doubles.  A record that
    no line names keeps its quantity. *)
Theorem cancel_adds_back_line_quantities now now' body st st1 oid o :
  uniqueNames (inventory st) →
  placeOrder now body st = (st1, Json 201 (BOrder oid o)) →
  updateOrderStatus now' (Oid oid) (Some "cancelled") st1
  = match updateInventoryForOrder now' (stockOf st o) false st1 with
    | (st2, Val _) =>
        (setOrders <[oid := Order.setStatus "cancelled" o]> st2,
         Json 200 (BOrder oid (Order.setStatus "cancelled" o)))
    | (st2, _) =>
        (logEntry (LogError ValidationError) st2, Send 500 "Server Error")
    end
  ∧ ∀ st2 o2,
      updateOrderStatus now' (Oid oid) (Some "cancelled") st1
      = (st2, Json 200 (BOrder oid o2)) →
      o2 = Order.setStatus "cancelled" o
      ∧ (∀ i, inventory st !! i = None → inventory st2 !! i = None)
      ∧ (∀ i d, inventory st !! i = Some d →
           ∃ d2, inventory st2 !! i = Some d2
                 ∧ Inventory.itemName d2 = Inventory.itemName d
                 ∧ Inventory.quantity d2
                   = sweep false (stockOf st o) (Inventory.itemName d)
                       (sweep true (stockOf st o) (Inventory.itemName d)
                          (Inventory.quantity d))
                 ∧ ((∀ it, it ∈ stockOf st o →
                           Inventory.itemName d ≠ trim (si_name it)) →
                    Inventory.quantity d2 = Inventory.quantity d)).
Proof.
  intros Hu Hplace.
  apply placeOrder_created in Hplace
    as (tid & items & lines & _ & _ & _ & _ & HF & Ho & Hvo & Hoid & Hdec).
  pose proof (lines_stock _ _ _ HF) as Hlines.
  set (stm := setOrders <[oid := o]> st) in *.
  assert (stockOf st o = lines.*2) as Hso by (by rewrite Ho).
  rewrite Hso.
  (* the decrement of the placement *)
  pose proof (updateInventoryForOrder_swept now true lines.*2 stm Hu) as Hd.
  pose proof (updateInventoryForOrder_frame now lines.*2 true stm) as [Hfr _].
  rewrite Hdec in Hd, Hfr. simpl in Hd, Hfr. specialize (Hd eq_refl).
  destruct Hfr as (Hmenu & _ & Hord & _).
  assert (orders st1 !! oid = Some o) as Ho1.
  { rewrite Hord. apply lookup_insert_eq. }
  assert (uniqueNames (inventory st1)) as Hu1.
  { rewrite Hd. by apply uniqueNames_swept. }
  (* the restock of the cancellation *)
  assert (stockOf st1 o = lines.*2) as Hso1.
  { by rewrite (stockOf_ext st st1 o Hmenu). }
  rewrite (updateOrderStatus_found now' oid o "cancelled" st1 Ho1) by done.
  cbv zeta.
  assert (Order.status o = "pending") as Hpending by (by rewrite Ho).
  rewrite Hpending, Hso1. simpl.
  rewrite (Order_valid_setStatus "cancelled" o Hvo cancelled_in_enum).
  pose proof (updateInventoryForOrder_swept now' false lines.*2 st1 Hu1) as Hr.
  destruct (updateInventoryForOrder now' lines.*2 false st1) as [st2' res].
  simpl in *. destruct res as [[]| |]; (split; [done|]); [|done|done].
  intros st2 o2 [= <- <-]. simpl. specialize (Hr eq_refl).
  rewrite Hr, Hd. split_and!; [done| |].
  - intros i Hi. by rewrite !lookup_fmap, Hi.
  - intros i d Hi. rewrite !lookup_fmap, Hi. simpl.
    eexists. split_and!; [reflexivity|done|done|].
    intros Habs. unfold swept. cbn [Inventory.quantity Inventory.itemName].
    by rewrite !sweep_untouched.
Qed.

Lemma sampleInventory_lookup i d :
  sampleInventory !! i = Some d →
  (i = 1%positive ∧ d = Inventory.mk "Burger" 2 "pieces" 1 0)
  ∨ (i = 2%positive ∧ d = Inventory.mk "Cola" 10 "pieces" 2 0).
Proof.
  unfold sampleInventory. simpl. intros H.
  apply lookup_insert_Some in H as [[<- <-]|[_ H]]; [by left|].
  apply lookup_insert_Some in H as [[<- <-]|[_ H]]; [by right|].
  by rewrite lookup_empty in H.
Qed.

Lemma sampleInventory_unique : uniqueNames sampleInventory.
Proof.
  intros i j d e Hi Hj Hn.
  apply sampleInventory_lookup in Hi as [[-> ->]|[-> ->]];
    apply sampleInventory_lookup in Hj as [[-> ->]|[-> ->]];
    (reflexivity || discriminate Hn).
Qed.

Lemma cancel_adds_back_line_quantities_witness :
  placeOrder 1000 colaOrder sampleDb
  = ((placeOrder 1000 colaOrder sampleDb).1, Json 201 (BOrder 1%positive colaPlaced))
  ∧ ∃ d2,
      inventory (updateOrderStatus 2000 (Oid 1%positive) (Some "cancelled")
                   (placeOrder 1000 colaOrder sampleDb).1).1 !! 2%positive
      = Some d2
      ∧ Inventory.quantity d2 = 10%float.
Proof.
  assert (placeOrder 1000 colaOrder sampleDb
          = ((placeOrder 1000 colaOrder sampleDb).1,
             Json 201 (BOrder 1%positive colaPlaced))) as Hplace
    by (vm_compute; reflexivity).
  split; [exact Hplace|].
  assert (updateOrderStatus 2000 (Oid 1%positive) (Some "cancelled")
            (placeOrder 1000 colaOrder sampleDb).1
          = ((updateOrderStatus 2000 (Oid 1%positive) (Some "cancelled")
                (placeOrder 1000 colaOrder sampleDb).1).1,
             Json 200 (BOrder 1%positive (Order.setStatus "cancelled" colaPlaced))))
    as Hcancel by (vm_compute; reflexivity).
  destruct (proj2 (cancel_adds_back_line_quantities 1000 2000 colaOrder sampleDb
                     _ _ _ sampleInventory_unique Hplace) _ _ Hcancel)
    as (_ & _ & Hq).
  destruct (Hq 2%positive (Inventory.mk "Cola" 10 "pieces" 2 0) eq_refl)
    as (d2 & Hd2 & _ & Hq2 & _).
  exists d2. split; [exact Hd2|]. rewrite Hq2. vm_compute. reflexivity.
Defined.

(** C7 as stated fails.  Two burgers are in stock and five are ordered:
    the placement leaves none and the cancellation returns five.  And
    3.4 kg of rice are in stock and 1.2 are ordered: the placement leaves
    2.2000000000000002 and the cancellation 3.4000000000000004. *)
Lemma cancel_returns_other_than_was_taken :
  (placeOrder 1000 burgerOrder sampleDb).2
  = Json 201 (BOrder 1%positive
      (Order.mk 1%positive [OrderItem.mk 1%positive 5 500] 2500 "pending" 1000 None))
  ∧ statusCode
      (updateOrderStatus 2000 (Oid 1%positive) (Some "cancelled")
         (placeOrder 1000 burgerOrder sampleDb).1).2 = 200
  ∧ Inventory.quantity <$> inventory sampleDb !! 1%positive = Some 2%float
  ∧ Inventory.quantity
      <$> inventory (updateOrderStatus 2000 (Oid 1%positive) (Some "cancelled")
                       (placeOrder 1000 burgerOrder sampleDb).1).1 !! 1%positive
    = Some 5%float
  ∧ statusCode (placeOrder 1000 riceOrder riceDb).2 = 201
  ∧ statusCode
      (updateOrderStatus 2000 (Oid 1%positive) (Some "cancelled")
         (placeOrder 1000 riceOrder riceDb).1).2 = 200
  ∧ Inventory.quantity <$> inventory riceDb !! 1%positive = Some 3.4%float
  ∧ Inventory.quantity
      <$> inventory (placeOrder 1000 riceOrder riceDb).1 !! 1%positive
    = Some 2.2000000000000002%float
  ∧ Inventory.quantity
      <$> inventory (updateOrderStatus 2000 (Oid 1%positive) (Some "cancelled")
                       (placeOrder 1000 riceOrder riceDb).1).1 !! 1%positive
    = Some 3.4000000000000004%float.
Proof. split_and!; vm_compute; reflexivity. Qed.

(** ** Creating a reservation *)

Lemma activeAt_true tid date time rid r :
  activeAt tid date time (rid, r) = true ↔
  Reservation.table r = Some tid ∧ Reservation.date r = date
  ∧ Reservation.time r = time
  ∧ (Reservation.status r = "pending" ∨ Reservation.status r = "confirmed").
Proof.
  unfold activeAt. simpl.
  rewrite !andb_true_iff, orb_true_iff, bool_decide_eq_true, Z.eqb_eq,
    !String.eqb_eq.
  tauto.
Qed.

Lemma findOne_active st tid date time :
  ∃ res, findOne ReservationModel (activeAt tid date time) st = (st, Val res)
    ∧ match res with
      | Some _ => activeReservation st tid date time
      | None => ¬ activeReservation st tid date time
      end.
Proof.
  async_unfold. simpl. eexists. split; [reflexivity|].
  destruct (List.find _ _) as [[rid r]|] eqn:Hf.
  - apply find_map_to_list_Some in Hf as [Hr Ha]. apply activeAt_true in Ha.
    exists rid, r. tauto.
  - intros (rid & r & Hr & Ha).
    eapply find_map_to_list_None in Hf; [|exact Hr].
    assert (activeAt tid date time (rid, r) = true) by (by apply activeAt_true).
    congruence.
Qed.

Lemma firstFreeTable_spec date time l st :
  ∃ res, firstFreeTable date time l st = (st, Val res)
    ∧ match res with
      | None => Forall (λ tbl, activeReservation st tbl.1 date time) l
      | Some tbl =>
          ∃ pre post, l = pre ++ tbl :: post
            ∧ Forall (λ t, activeReservation st t.1 date time) pre
            ∧ ¬ activeReservation st tbl.1 date time
      end.
Proof.
  induction l as [|tbl rest (res & Hres & IH)]; simpl.
  - exists None. by split.
  - destruct (findOne_active st tbl.1 date time) as (found & Hf & Hfound).
    unfold mbind, Async_bind at 1. rewrite Hf.
    destruct found as [x|].
    + exists res. split; [done|]. destruct res as [t|].
      * destruct IH as (pre & post & -> & Hpre & Hfree).
        exists (tbl :: pre), post. split_and!; [done| |done].
        by constructor.
      * by constructor.
    + exists (Some tbl). split; [done|]. exists [], rest.
      split_and!; [done|constructor|done].
Qed.

Local Arguments firstFreeTable : simpl never.

(** The handler on a request with an explicit table. *)
Lemma createReservation_explicit sort body st name phone date time guests tid :
  requiredFields body name phone date time guests →
  truthyId (rb_tableId body) = Some (Oid tid) →
  createReservation sort body st
  = match tables st !! tid with
    | None => (st, Json 404 (BMsg MsgSpecifiedTableNotFound))
    | Some tbl =>
        if negb (Table.isAvailable tbl) then
          (st, Json 400 (BMsg (MsgTableNotAvailable (Table.tableNumber tbl))))
        else if Table.capacity tbl <? guests then
          (st, Json 400 (BMsg (MsgCannotAccommodate
                 (Table.tableNumber tbl) guests (Table.capacity tbl))))
        else
          match List.find (activeAt tid date time)
                  (map_to_list (reservations st)) with
          | Some _ =>
              (st, Json 400 (BMsg (MsgAlreadyReserved
                     (Table.tableNumber tbl) time date)))
          | None =>
              persistReservation
                (newReservation name phone (Some tid) date time guests
                   (rb_notes body)) st
          end
    end.
Proof.
  intros (Hn & Hp & Hd & Ht & Hg) Hid. unfold createReservation.
  rewrite Hn, Hp, Hd, Ht, Hg, Hid. async_unfold. simpl.
  destruct (tables st !! tid) as [tbl|]; simpl; [|done].
  destruct (Table.isAvailable tbl); simpl; [|done].
  destruct (Table.capacity tbl <? guests); simpl; [done|].
  destruct (List.find _ _) as [[]|]; simpl; [done|].
  unfold persistReservation. by destruct (Reservation.valid _).
Qed.

(** The handler on a request without a table. *)
Lemma createReservation_auto sort body st name phone date time guests :
  requiredFields body name phone date time guests →
  truthyId (rb_tableId body) = None →
  let availableTables :=
    sort (List.filter (availableFor guests) (map_to_list (tables st))) in
  createReservation sort body st
  = if Z.of_nat (length availableTables) =? 0 then
      (st, Json 400 (BMsg MsgNoTablesForGuests))
    else
      match (firstFreeTable date time availableTables st).2 with
      | Val (Some (tid, _)) =>
          persistReservation
            (newReservation name phone (Some tid) date time guests
               (rb_notes body)) st
      | _ => (st, Json 400 (BMsg MsgNoSuitableTable))
      end.
Proof.
  intros (Hn & Hp & Hd & Ht & Hg) Hid. unfold createReservation.
  rewrite Hn, Hp, Hd, Ht, Hg, Hid. async_unfold. simpl.
  fold (availableFor guests).
  set (l := sort _). destruct (Z.of_nat (length l) =? 0); [done|].
  destruct (firstFreeTable_spec date time l st) as (res & -> & _). simpl.
  destruct res as [[tid tbl]|]; simpl; [|done].
  unfold persistReservation. by destruct (Reservation.valid _).
Qed.







Global Instance byCapacity_trans : Transitive byCapacity.
Proof. intros a b c. unfold byCapacity. lia. Qed.

Global Instance byCapacity_total : Total byCapacity.
Proof. intros a b. unfold byCapacity. lia. Qed.



Lemma find_active_Some st tid date time :
  activeReservation st tid date time →
  ∃ x, List.find (activeAt tid date time) (map_to_list (reservations st)) = Some x.
Proof.
  intros Ha. destruct (findOne_active st tid date time) as (res & Hf & Hres).
  async_unfold. simpl in Hf. injection Hf as <-.
  destruct (List.find _ _); [eauto|done].
Qed.

(** C4, as amended.  A well-formed request that names a table for which a
    pending or confirmed reservation exists at the same date and time is
    rejected and nothing is stored; the rejection is a Conflict when the
    table exists, and NotFound when it does not. *)
Theorem explicit_table_double_booking sort body st name phone date time guests tid :
  requiredFields body name phone date time guests →
  truthyId (rb_tableId body) = Some (Oid tid) →
  activeReservation st tid date time →
  (createReservation sort body st).1 = st
  ∧ match tables st !! tid with
    | None =>
        (createReservation sort body st).2
        = Json 404 (BMsg MsgSpecifiedTableNotFound)
    | Some tbl =>
        errorKind (createReservation sort body st).2 = Some Conflict
        ∧ (Table.isAvailable tbl = true → guests ≤ Table.capacity tbl →
           (createReservation sort body st).2
           = Json 400 (BMsg (MsgAlreadyReserved (Table.tableNumber tbl) time date)))
    end.
Proof.
  intros Hreq Hid Ha.
  rewrite (createReservation_explicit sort body st _ _ _ _ _ _ Hreq Hid).
  destruct (find_active_Some _ _ _ _ Ha) as [x ->].
  destruct (tables st !! tid) as [tbl|]; [|done].
  destruct (Table.isAvailable tbl); simpl; [|by repeat split].
  destruct (Z.ltb_spec (Table.capacity tbl) guests); simpl;
    repeat split; try done; lia.
Qed.

Lemma explicit_table_double_booking_witness :
  activeReservation bookedDb 2%positive 20240101 "19:00"
  ∧ createReservation mergeSortByCapacity partyAtTableTwo bookedDb
    = (bookedDb, Json 400 (BMsg (MsgAlreadyReserved 2 "19:00" 20240101))).
Proof.
  assert (activeReservation bookedDb 2%positive 20240101 "19:00") as Ha.
  { exists 1%positive, annAtTableTwo. split_and!; try reflexivity. by left. }
  split; [exact Ha|].
  destruct (explicit_table_double_booking mergeSortByCapacity partyAtTableTwo
              bookedDb "Bob" "555-0102" 20240101 "19:00" 2 2%positive) as [Hst Hr].
  - by repeat split.
  - reflexivity.
  - exact Ha.
  - change (tables bookedDb !! 2%positive) with (Some (Table.mk 2 4 true)) in Hr.
    destruct Hr as [_ Hr]. specialize (Hr eq_refl ltac:(simpl; lia)).
    destruct (createReservation mergeSortByCapacity partyAtTableTwo bookedDb)
      as [st' r].
    simpl in Hst, Hr. by rewrite Hst, Hr.
Defined.

(** C4 as stated fails: the table that the request names has been deleted,
    Ann's pending reservation for it remains, and the answer is 404
    NotFound, not a Conflict. *)
Lemma explicit_table_not_always_conflict :
  requiredFields partyAtTableTwo "Bob" "555-0102" 20240101 "19:00" 2
  ∧ truthyId (rb_tableId partyAtTableTwo) = Some (Oid 2%positive)
  ∧ activeReservation staleDb 2%positive 20240101 "19:00"
  ∧ (createReservation mergeSortByCapacity partyAtTableTwo staleDb).2
    = Json 404 (BMsg MsgSpecifiedTableNotFound)
  ∧ errorKind (createReservation mergeSortByCapacity partyAtTableTwo staleDb).2
    ≠ Some Conflict.
Proof.
  split_and!.
  - by repeat split.
  - reflexivity.
  - exists 1%positive, annAtTableTwo. split_and!; try reflexivity. by left.
  - vm_compute. reflexivity.
  - vm_compute. discriminate.
Qed.

(** Every run of the handler either reaches the final save with a table
    attached, or leaves the reservations as they are with a 400 or 404. *)
Lemma createReservation_outcome sort body st :
  (∃ r, is_Some (Reservation.table r)
        ∧ createReservation sort body st = persistReservation r st)
  ∨ (reservations (createReservation sort body st).1 = reservations st
     ∧ (statusCode (createReservation sort body st).2 = 400
        ∨ statusCode (createReservation sort body st).2 = 404)).
Proof.
  destruct (truthy (rb_customerName body)) as [name|] eqn:Hn;
    [|right; unfold createReservation; rewrite Hn; simpl; auto].
  destruct (truthy (rb_phoneNumber body)) as [phone|] eqn:Hp;
    [|right; unfold createReservation; rewrite Hn, Hp; simpl; auto].
  destruct (rb_date body) as [date|] eqn:Hd;
    [|right; unfold createReservation; rewrite Hn, Hp, Hd; simpl; auto].
  destruct (truthy (rb_time body)) as [time|] eqn:Ht;
    [|right; unfold createReservation; rewrite Hn, Hp, Hd, Ht; simpl; auto].
  destruct (truthyNum (rb_numberOfGuests body)) as [guests|] eqn:Hg;
    [|right; unfold createReservation; rewrite Hn, Hp, Hd, Ht, Hg; simpl; auto].
  assert (requiredFields body name phone date time guests) as Hreq
    by (by repeat split).
  destruct (truthyId (rb_tableId body)) as [[tid|raw]|] eqn:Hid.
  - rewrite (createReservation_explicit sort body st _ _ _ _ _ _ Hreq Hid).
    destruct (tables st !! tid) as [tbl|]; [|right; simpl; auto].
    destruct (Table.isAvailable tbl); simpl; [|right; simpl; auto].
    destruct (Table.capacity tbl <? guests); [right; simpl; auto|].
    destruct (List.find _ _); [right; simpl; auto|].
    left. eexists. split; [|reflexivity]. by eexists.
  - right. unfold createReservation. rewrite Hn, Hp, Hd, Ht, Hg, Hid.
    async_unfold. simpl. auto.
  - rewrite (createReservation_auto sort body st _ _ _ _ _ Hreq Hid).
    destruct (Z.of_nat _ =? 0); [right; simpl; auto|].
    destruct (firstFreeTable _ _ _ _) as [st1 [[[tid tbl]|]|r|e]]; simpl;
      try (right; simpl; auto; fail).
    left. eexists. split; [|reflexivity]. by eexists.
Qed.

(** C9. A reservation that the handler stores, and a reservation that it
    answers with 201, has a table attached: the null branch of the
    document's table field is never taken. *)
Theorem created_reservation_has_table sort body st rid r :
  ((createReservation sort body st).2 = Json 201 (BReservation rid r) →
   is_Some (Reservation.table r)
   ∧ reservations (createReservation sort body st).1 !! rid = Some r)
  ∧ (reservations st !! rid = None →
     reservations (createReservation sort body st).1 !! rid = Some r →
     is_Some (Reservation.table r)
     ∧ (createReservation sort body st).2 = Json 201 (BReservation rid r)).
Proof.
  destruct (createReservation_outcome sort body st)
    as [(r0 & Htable & ->)|[Hres Hcode]].
  - unfold persistReservation. destruct (Reservation.valid r0); simpl.
    + split.
      * intros [= <- <-]. split; [done|]. apply lookup_insert_eq.
      * intros Hnone Hsome.
        destruct (decide (fresh (dom (reservations st)) = rid)) as [<-|Hne].
        -- rewrite lookup_insert_eq in Hsome. injection Hsome as <-. by split.
        -- rewrite lookup_insert_ne in Hsome by done. congruence.
    + split; [done|]. congruence.
  - split.
    + intros Heq. rewrite Heq in Hcode. simpl in Hcode. lia.
    + rewrite Hres. congruence.
Qed.

Lemma created_reservation_has_table_witness :
  (createReservation mergeSortByCapacity partyOfThree sampleDb).2
  = Json 201 (BReservation 1%positive annAtTableTwo)
  ∧ is_Some (Reservation.table annAtTableTwo)
  ∧ reservations (createReservation mergeSortByCapacity partyOfThree sampleDb).1
      !! 1%positive = Some annAtTableTwo.
Proof.
  assert ((createReservation mergeSortByCapacity partyOfThree sampleDb).2
          = Json 201 (BReservation 1%positive annAtTableTwo)) as Hrun
    by (vm_compute; reflexivity).
  split; [exact Hrun|].
  exact (proj1 (created_reservation_has_table mergeSortByCapacity partyOfThree
                  sampleDb 1%positive annAtTableTwo) Hrun).
Defined.

(** ** Reservation status and table availability *)

(** The handler on a reservation that exists, for a non-empty status. *)
Lemma updateReservationStatus_found rid r status st :
  reservations st !! rid = Some r → status ≠ "" →
  updateReservationStatus (Oid rid) (Some status) st
  = let r' := Reservation.setStatus status r in
    let synced :=
      match Reservation.table r with
      | Some tid =>
          match tables st !! tid with
          | Some t =>
              let t' := syncedTable status (Reservation.status r) t in
              if Table.valid t'
              then (setTables <[tid := t']> st, true)
              else (st, false)
          | None => (st, true)
          end
      | None => (st, true)
      end in
    if synced.2 && Reservation.valid r'
    then (setReservations <[rid := r']> synced.1, Json 200 (BReservation rid r'))
    else (logEntry (LogError ValidationError) synced.1, Send 500 "Server Error").
Proof.
  intros Hr Hs. unfold updateReservationStatus. rewrite (truthy_Some _ Hs).
  async_unfold. simpl. rewrite Hr. simpl.
  destruct (Reservation.table r) as [tid|]; simpl.
  - destruct (tables st !! tid) as [t|]; simpl.
    + fold (syncedTable status (Reservation.status r) t).
      destruct (Table.valid _); simpl; [|done].
      by destruct (Reservation.valid _).
    + by destruct (Reservation.valid _).
  - by destruct (Reservation.valid _).
Qed.

(** The handler on a reservation that exists. *)
Lemma deleteReservation_found rid r st :
  reservations st !! rid = Some r →
  deleteReservation (Oid rid) st
  = let st1 := setReservations (delete rid) st in
    match Reservation.table r with
    | Some tid =>
        if String.eqb (Reservation.status r) "confirmed" then
          match tables st !! tid with
          | Some t =>
              if Table.valid (Table.setAvailable true t)
              then (setTables <[tid := Table.setAvailable true t]> st1,
                    Json 200 (BMsg MsgReservationRemoved))
              else (logEntry (LogError ValidationError) st1,
                    Send 500 "Server Error")
          | None => (st1, Json 200 (BMsg MsgReservationRemoved))
          end
        else (st1, Json 200 (BMsg MsgReservationRemoved))
    | None => (st1, Json 200 (BMsg MsgReservationRemoved))
    end.
Proof.
  intros Hr. unfold deleteReservation. async_unfold. simpl. rewrite Hr. simpl.
  destruct (Reservation.table r) as [tid|]; simpl; [|done].
  destruct (String.eqb (Reservation.status r) "confirmed"); simpl; [|done].
  destruct (tables st !! tid) as [t|]; simpl; [|done].
  by destruct (Table.valid _).
Qed.










(** * Further properties *)

Ltac route_unfold := unfold route in *; async_unfold.

(** ** Unique fields *)

Lemma uniqueBy_insert {D K} (key : D → K) (m : gmap ObjectId D) i d :
  uniqueBy key m →
  (∀ j e, m !! j = Some e → j ≠ i → key e ≠ key d) →
  uniqueBy key (<[i := d]> m).
Proof.
  intros Hu Hfree j k e f Hj Hk Hjk.
  destruct (decide (i = j)) as [<-|Hij], (decide (i = k)) as [<-|Hik];
    simplify_map_eq; try done.
  - exfalso. by eapply (Hfree k f).
  - exfalso. by eapply (Hfree j e).
  - eapply Hu; eauto.
Qed.

Lemma uniqueBy_insert_same {D K} (key : D → K) (m : gmap ObjectId D) i d d' :
  uniqueBy key m → m !! i = Some d → key d' = key d →
  uniqueBy key (<[i := d']> m).
Proof.
  intros Hu Hi Hk. apply uniqueBy_insert; [done|].
  intros j e Hj Hne Heq. apply Hne. eapply Hu; eauto. congruence.
Qed.

Lemma uniqueBy_delete {D K} (key : D → K) (m : gmap ObjectId D) i :
  uniqueBy key m → uniqueBy key (delete i m).
Proof.
  intros Hu j k e f Hj Hk. apply lookup_delete_Some in Hj as [_ Hj].
  apply lookup_delete_Some in Hk as [_ Hk]. by eapply Hu.
Qed.

(** What the unique index of a model guarantees of a write that it lets
    through. *)
Section Index.
Context {D K : Type} (M : Model D) (key : D → K) (clash : D → D → bool).
Hypothesis Hunique : unique M = Some clash.
Hypothesis Hclash : ∀ a b, clash a b = true ↔ key a = key b.

Lemma taken_false d st :
  taken M d st = false → ∀ j e, docs M st !! j = Some e → key e ≠ key d.
Proof using Hunique Hclash.
  unfold taken. rewrite Hunique. intros H j e Hj Heq.
  eapply existsb_map_to_list_false in H; [|exact Hj]. simpl in H.
  assert (clash d e = true) by (by apply Hclash). congruence.
Qed.

Lemma rekeys_false d d' : rekeys M d d' = false → key d' = key d.
Proof using Hunique Hclash.
  unfold rekeys. rewrite Hunique. intros H. apply Hclash.
  by destruct (clash d' d).
Qed.

Lemma index_create_unique i d st :
  uniqueBy key (docs M st) → taken M d st = false →
  uniqueBy key (<[i := d]> (docs M st)).
Proof using Hunique Hclash.
  intros Hu Ht. apply uniqueBy_insert; [done|]. intros j e Hj _.
  by eapply taken_false.
Qed.

Lemma index_update_unique i d d' st :
  uniqueBy key (docs M st) → docs M st !! i = Some d →
  rekeys M d d' && taken M d' st = false →
  uniqueBy key (<[i := d']> (docs M st)).
Proof using Hunique Hclash.
  intros Hu Hi H. apply andb_false_iff in H as [H|H].
  - eapply uniqueBy_insert_same; [done..|]. by apply rekeys_false.
  - by apply index_create_unique.
Qed.
End Index.

Lemma MenuItem_clash a b :
  String.eqb (MenuItem.name a) (MenuItem.name b) = true
  ↔ MenuItem.name a = MenuItem.name b.
Proof. apply String.eqb_eq. Qed.

Lemma Table_clash a b :
  (Table.tableNumber a =? Table.tableNumber b) = true
  ↔ Table.tableNumber a = Table.tableNumber b.
Proof. apply Z.eqb_eq. Qed.

Lemma Inventory_clash a b :
  String.eqb (Inventory.itemName a) (Inventory.itemName b) = true
  ↔ Inventory.itemName a = Inventory.itemName b.
Proof. apply String.eqb_eq. Qed.

(** ** The menu routes *)

(** PUT /api/menu/:id on a menu item that exists. *)
Lemma updateMenuItem_found (i : ObjectId) m body st :
  menuItems st !! i = Some m →
  let fields := menuItemFields body in
  let clash :=
    match mb_name fields with
    | Some n =>
        negb (String.eqb n (MenuItem.name m))
        && match List.find (λ kv : ObjectId * MenuItem.t,
                              String.eqb (MenuItem.name kv.2) (trim n))
                   (map_to_list (menuItems st)) with
           | Some (j, _) => negb (Pos.eqb j i)
           | None => false
           end
    | None => false
    end in
  updateMenuItem (Oid i) body st
  = if clash then (st, Json 400 (BMsg MsgMenuItemNameExists))
    else if rekeys MenuItemModel m (setFields fields m)
            && taken MenuItemModel (setFields fields m) st
    then (logEntry (LogError DuplicateKey) st, Send 500 "Server Error")
    else (setMenuItems <[i := setFields fields m]> st,
          Json 200 (BMenuItem i (setFields fields m))).
Proof.
  intros Hm. unfold updateMenuItem. cbv zeta.
  generalize (menuItemFields body) as fields. intros fields.
  async_unfold. simpl. rewrite Hm. simpl.
  destruct (mb_name fields) as [n|]; simpl.
  2: { rewrite Hm. simpl. by destruct (_ && taken _ _ _). }
  destruct (negb (n =? MenuItem.name m)%string); simpl.
  2: { rewrite Hm. simpl. by destruct (_ && taken _ _ _). }
  destruct (List.find _ _) as [[j ?]|]; simpl.
  2: { rewrite Hm. simpl. by destruct (_ && taken _ _ _). }
  destruct (negb (j =? i)%positive); simpl; [done|].
  rewrite Hm. simpl. by destruct (_ && taken _ _ _).
Qed.

Lemma find_key_None {D} (p : ObjectId * D → bool) (m : gmap ObjectId D) j e :
  List.find p (map_to_list m) = None → m !! j = Some e → p (j, e) = false.
Proof. intros H. by apply find_map_to_list_None. Qed.

(** X1. The names of the menu stay unique: creating a menu item, editing
    one and deleting one each take a menu without duplicate names to a
    menu without duplicate names. *)
Theorem menu_names_stay_unique st :
  uniqueBy MenuItem.name (menuItems st) →
  (∀ body, uniqueBy MenuItem.name (menuItems (createMenuItem body st).1))
  ∧ (∀ id body, uniqueBy MenuItem.name (menuItems (updateMenuItem id body st).1))
  ∧ (∀ id, uniqueBy MenuItem.name (menuItems (deleteMenuItem id st).1)).
Proof.
  intros Hu. split_and!.
  - intros body. unfold createMenuItem. route_unfold. simpl.
    destruct (List.find _ _) as [[j e]|] eqn:Hf; simpl; [done|].
    destruct (newMenuItem body) as [d|]; simpl; [|done].
    destruct (MenuItem.valid d); simpl; [|done].
    destruct (taken MenuItemModel d st) eqn:Ht; simpl; [done|].
    by apply (index_create_unique MenuItemModel MenuItem.name _ eq_refl
                MenuItem_clash).
  - intros [i|raw] body; [|done].
    destruct (menuItems st !! i) as [m|] eqn:Hm.
    + rewrite (updateMenuItem_found i m body st Hm). cbv zeta.
      destruct (match mb_name _ with Some _ => _ | None => _ end); [done|].
      destruct (_ && taken _ _ _) eqn:Hidx; [done|]. simpl.
      by apply (index_update_unique MenuItemModel MenuItem.name _ eq_refl
                  MenuItem_clash i m).
    + unfold updateMenuItem. async_unfold. simpl. by rewrite Hm.
  - intros [i|raw]; [|done].
    unfold deleteMenuItem. route_unfold. simpl.
    destruct (menuItems st !! i) as [m|]; simpl; [|done].
    by apply uniqueBy_delete.
Qed.

(** Case analysis on a lookup in a map written as a chain of inserts. *)
Ltac lookup_cases H :=
  repeat (first
    [ rewrite lookup_empty in H; discriminate H
    | apply lookup_insert_Some in H as [[<- <-]|[_ H]] ]).

Lemma sampleMenu_unique : uniqueBy MenuItem.name sampleMenu.
Proof.
  intros i j d e Hi Hj Hk. unfold sampleMenu in Hi, Hj. simpl in Hi, Hj.
  lookup_cases Hi; lookup_cases Hj; (reflexivity || discriminate Hk).
Qed.

Lemma menu_names_stay_unique_witness :
  uniqueBy MenuItem.name (menuItems sampleDb)
  ∧ uniqueBy MenuItem.name (menuItems (createMenuItem waterBody sampleDb).1).
Proof.
  split; [exact sampleMenu_unique|].
  exact (proj1 (menu_names_stay_unique sampleDb sampleMenu_unique) waterBody).
Defined.

Lemma taken_absent_MenuItem d st :
  (∀ j e, menuItems st !! j = Some e → MenuItem.name e ≠ MenuItem.name d) →
  taken MenuItemModel d st = false.
Proof.
  intros Hfree. destruct (taken MenuItemModel d st) eqn:Ht; [|done].
  unfold taken in Ht. simpl in Ht.
  apply existsb_map_to_list_true in Ht as (j & e & Hj & Heq). simpl in Heq.
  apply String.eqb_eq in Heq. by destruct (Hfree j e Hj).
Qed.

(** X2. A price of zero can be given to a new menu item but not to an
    existing one: the edit treats 0 as an absent field, so the stored price
    stays what it was, also when the edit is answered 200.  The new item
    is stored under its trimmed name and category. *)
Theorem zero_price_created_but_not_set (i : ObjectId) m body st :
  menuItems st !! i = Some m →
  mb_price body = Some 0%float →
  MenuItem.price <$> menuItems (updateMenuItem (Oid i) body st).1 !! i
  = Some (MenuItem.price m)
  ∧ (∀ j m', (updateMenuItem (Oid i) body st).2 = Json 200 (BMenuItem j m') →
             MenuItem.price m' = MenuItem.price m)
  ∧ (∀ name category,
       mb_name body = Some name → trim name ≠ "" →
       mb_category body = Some category → trim category ∈ menuCategories →
       (∀ j e, menuItems st !! j = Some e → MenuItem.name e ≠ trim name) →
       ∃ d, createMenuItem body st
            = (setMenuItems <[fresh (dom (menuItems st)) := d]> st,
               Sent 201 (fresh (dom (menuItems st)), d))
            ∧ MenuItem.price d = 0%float
            ∧ MenuItem.name d = trim name
            ∧ MenuItem.category d = trim category).
Proof.
  intros Hm Hp.
  assert (MenuItem.price (setFields (menuItemFields body) m) = MenuItem.price m)
    as Hprice by (unfold setFields, menuItemFields; simpl; by rewrite Hp).
  rewrite (updateMenuItem_found i m body st Hm). cbv zeta.
  set (m1 := setFields (menuItemFields body) m) in *. clearbody m1.
  split_and!.
  - destruct (match mb_name _ with Some _ => _ | None => _ end); simpl.
    + by rewrite Hm.
    + destruct (_ && taken _ _ _); simpl; [by rewrite Hm|].
      by rewrite lookup_insert_eq, <- Hprice.
  - intros j m'.
    destruct (match mb_name _ with Some _ => _ | None => _ end); simpl; [done|].
    destruct (_ && taken _ _ _); simpl; [done|].
    by intros [= _ <-].
  - intros name category Hn Hne Hc Hcat Hfree.
    unfold createMenuItem. route_unfold. simpl.
    destruct (List.find _ _) as [[j e]|] eqn:Hf; simpl.
    { apply find_map_to_list_Some in Hf as [Hj Hname]. simpl in Hname.
      apply bool_decide_eq_true in Hname. rewrite Hn in Hname.
      injection Hname as Hname. by apply Hfree in Hj. }
    unfold newMenuItem. rewrite Hn, Hp, Hc. simpl.
    unfold MenuItem.valid. simpl.
    apply String.eqb_neq in Hne. rewrite Hne. simpl.
    rewrite (bool_decide_eq_true_2 _ Hcat). simpl.
    rewrite taken_absent_MenuItem by done. simpl.
    eexists. split_and!; reflexivity.
Qed.

Lemma zero_price_created_but_not_set_witness :
  MenuItem.price
    <$> menuItems (updateMenuItem (Oid 2%positive) freeColaEdit sampleDb).1
          !! 2%positive
  = Some 150%float
  ∧ statusCode (updateMenuItem (Oid 2%positive) freeColaEdit sampleDb).2 = 200.
Proof.
  split; [|reflexivity].
  exact (proj1 (zero_price_created_but_not_set 2%positive
                  (MenuItem.mk "Cola" None 150 "Beverage" true None)
                  freeColaEdit sampleDb eq_refl eq_refl)).
Defined.

(** ** The table routes *)

(** PUT /api/tables/:id on a table that exists. *)
Lemma updateTable_found (i : ObjectId) t body st :
  tables st !! i = Some t →
  let fields := tableFields body in
  let clash :=
    match tb_tableNumber fields with
    | Some n =>
        negb (n =? Table.tableNumber t)
        && match List.find (λ kv : ObjectId * Table.t, Table.tableNumber kv.2 =? n)
                   (map_to_list (tables st)) with
           | Some (j, _) => negb (Pos.eqb j i)
           | None => false
           end
    | None => false
    end in
  updateTable (Oid i) body st
  = if clash then (st, Said 400 NoteTableNumberExists)
    else if rekeys TableModel t (setTableFields fields t)
            && taken TableModel (setTableFields fields t) st
    then (logEntry (LogError DuplicateKey) st, Text 500 "Server Error")
    else (setTables <[i := setTableFields fields t]> st,
          Sent 200 (Some (i, setTableFields fields t))).
Proof.
  intros Ht. unfold updateTable. cbv zeta.
  generalize (tableFields body) as fields. intros fields.
  route_unfold. simpl. rewrite Ht. simpl.
  destruct (tb_tableNumber fields) as [n|]; simpl.
  2: { rewrite Ht. simpl. by destruct (_ && taken _ _ _). }
  destruct (negb (n =? Table.tableNumber t)); simpl.
  2: { rewrite Ht. simpl. by destruct (_ && taken _ _ _). }
  destruct (List.find _ _) as [[j ?]|]; simpl.
  2: { rewrite Ht. simpl. by destruct (_ && taken _ _ _). }
  destruct (negb (j =? i)%positive); simpl; [done|].
  rewrite Ht. simpl. by destruct (_ && taken _ _ _).
Qed.

(** X3. Table numbers stay unique: creating a table, editing one, setting
    its availability and deleting one each take a store without duplicate
    table numbers to a store without duplicate table numbers. *)
Theorem table_numbers_stay_unique st :
  uniqueBy Table.tableNumber (tables st) →
  (∀ body, uniqueBy Table.tableNumber (tables (createTable body st).1))
  ∧ (∀ id body, uniqueBy Table.tableNumber (tables (updateTable id body st).1))
  ∧ (∀ id b, uniqueBy Table.tableNumber (tables (setTableAvailability id b st).1))
  ∧ (∀ id, uniqueBy Table.tableNumber (tables (deleteTable id st).1)).
Proof.
  intros Hu. split_and!.
  - intros body. unfold createTable. route_unfold. simpl.
    destruct (List.find _ _) as [[j e]|] eqn:Hf; simpl; [done|].
    destruct (tb_tableNumber body) as [n|] eqn:Hn; [|done].
    destruct (tb_capacity body) as [c|]; [|done]. simpl.
    destruct (Table.valid _); simpl; [|done].
    destruct (taken TableModel _ st) eqn:Ht; simpl; [done|].
    by apply (index_create_unique TableModel Table.tableNumber _ eq_refl
                Table_clash).
  - intros [i|raw] body; [|done].
    destruct (tables st !! i) as [t|] eqn:Ht.
    + rewrite (updateTable_found i t body st Ht). cbv zeta.
      destruct (match tb_tableNumber _ with Some _ => _ | None => _ end); [done|].
      destruct (_ && taken _ _ _) eqn:Hidx; [done|]. simpl.
      by apply (index_update_unique TableModel Table.tableNumber _ eq_refl
                  Table_clash i t).
    + unfold updateTable. route_unfold. simpl. by rewrite Ht.
  - intros [i|raw] [b|]; try done.
    unfold setTableAvailability. route_unfold. simpl.
    destruct (tables st !! i) as [t|] eqn:Ht; simpl; [|done].
    destruct (Table.valid _); simpl; [|done].
    by eapply uniqueBy_insert_same.
  - intros [i|raw]; [|done].
    unfold deleteTable. route_unfold. simpl.
    destruct (tables st !! i) as [t|]; simpl; [|done].
    by apply uniqueBy_delete.
Qed.

Lemma sampleTables_unique : uniqueBy Table.tableNumber sampleTables.
Proof.
  intros i j d e Hi Hj Hk. unfold sampleTables in Hi, Hj. simpl in Hi, Hj.
  lookup_cases Hi; lookup_cases Hj; (reflexivity || discriminate Hk).
Qed.

Lemma table_numbers_stay_unique_witness :
  uniqueBy Table.tableNumber (tables sampleDb)
  ∧ uniqueBy Table.tableNumber
      (tables (updateTable (Oid 1%positive)
                 (mkTableBody (Some 7) (Some 8) None) sampleDb).1).
Proof.
  split; [exact sampleTables_unique|].
  exact (proj1 (proj2 (table_numbers_stay_unique sampleDb sampleTables_unique))
           (Oid 1%positive) (mkTableBody (Some 7) (Some 8) None)).
Defined.

(** ** Reservations and double booking *)

Lemma find_active_None st tid date time :
  List.find (activeAt tid date time) (map_to_list (reservations st)) = None →
  ¬ activeReservation st tid date time.
Proof.
  intros Hf. destruct (findOne_active st tid date time) as (res & Hres & Hspec).
  async_unfold. simpl in Hres. injection Hres as <-. by rewrite Hf in Hspec.
Qed.

(** Every run of the handler either reaches the final save with a table
    that it found free at the requested date and time, or leaves the
    reservations as they are with a 400 or 404. *)
Lemma createReservation_stored sort body st :
  (∃ tid name phone date time guests,
     requiredFields body name phone date time guests
     ∧ ¬ activeReservation st tid date time
     ∧ (truthyId (rb_tableId body) = Some (Oid tid)
        ∧ (∃ t, tables st !! tid = Some t ∧ Table.isAvailable t = true
                ∧ guests ≤ Table.capacity t)
        ∨ truthyId (rb_tableId body) = None
          ∧ ∃ t, (tid, t) ∈ sort (List.filter (availableFor guests)
                                    (map_to_list (tables st))))
     ∧ createReservation sort body st
       = persistReservation
           (newReservation name phone (Some tid) date time guests
              (rb_notes body)) st)
  ∨ (reservations (createReservation sort body st).1 = reservations st
     ∧ (statusCode (createReservation sort body st).2 = 400
        ∨ statusCode (createReservation sort body st).2 = 404)).
Proof.
  destruct (truthy (rb_customerName body)) as [name|] eqn:Hn;
    [|right; unfold createReservation; rewrite Hn; simpl; auto].
  destruct (truthy (rb_phoneNumber body)) as [phone|] eqn:Hp;
    [|right; unfold createReservation; rewrite Hn, Hp; simpl; auto].
  destruct (rb_date body) as [date|] eqn:Hd;
    [|right; unfold createReservation; rewrite Hn, Hp, Hd; simpl; auto].
  destruct (truthy (rb_time body)) as [time|] eqn:Ht;
    [|right; unfold createReservation; rewrite Hn, Hp, Hd, Ht; simpl; auto].
  destruct (truthyNum (rb_numberOfGuests body)) as [guests|] eqn:Hg;
    [|right; unfold createReservation; rewrite Hn, Hp, Hd, Ht, Hg; simpl; auto].
  assert (requiredFields body name phone date time guests) as Hreq
    by (by repeat split).
  destruct (truthyId (rb_tableId body)) as [[tid|raw]|] eqn:Hid.
  - rewrite (createReservation_explicit sort body st _ _ _ _ _ _ Hreq Hid).
    destruct (tables st !! tid) as [tbl|] eqn:Htbl; [|right; simpl; auto].
    destruct (Table.isAvailable tbl) eqn:Ha; simpl; [|right; simpl; auto].
    destruct (Z.ltb_spec (Table.capacity tbl) guests); [right; simpl; auto|].
    destruct (List.find _ _) eqn:Hf; [right; simpl; auto|].
    left. exists tid, name, phone, date, time, guests.
    split_and!; [done|by apply find_active_None| |done].
    left. split; [done|]. by exists tbl.
  - right. unfold createReservation. rewrite Hn, Hp, Hd, Ht, Hg, Hid.
    async_unfold. simpl. auto.
  - rewrite (createReservation_auto sort body st _ _ _ _ _ Hreq Hid).
    cbv zeta. set (l := sort _).
    destruct (Z.of_nat _ =? 0); [right; simpl; auto|].
    destruct (firstFreeTable_spec date time l st) as (res & -> & Hspec). simpl.
    destruct res as [[tid tbl]|]; [|right; simpl; auto].
    destruct Hspec as (pre & post & Hl & _ & Hfree). simpl in Hfree.
    left. exists tid, name, phone, date, time, guests.
    split_and!; [done|done| |done].
    right. split; [done|]. exists tbl. fold l.
    rewrite Hl, elem_of_app, elem_of_cons. auto.
Qed.

Lemma noDoubleBooking_delete rs i :
  noDoubleBooking rs → noDoubleBooking (delete i rs).
Proof.
  intros Hn j k r1 r2 tid Hj Hk. apply lookup_delete_Some in Hj as [_ Hj].
  apply lookup_delete_Some in Hk as [_ Hk]. by eapply Hn.
Qed.

(** Writing at [i] a reservation that no other active reservation
    collides with. *)
Lemma noDoubleBooking_insert rs i r :
  noDoubleBooking rs →
  (∀ j r2 tid, rs !! j = Some r2 → j ≠ i → active r → active r2 →
     Reservation.table r = Some tid → Reservation.table r2 = Some tid →
     Reservation.date r = Reservation.date r2 →
     Reservation.time r = Reservation.time r2 → False) →
  noDoubleBooking (<[i := r]> rs).
Proof.
  intros Hn Hfree j k r1 r2 tid Hj Hk Ha1 Ha2 Ht1 Ht2 Hd Htm.
  destruct (decide (i = j)) as [<-|Hij], (decide (i = k)) as [<-|Hik];
    simplify_map_eq; try done.
  - exfalso. by eapply (Hfree k r2 tid).
  - exfalso. by eapply (Hfree j r1 tid).
  - by eapply (Hn j k r1 r2 tid).
Qed.

(** X4. Creating a reservation never produces a double booking, with or
    without a table in the request; deleting a reservation never does; a
    status change never does unless it brings a cancelled or completed
    reservation back to pending or confirmed. *)
Theorem no_double_booking_preserved sort st :
  noDoubleBooking (reservations st) →
  (∀ body, noDoubleBooking (reservations (createReservation sort body st).1))
  ∧ (∀ id, noDoubleBooking (reservations (deleteReservation id st).1))
  ∧ (∀ id status,
       (∀ rid r s, id = Oid rid → reservations st !! rid = Some r →
                   status = Some s →
                   active r ∨ ¬ (s = "pending" ∨ s = "confirmed")) →
       noDoubleBooking (reservations (updateReservationStatus id status st).1)).
Proof.
  intros Hn. split_and!.
  - intros body.
    destruct (createReservation_stored sort body st)
      as [(tid & name & phone & date & time & guests & _ & Hfree & _ & ->)
         |[-> _]]; [|done].
    unfold persistReservation. destruct (Reservation.valid _); simpl; [|done].
    apply noDoubleBooking_insert; [done|].
    intros j r2 tid' Hj _ _ Ha2 Ht1 Ht2 Hd Htm. simpl in *.
    apply Hfree. exists j, r2. injection Ht1 as <-. by split_and!.
  - intros [rid|raw]; [|done].
    destruct (reservations st !! rid) as [r|] eqn:Hr.
    + rewrite (deleteReservation_found rid r st Hr). cbv zeta.
      assert (noDoubleBooking
                (reservations (setReservations (delete rid) st))) as Hd
        by (by apply noDoubleBooking_delete).
      destruct (Reservation.table r) as [tid|]; [|done].
      destruct (String.eqb _ _); [|done].
      destruct (tables st !! tid) as [t|]; [|done].
      by destruct (Table.valid _).
    + unfold deleteReservation. async_unfold. simpl. by rewrite Hr.
  - intros [rid|raw] status Hok.
    2: { unfold updateReservationStatus. destruct (truthy status); [|done].
         done. }
    destruct (truthy status) as [s|] eqn:Hs.
    2: { unfold updateReservationStatus. by rewrite Hs. }
    assert (status = Some s ∧ s ≠ "") as [-> Hne].
    { destruct status as [s'|]; [|done]. simpl in Hs.
      destruct (String.eqb_spec s' ""); [done|]. by injection Hs as <-. }
    destruct (reservations st !! rid) as [r|] eqn:Hr.
    + rewrite (updateReservationStatus_found rid r s st Hr Hne). cbv zeta.
      set (synced := match Reservation.table r with Some _ => _ | None => _ end).
      assert (reservations synced.1 = reservations st) as Hsync.
      { unfold synced. destruct (Reservation.table r) as [tid|]; [|done].
        destruct (tables st !! tid) as [t|]; [|done].
        by destruct (Table.valid _). }
      destruct (synced.2 && _); simpl; rewrite Hsync; [|done].
      apply noDoubleBooking_insert; [done|].
      intros j r2 tid Hj Hne' Ha Ha2 Ht1 Ht2 Hd Htm. simpl in *.
      destruct (Hok rid r s eq_refl Hr eq_refl) as [Hold|Hnew]; [|by apply Hnew].
      apply Hne'. by eapply (Hn j rid r2 r tid).
    + unfold updateReservationStatus. rewrite Hs. async_unfold. simpl.
      by rewrite Hr.
Qed.

Lemma bookedDb_noDoubleBooking : noDoubleBooking (reservations bookedDb).
Proof.
  intros i j r1 r2 tid Hi Hj _ _ _ _ _ _. simpl in Hi, Hj.
  apply lookup_singleton_Some in Hi as [<- _].
  by apply lookup_singleton_Some in Hj as [<- _].
Qed.

Lemma no_double_booking_preserved_witness :
  noDoubleBooking (reservations bookedDb)
  ∧ statusCode (createReservation mergeSortByCapacity partyOfThree bookedDb).2
    = 201
  ∧ noDoubleBooking
      (reservations (createReservation mergeSortByCapacity partyOfThree bookedDb).1).
Proof.
  split; [exact bookedDb_noDoubleBooking|]. split; [vm_compute; reflexivity|].
  exact (proj1 (no_double_booking_preserved mergeSortByCapacity bookedDb
                  bookedDb_noDoubleBooking) partyOfThree).
Defined.



(** X6. Two reservations created one after the other for the same date and
    time never get the same table: the first one, being pending, already
    blocks its table for the second. *)
Theorem successive_reservations_differ sort body1 body2 st st1 rid1 r1 rid2 r2 :
  createReservation sort body1 st = (st1, Json 201 (BReservation rid1 r1)) →
  (createReservation sort body2 st1).2 = Json 201 (BReservation rid2 r2) →
  Reservation.date r2 = Reservation.date r1 →
  Reservation.time r2 = Reservation.time r1 →
  Reservation.table r2 ≠ Reservation.table r1
  ∧ is_Some (Reservation.table r1) ∧ is_Some (Reservation.table r2).
Proof.
  intros H1 H2 Hd Ht.
  destruct (createReservation_stored sort body1 st)
    as [(tid1 & n1 & p1 & d1 & t1 & g1 & _ & _ & _ & Heq1)|[_ Hcode]].
  2: { rewrite H1 in Hcode. simpl in Hcode. lia. }
  rewrite H1 in Heq1. unfold persistReservation in Heq1.
  destruct (Reservation.valid _); [|done].
  injection Heq1 as -> -> ->.
  destruct (createReservation_stored sort body2
              (setReservations
                 <[fresh (dom (reservations st)) :=
                     newReservation n1 p1 (Some tid1) d1 t1 g1
                       (rb_notes body1)]> st))
    as [(tid2 & n2 & p2 & d2 & t2 & g2 & _ & Hfree & _ & Heq2)|[_ Hcode]].
  2: { rewrite H2 in Hcode. simpl in Hcode. lia. }
  rewrite Heq2 in H2. unfold persistReservation in H2.
  destruct (Reservation.valid _); [|done].
  simpl in H2. injection H2 as _ <-. simpl in *. subst d2 t2.
  split_and!; [|by eexists..].
  intros [= ->]. apply Hfree. eexists _, _.
  split; [apply lookup_insert_eq|]. simpl. split_and!; try done. by left.
Qed.

Lemma successive_reservations_differ_witness :
  createReservation mergeSortByCapacity partyOfThree sampleDb
  = ((createReservation mergeSortByCapacity partyOfThree sampleDb).1,
     Json 201 (BReservation 1%positive annAtTableTwo))
  ∧ (createReservation mergeSortByCapacity partyOfThree
       (createReservation mergeSortByCapacity partyOfThree sampleDb).1).2
    = Json 201 (BReservation 2%positive
        (Reservation.mk "Ann" "555-0101" (Some 3%positive) 20240101 "19:00" 3
           "pending" None))
  ∧ Some 3%positive ≠ Some 2%positive.
Proof.
  assert (createReservation mergeSortByCapacity partyOfThree sampleDb
          = ((createReservation mergeSortByCapacity partyOfThree sampleDb).1,
             Json 201 (BReservation 1%positive annAtTableTwo))) as H1
    by (vm_compute; reflexivity).
  assert ((createReservation mergeSortByCapacity partyOfThree
             (createReservation mergeSortByCapacity partyOfThree sampleDb).1).2
          = Json 201 (BReservation 2%positive
              (Reservation.mk "Ann" "555-0101" (Some 3%positive) 20240101
                 "19:00" 3 "pending" None))) as H2
    by (vm_compute; reflexivity).
  split; [exact H1|]. split; [exact H2|].
  exact (proj1 (successive_reservations_differ _ _ _ _ _ _ _ _ _ H1 H2
                  eq_refl eq_refl)).
Defined.





(** ** Orders: success, soundness of the store, deletion *)

(** X8. An order is placed, that is, answered 201, exactly when the
    request names a table that exists and a non-empty list of items each
    of which refers to an available menu item and asks for a quantity
    that is not at most zero, the order document built from them passes
    its schema (every quantity at least 1, every price and the total at
    least 0), and the stock movement ends normally.  For such a request
    a document that fails its schema is answered 500 and nothing is
    stored, and a stock movement that fails is answered 500 although the
    order has been stored.  So a quantity of one half, which passes the
    test of the handler and fails the schema, is answered 500. *)
Theorem placeOrder_succeeds_iff now body st :
  ((∃ st' oid o, placeOrder now body st = (st', Json 201 (BOrder oid o)))
   ↔ (∃ tid items lines,
        truthyId (ob_tableId body) = Some (Oid tid)
        ∧ is_Some (tables st !! tid)
        ∧ ob_items body = Some items ∧ items ≠ []
        ∧ Forall2 (λ item line, lineOf st item = Some line) items lines
        ∧ Order.valid (orderOf now tid lines) = true
        ∧ (updateInventoryForOrder now lines.*2 true
             (setOrders <[fresh (dom (orders st)) := orderOf now tid lines]> st)).2
          = Val ()))
  ∧ (∀ tid items lines,
       truthyId (ob_tableId body) = Some (Oid tid) →
       is_Some (tables st !! tid) →
       ob_items body = Some items → items ≠ [] →
       Forall2 (λ item line, lineOf st item = Some line) items lines →
       placeOrder now body st
       = if Order.valid (orderOf now tid lines) then
           match updateInventoryForOrder now lines.*2 true
                   (setOrders <[fresh (dom (orders st)) := orderOf now tid lines]>
                      st)
           with
           | (st2, Val _) =>
               (st2, Json 201 (BOrder (fresh (dom (orders st)))
                                 (orderOf now tid lines)))
           | (st2, _) =>
               (logEntry (LogError ValidationError) st2, Send 500 "Server Error")
           end
         else (logEntry (LogError ValidationError) st, Send 500 "Server Error")).
Proof.
  split; [split|].
  - intros (st' & oid & o & Hplace).
    apply placeOrder_created in Hplace
      as (tid & items & lines & Htid & Ht & Hitems & Hne & HF & -> & Hv & -> & Hupd).
    exists tid, items, lines. split_and!; try done. by rewrite Hupd.
  - intros (tid & items & lines & Htid & Ht & Hitems & Hne & HF & Hv & Hupd).
    rewrite (placeOrder_lines now body st tid items lines Htid Ht Hitems Hne HF).
    rewrite Hv.
    destruct (updateInventoryForOrder _ _ _ _) as [st2 res]. simpl in Hupd.
    subst res. by eexists _, _, _.
  - intros tid items lines. apply placeOrder_lines.
Qed.

Lemma placeOrder_succeeds_iff_witness :
  (∃ st' oid o, placeOrder 1000 colaOrder sampleDb = (st', Json 201 (BOrder oid o)))
  ∧ placeOrder 1000 halfRiceOrder riceDb
    = (logEntry (LogError ValidationError) riceDb, Send 500 "Server Error").
Proof.
  split.
  - apply (proj1 (placeOrder_succeeds_iff 1000 colaOrder sampleDb)).
    exists 1%positive, [mkOrderRequestItem (Oid 2%positive) 2],
      [(OrderItem.mk 2%positive 2 150, mkStockItem "Cola" 2)].
    split_and!; [reflexivity|by eexists|reflexivity|discriminate| |reflexivity
                |vm_compute; reflexivity].
    constructor; [reflexivity|constructor].
  - rewrite (proj2 (placeOrder_succeeds_iff 1000 halfRiceOrder riceDb)
               1%positive [mkOrderRequestItem (Oid 1%positive) 0.5]
               [(OrderItem.mk 1%positive 0.5 200, mkStockItem "Rice" 0.5)]
               eq_refl ltac:(by eexists) eq_refl ltac:(discriminate)
               ltac:(constructor; [reflexivity|constructor])).
    reflexivity.
Defined.

(** What a placement does to the orders, whatever its answer. *)
Lemma placeOrder_orders now body st :
  orders (placeOrder now body st).1 = orders st
  ∨ ∃ o, Order.valid o = true
         ∧ Order.totalAmount o = lineTotal (Order.items o)
         ∧ orders (placeOrder now body st).1
           = <[fresh (dom (orders st)) := o]> (orders st).
Proof.
  unfold placeOrder.
  destruct (truthyId (ob_tableId body)) as [[tid|raw]|]; [| |by left];
    (destruct (ob_items body) as [[|it items]|]; [by left| |by left]).
  2: { left. async_unfold. simpl. done. }
  async_unfold. simpl.
  destruct (tables st !! tid) as [t|]; simpl; [|by left].
  pose proof (orderLoop_state (it :: items) (mkOrderAcc 0 [] []) st) as Hst.
  destruct (orderLoop (it :: items) _ st) as [st1 [acc|r|e]] eqn:Hloop;
    simpl in Hst; subst st1; [|by left|by left; destruct e].
  apply orderLoop_Val in Hloop as (lines & _ & Hi & _ & Ht'). simpl in *.
  destruct (Order.valid _) eqn:Hv; simpl; [|by left].
  right. eexists. split; [exact Hv|]. split; [simpl; by rewrite Hi, Ht'|].
  match goal with
  | |- context [updateInventoryForOrder ?n ?l ?d ?s] =>
      pose proof (updateInventoryForOrder_frame n l d s) as [(_&_&Ho&_) _];
      destruct (updateInventoryForOrder n l d s) as [st2 [[]|r|e]]
  end; simpl in *; try done; by destruct e.
Qed.

(** What a status change does to the orders, whatever its answer. *)
Lemma updateOrderStatus_orders now id status st :
  orders (updateOrderStatus now id status st).1 = orders st
  ∨ ∃ oid o o', id = Oid oid ∧ orders st !! oid = Some o
      ∧ Order.valid o' = true
      ∧ Order.items o' = Order.items o
      ∧ Order.totalAmount o' = Order.totalAmount o
      ∧ orders (updateOrderStatus now id status st).1 = <[oid := o']> (orders st).
Proof.
  destruct (truthy status) as [s|] eqn:Hs.
  2: { left. unfold updateOrderStatus. by rewrite Hs. }
  assert (status = Some s ∧ s ≠ "") as [-> Hne].
  { destruct status as [s'|]; [|done]. simpl in Hs.
    destruct (String.eqb_spec s' ""); [done|]. by injection Hs as <-. }
  destruct id as [oid|raw].
  2: { left. unfold updateOrderStatus. rewrite Hs. done. }
  destruct (orders st !! oid) as [o|] eqn:Ho.
  2: { left. unfold updateOrderStatus. rewrite Hs. async_unfold. simpl.
       by rewrite Ho. }
  rewrite (updateOrderStatus_found now oid o s st Ho Hne). cbv zeta.
  set (order := if String.eqb s "completed" && _ then _ else _).
  set (restock := if String.eqb s "cancelled" && _ then _ else _).
  assert (orders restock.1 = orders st) as Hfr.
  { unfold restock. destruct (String.eqb s "cancelled" && _); [|done].
    apply updateInventoryForOrder_frame. }
  destruct restock.2; [|by left|by left].
  destruct (Order.valid order) eqn:Hv; [|by left].
  right. exists oid, o, order. simpl. rewrite Hfr.
  split_and!; try done; unfold order; by destruct (String.eqb s "completed" && _).
Qed.

(** X9. Soundness of the stored orders (each passes its schema and its
    totalAmount is the sum of priceAtOrder times quantity over its line
    items) is kept by every route that writes orders or prices: placing an
    order, changing a status, deleting an order and editing the menu. *)
Theorem orders_stay_sound st :
  ordersSound (orders st) →
  (∀ now body, ordersSound (orders (placeOrder now body st).1))
  ∧ (∀ now id status, ordersSound (orders (updateOrderStatus now id status st).1))
  ∧ (∀ id, ordersSound (orders (deleteOrder id st).1))
  ∧ (∀ edits, ordersSound (orders (thenUpdateMenu edits st))).
Proof.
  intros Hs. split_and!.
  - intros now body.
    destruct (placeOrder_orders now body st) as [->|(o & Hv & Ht & ->)]; [done|].
    by apply map_Forall_insert_2.
  - intros now id status.
    destruct (updateOrderStatus_orders now id status st)
      as [->|(oid & o & o' & _ & Ho & Hv & Hi & Ht & ->)]; [done|].
    apply map_Forall_insert_2; [|done]. split; [done|].
    rewrite Ht, Hi. by apply (Hs oid o).
  - intros [oid|raw]; [|done].
    unfold deleteOrder. route_unfold. simpl.
    destruct (orders st !! oid) as [o|]; simpl; [|done].
    by apply map_Forall_delete.
  - intros edits. by rewrite thenUpdateMenu_orders.
Qed.

Lemma orders_stay_sound_witness :
  ordersSound (orders servedDb)
  ∧ ordersSound
      (orders (updateOrderStatus 2000 (Oid 1%positive) (Some "pending") servedDb).1).
Proof.
  assert (ordersSound (orders servedDb)) as Hs.
  { intros i o Hi. simpl in Hi. apply lookup_singleton_Some in Hi as [_ <-].
    by split. }
  split; [exact Hs|].
  exact (proj1 (proj2 (orders_stay_sound servedDb Hs)) 2000 (Oid 1%positive)
           (Some "pending")).
Defined.

(** X10. Deleting an order that was just placed undoes the placement in
    the orders, which are exactly what they were, but not in the
    inventory: the deletion returns no stock. *)
Theorem delete_after_place now body st st1 oid o :
  placeOrder now body st = (st1, Json 201 (BOrder oid o)) →
  (deleteOrder (Oid oid) st1).2 = Said 200 NoteOrderRemoved
  ∧ orders (deleteOrder (Oid oid) st1).1 = orders st
  ∧ inventory (deleteOrder (Oid oid) st1).1 = inventory st1.
Proof.
  intros Hplace.
  apply placeOrder_created in Hplace
    as (tid & items & lines & _ & _ & _ & _ & _ & _ & _ & -> & Hupd).
  match type of Hupd with
  | updateInventoryForOrder ?n ?l ?d ?s = _ =>
      pose proof (updateInventoryForOrder_frame n l d s) as [(_&_&Ho&_) _]
  end.
  rewrite Hupd in Ho. simpl in Ho.
  unfold deleteOrder. route_unfold. simpl. rewrite Ho, lookup_insert_eq. simpl.
  split_and!; [done| |done].
  rewrite Ho. apply delete_insert_id, fresh_lookup_None.
Qed.

Lemma delete_after_place_witness :
  placeOrder 1000 colaOrder sampleDb
  = ((placeOrder 1000 colaOrder sampleDb).1, Json 201 (BOrder 1%positive colaPlaced))
  ∧ orders (deleteOrder (Oid 1%positive) (placeOrder 1000 colaOrder sampleDb).1).1
    = orders sampleDb.
Proof.
  assert (placeOrder 1000 colaOrder sampleDb
          = ((placeOrder 1000 colaOrder sampleDb).1,
             Json 201 (BOrder 1%positive colaPlaced))) as H
    by (vm_compute; reflexivity).
  split; [exact H|].
  exact (proj1 (proj2 (delete_after_place _ _ _ _ _ _ H))).
Defined.

(** X11. A successful status change stamps completionTime with the
    current time exactly when the order enters completed from another
    status; in every other case, leaving completed included, the stored
    completionTime is kept; table, line items, total and orderTime never
    change. *)
Theorem completionTime_stamped_once now (oid : ObjectId) o status st st' o' :
  orders st !! oid = Some o →
  updateOrderStatus now (Oid oid) (Some status) st = (st', Json 200 (BOrder oid o')) →
  Order.status o' = status
  ∧ (status = "completed" → Order.status o ≠ "completed" →
     Order.completionTime o' = Some now)
  ∧ (status ≠ "completed" ∨ Order.status o = "completed" →
     Order.completionTime o' = Order.completionTime o)
  ∧ Order.table o' = Order.table o
  ∧ Order.items o' = Order.items o
  ∧ Order.totalAmount o' = Order.totalAmount o
  ∧ Order.orderTime o' = Order.orderTime o
  ∧ orders st' !! oid = Some o'.
Proof.
  intros Ho Hupd.
  assert (status ≠ "") as Hne.
  { intros ->. unfold updateOrderStatus in Hupd. simpl in Hupd. done. }
  rewrite (updateOrderStatus_found now oid o status st Ho Hne) in Hupd.
  cbv zeta in Hupd.
  set (restock := if String.eqb status "cancelled" && _ then _ else _) in Hupd.
  destruct restock.2; [|done|done].
  destruct (Order.valid _); [|done].
  injection Hupd as <- <-. simpl.
  destruct (String.eqb_spec status "completed") as [->|Hs];
    destruct (String.eqb_spec (Order.status o) "completed") as [Hc|Hc]; simpl;
    split_and!; try done; try apply lookup_insert_eq;
    try (intros [?|?]; done).
Qed.

Lemma completionTime_stamped_once_witness :
  updateOrderStatus 2000 (Oid 1%positive) (Some "pending") servedDb
  = ((updateOrderStatus 2000 (Oid 1%positive) (Some "pending") servedDb).1,
     Json 200 (BOrder 1%positive (Order.setStatus "pending" colaServed)))
  ∧ Order.completionTime (Order.setStatus "pending" colaServed) = Some 1500.
Proof.
  assert (updateOrderStatus 2000 (Oid 1%positive) (Some "pending") servedDb
          = ((updateOrderStatus 2000 (Oid 1%positive) (Some "pending") servedDb).1,
             Json 200 (BOrder 1%positive (Order.setStatus "pending" colaServed))))
    as H by (vm_compute; reflexivity).
  split; [exact H|].
  destruct (completionTime_stamped_once 2000 1%positive colaServed "pending"
              servedDb _ _ eq_refl H)
    as (_ & _ & Hkeep & _).
  apply Hkeep. left. discriminate.
Defined.

(** X12. A status change touches the inventory only when it takes an
    order that is not cancelled to cancelled: every other request, an
    unknown or malformed id and a repeated cancellation included, leaves
    the inventory as it is. *)
Theorem inventory_changes_only_on_cancel now id status st :
  inventory (updateOrderStatus now id status st).1 ≠ inventory st →
  ∃ oid o, id = Oid oid ∧ orders st !! oid = Some o
           ∧ status = Some "cancelled" ∧ Order.status o ≠ "cancelled".
Proof.
  intros Hchg.
  destruct (truthy status) as [s|] eqn:Hs.
  2: { exfalso. apply Hchg. unfold updateOrderStatus. by rewrite Hs. }
  assert (status = Some s ∧ s ≠ "") as [-> Hne].
  { destruct status as [s'|]; [|done]. simpl in Hs.
    destruct (String.eqb_spec s' ""); [done|]. by injection Hs as <-. }
  destruct id as [oid|raw].
  2: { exfalso. apply Hchg. unfold updateOrderStatus. by rewrite Hs. }
  destruct (orders st !! oid) as [o|] eqn:Ho.
  2: { exfalso. apply Hchg. unfold updateOrderStatus. rewrite Hs.
       async_unfold. simpl. by rewrite Ho. }
  exists oid, o.
  destruct (String.eqb_spec s "cancelled") as [->|Hsc];
    [destruct (String.eqb_spec (Order.status o) "cancelled") as [Hoc|Hoc];
       [|done]|];
    exfalso; apply Hchg;
    rewrite (updateOrderStatus_found now oid o _ st Ho Hne); cbv zeta.
  - rewrite Hoc. simpl. by destruct (Order.valid _).
  - apply String.eqb_neq in Hsc. rewrite Hsc. simpl. by destruct (Order.valid _).
Qed.

Lemma inventory_changes_only_on_cancel_witness :
  inventory (updateOrderStatus 2000 (Oid 1%positive) (Some "cancelled")
               (placeOrder 1000 colaOrder sampleDb).1).1
  ≠ inventory (placeOrder 1000 colaOrder sampleDb).1
  ∧ ∃ oid o,
      Oid 1%positive = Oid oid
      ∧ orders (placeOrder 1000 colaOrder sampleDb).1 !! oid = Some o
      ∧ Some "cancelled" = Some "cancelled" ∧ Order.status o ≠ "cancelled".
Proof.
  assert (inventory (updateOrderStatus 2000 (Oid 1%positive) (Some "cancelled")
                       (placeOrder 1000 colaOrder sampleDb).1).1
          ≠ inventory (placeOrder 1000 colaOrder sampleDb).1) as Hne.
  { intros Heq.
    assert (Inventory.quantity
              <$> inventory (updateOrderStatus 2000 (Oid 1%positive)
                               (Some "cancelled")
                               (placeOrder 1000 colaOrder sampleDb).1).1
                    !! 2%positive
            = Some 10%float) as H1 by (vm_compute; reflexivity).
    rewrite Heq in H1. vm_compute in H1. discriminate H1. }
  split; [exact Hne|].
  exact (inventory_changes_only_on_cancel _ _ _ _ Hne).
Defined.

(** ** The inventory: what movements keep *)

Lemma adjusted_sameItem now dec item inv : sameItem inv (adjusted now dec item inv).
Proof. by repeat split. Qed.

Lemma sameItem_trans d1 d2 d3 : sameItem d1 d2 → sameItem d2 d3 → sameItem d1 d3.
Proof. intros (?&?&?) (?&?&?). repeat split; congruence. Qed.

Lemma sameItems_refl inv : sameItems inv inv.
Proof. split; [done|]. intros i d Hd. exists d. by repeat split. Qed.

Lemma sameItems_trans inv1 inv2 inv3 :
  sameItems inv1 inv2 → sameItems inv2 inv3 → sameItems inv1 inv3.
Proof.
  intros [Hn1 Hs1] [Hn2 Hs2]. split; [auto|].
  intros i d Hd. destruct (Hs1 i d Hd) as (d2 & Hd2 & H12).
  destruct (Hs2 i d2 Hd2) as (d3 & Hd3 & H23).
  exists d3. split; [done|]. by eapply sameItem_trans.
Qed.

Lemma sameItems_insert inv i d d' :
  inv !! i = Some d → sameItem d d' → sameItems inv (<[i := d']> inv).
Proof.
  intros Hi Hs. split.
  - intros j Hj. rewrite lookup_insert_ne; [done|]. intros ->. congruence.
  - intros j e Hj. destruct (decide (i = j)) as [<-|Hne].
    + exists d'. rewrite lookup_insert_eq. split; [done|]. congruence.
    + exists e. rewrite lookup_insert_ne by done. split; [done|]. by repeat split.
Qed.

Lemma sameItems_unique inv inv' :
  sameItems inv inv' → uniqueNames inv → uniqueNames inv'.
Proof.
  intros [Hn Hs] Hu i j d e Hi Hj Hk.
  destruct (inv !! i) as [d0|] eqn:Hi0; [|by rewrite (Hn i Hi0) in Hi].
  destruct (inv !! j) as [e0|] eqn:Hj0; [|by rewrite (Hn j Hj0) in Hj].
  destruct (Hs i d0 Hi0) as (d' & Hd' & Hnd & _).
  destruct (Hs j e0 Hj0) as (e' & He' & Hne & _).
  eapply (Hu i j); eauto. congruence.
Qed.

Lemma updateInventoryForOrder_sameItems now l dec : ∀ st,
  sameItems (inventory st) (inventory (updateInventoryForOrder now l dec st).1).
Proof.
  induction l as [|item rest IH]; intros st; [apply sameItems_refl|].
  destruct (updateInventoryForOrder_step now item rest dec st) as (st1 & _ & H).
  destruct (List.find _ _) as [[j inv]|] eqn:Hf.
  - apply find_named_Some in Hf as [Hj _].
    destruct (Inventory.valid _); destruct H as [Hinv ->].
    + eapply sameItems_trans; [|apply IH]. rewrite Hinv.
      apply (sameItems_insert _ _ inv); [done|apply adjusted_sameItem].
    + simpl. rewrite Hinv. apply sameItems_refl.
  - destruct H as [Hinv ->]. specialize (IH st1). by rewrite Hinv in IH.
Qed.

(** X13. A stock movement, with whatever items and in either direction,
    never adds or removes an inventory record and never changes a
    record's itemName, unit or minStockLevel; the menu, tables, orders and
    reservations are not touched. *)
Theorem stock_movement_keeps_records now l dec st :
  (∀ i, inventory st !! i = None →
        inventory (updateInventoryForOrder now l dec st).1 !! i = None)
  ∧ (∀ i d, inventory st !! i = Some d →
       ∃ d', inventory (updateInventoryForOrder now l dec st).1 !! i = Some d'
             ∧ Inventory.itemName d' = Inventory.itemName d
             ∧ Inventory.unit d' = Inventory.unit d
             ∧ Inventory.minStockLevel d' = Inventory.minStockLevel d)
  ∧ menuItems (updateInventoryForOrder now l dec st).1 = menuItems st
  ∧ tables (updateInventoryForOrder now l dec st).1 = tables st
  ∧ orders (updateInventoryForOrder now l dec st).1 = orders st
  ∧ reservations (updateInventoryForOrder now l dec st).1 = reservations st.
Proof.
  destruct (updateInventoryForOrder_sameItems now l dec st) as [Hn Hs].
  destruct (updateInventoryForOrder_frame now l dec st) as [(?&?&?&?) _].
  split_and!; try done.
Qed.


Lemma stock_movement_keeps_records_witness :
  ∃ d', inventory (updateInventoryForOrder 1000 [mkStockItem "Burger" 5] true
                     sampleDb).1 !! 1%positive = Some d'
        ∧ Inventory.itemName d' = "Burger"
        ∧ Inventory.unit d' = "pieces"
        ∧ Inventory.minStockLevel d' = 1%float.
Proof.
  exact (proj1 (proj2 (stock_movement_keeps_records 1000
                         [mkStockItem "Burger" 5] true sampleDb))
           1%positive (Inventory.mk "Burger" 2 "pieces" 1 0) eq_refl).
Defined.

(** ** The inventory routes *)

(** PUT /api/inventory/:id on a record that exists. *)
Lemma updateInventory_found now (i : ObjectId) d body st :
  inventory st !! i = Some d →
  let fields := inventoryFields body in
  let clash :=
    match ib_itemName fields with
    | Some n =>
        negb (String.eqb n (Inventory.itemName d))
        && match List.find (λ kv : ObjectId * Inventory.t,
                              String.eqb (Inventory.itemName kv.2) (trim n))
                   (map_to_list (inventory st)) with
           | Some (j, _) => negb (Pos.eqb j i)
           | None => false
           end
    | None => false
    end in
  let d' := setInventoryFields now fields d in
  updateInventory now (Oid i) body st
  = if clash then (st, Said 400 NoteInventoryNameExists)
    else if rekeys InventoryModel d d' && taken InventoryModel d' st
    then (logEntry (LogError DuplicateKey) st, Text 500 "Server Error")
    else (mkDb (menuItems st) (tables st) (orders st) (reservations st)
            (<[i := d']> (inventory st)) (console st ++ lowStockAlert d'),
          Sent 200 (Some (i, d'))).
Proof.
  intros Hd. unfold updateInventory. cbv zeta.
  generalize (inventoryFields body) as fields. intros fields.
  unfold lowStockAlert. route_unfold. simpl. rewrite Hd. simpl.
  destruct (ib_itemName fields) as [n|] eqn:Hn; simpl.
  - destruct (negb (n =? Inventory.itemName d)%string); simpl.
    + destruct (List.find _ _) as [[j ?]|]; simpl.
      * destruct (negb (j =? i)%positive); simpl; [done|].
        rewrite Hd. simpl. destruct (_ && taken _ _ _); simpl; [done|].
        unfold setInventoryFields. rewrite Hn. simpl.
        destruct (_ <=? _)%float; simpl; [done|]. by rewrite app_nil_r.
      * rewrite Hd. simpl. destruct (_ && taken _ _ _); simpl; [done|].
        unfold setInventoryFields. rewrite Hn. simpl.
        destruct (_ <=? _)%float; simpl; [done|]. by rewrite app_nil_r.
    + rewrite Hd. simpl. destruct (_ && taken _ _ _); simpl; [done|].
      unfold setInventoryFields. rewrite Hn. simpl.
      destruct (_ <=? _)%float; simpl; [done|]. by rewrite app_nil_r.
  - rewrite Hd. simpl. destruct (_ && taken _ _ _); simpl; [done|].
    unfold setInventoryFields. rewrite Hn. simpl.
    destruct (_ <=? _)%float; simpl; [done|]. by rewrite app_nil_r.
Qed.

(** Placing an order moves stock and nothing else in the inventory. *)
Lemma placeOrder_sameItems now body st :
  sameItems (inventory st) (inventory (placeOrder now body st).1).
Proof.
  unfold placeOrder.
  destruct (truthyId (ob_tableId body)) as [[tid|raw]|];
    [| |apply sameItems_refl];
    (destruct (ob_items body) as [[|it items]|];
       [apply sameItems_refl| |apply sameItems_refl]).
  2: { async_unfold. simpl. apply sameItems_refl. }
  async_unfold. simpl.
  destruct (tables st !! tid) as [t|]; simpl; [|apply sameItems_refl].
  pose proof (orderLoop_state (it :: items) (mkOrderAcc 0 [] []) st) as Hst.
  destruct (orderLoop (it :: items) _ st) as [st1 [acc|r|e]] eqn:Hloop;
    simpl in Hst; subst st1;
    [|apply sameItems_refl|destruct e; apply sameItems_refl].
  destruct (Order.valid _) eqn:Hv; simpl; [|apply sameItems_refl].
  match goal with
  | |- context [updateInventoryForOrder ?n ?l ?d ?s] =>
      pose proof (updateInventoryForOrder_sameItems n l d s) as Hs;
      destruct (updateInventoryForOrder n l d s) as [st2 [[]|r|e]]
  end; simpl in *; try done; by destruct e.
Qed.

(** So does a status change. *)
Lemma updateOrderStatus_sameItems now id status st :
  sameItems (inventory st) (inventory (updateOrderStatus now id status st).1).
Proof.
  destruct (truthy status) as [s|] eqn:Hs.
  2: { unfold updateOrderStatus. rewrite Hs. apply sameItems_refl. }
  assert (status = Some s ∧ s ≠ "") as [-> Hne].
  { destruct status as [s'|]; [|done]. simpl in Hs.
    destruct (String.eqb_spec s' ""); [done|]. by injection Hs as <-. }
  destruct id as [oid|raw].
  2: { unfold updateOrderStatus. rewrite Hs. apply sameItems_refl. }
  destruct (orders st !! oid) as [o|] eqn:Ho.
  2: { unfold updateOrderStatus. rewrite Hs. async_unfold. simpl.
       rewrite Ho. apply sameItems_refl. }
  rewrite (updateOrderStatus_found now oid o s st Ho Hne). cbv zeta.
  set (restock := if String.eqb s "cancelled" && _ then _ else _).
  assert (sameItems (inventory st) (inventory restock.1)) as Hfr.
  { unfold restock. destruct (String.eqb s "cancelled" && _);
      [apply updateInventoryForOrder_sameItems|apply sameItems_refl]. }
  destruct restock.2; [|done|done]. by destruct (Order.valid _).
Qed.

(** X14. The item names of the inventory stay unique: adding a record,
    editing one, deleting one, a stock movement, placing an order and a
    status change each take an inventory without duplicate names to an
    inventory without duplicate names. *)
Theorem inventory_names_stay_unique now st :
  uniqueNames (inventory st) →
  (∀ body, uniqueNames (inventory (createInventory now body st).1))
  ∧ (∀ id body, uniqueNames (inventory (updateInventory now id body st).1))
  ∧ (∀ id, uniqueNames (inventory (deleteInventory id st).1))
  ∧ (∀ l dec, uniqueNames (inventory (updateInventoryForOrder now l dec st).1))
  ∧ (∀ body, uniqueNames (inventory (placeOrder now body st).1))
  ∧ (∀ id status, uniqueNames (inventory (updateOrderStatus now id status st).1)).
Proof.
  intros Hu. split_and!.
  - intros body. unfold createInventory. route_unfold. simpl.
    destruct (List.find _ _) as [[j e]|] eqn:Hf; simpl; [done|].
    destruct (ib_itemName body) as [n|] eqn:Hn; [|done].
    destruct (ib_quantity body), (ib_unit body); try done.
    destruct (Inventory.valid _); simpl; [|done].
    destruct (taken InventoryModel _ st) eqn:Ht; simpl; [done|].
    by apply (index_create_unique InventoryModel Inventory.itemName _ eq_refl
                Inventory_clash).
  - intros [i|raw] body; [|done].
    destruct (inventory st !! i) as [d|] eqn:Hd.
    + rewrite (updateInventory_found now i d body st Hd). cbv zeta.
      destruct (match ib_itemName _ with Some _ => _ | None => _ end); [done|].
      destruct (_ && taken _ _ _) eqn:Hidx; [done|]. simpl.
      by apply (index_update_unique InventoryModel Inventory.itemName _ eq_refl
                  Inventory_clash i d).
    + unfold updateInventory. route_unfold. simpl. by rewrite Hd.
  - intros [i|raw]; [|done].
    unfold deleteInventory. route_unfold. simpl.
    destruct (inventory st !! i) as [d|]; simpl; [|done].
    by apply (uniqueBy_delete Inventory.itemName).
  - intros l dec. eapply sameItems_unique; [|done].
    apply updateInventoryForOrder_sameItems.
  - intros body. eapply sameItems_unique; [|done]. apply placeOrder_sameItems.
  - intros id status. eapply sameItems_unique; [|done].
    apply updateOrderStatus_sameItems.
Qed.

Lemma inventory_names_stay_unique_witness :
  uniqueNames (inventory sampleDb)
  ∧ uniqueNames (inventory (placeOrder 1000 colaOrder sampleDb).1).
Proof.
  split; [exact sampleInventory_unique|].
  exact (proj1 (proj2 (proj2 (proj2 (proj2
           (inventory_names_stay_unique 1000 sampleDb sampleInventory_unique)))))
           colaOrder).
Defined.

(** ** Stock movements, record by record *)

(** X15. Stock movements in closed form.  On an inventory with unique
    item names, a batch that ends normally leaves every record with the
    quantity obtained by applying to its quantity, in the order of the
    batch, the items whose trimmed name is the name of the record: each
    subtracts (decrement) or adds (increment) its quantity as the doubles
    do and replaces a negative result by zero.  The records that an item
    names are stamped with the time of the batch; itemName, unit and
    minStockLevel are kept, and no record is added or removed. *)
Theorem stock_movement_closed_form now dec l st :
  uniqueNames (inventory st) →
  (updateInventoryForOrder now l dec st).2 = Val () →
  inventory (updateInventoryForOrder now l dec st).1
  = swept now dec l <$> inventory st
  ∧ (∀ i, inventory st !! i = None →
          inventory (updateInventoryForOrder now l dec st).1 !! i = None)
  ∧ (∀ i d, inventory st !! i = Some d →
       ∃ d', inventory (updateInventoryForOrder now l dec st).1 !! i = Some d'
             ∧ Inventory.quantity d'
               = sweep dec l (Inventory.itemName d) (Inventory.quantity d)
             ∧ Inventory.lastUpdated d'
               = (if touched l (Inventory.itemName d) then now
                  else Inventory.lastUpdated d)
             ∧ sameItem d d').
Proof.
  intros Hu Hres. rewrite (updateInventoryForOrder_swept now dec l st Hu Hres).
  split_and!; [done| |].
  - intros i Hi. by rewrite lookup_fmap, Hi.
  - intros i d Hi. rewrite lookup_fmap, Hi. simpl. eexists.
    split_and!; [reflexivity|done|done|by repeat split].
Qed.

Lemma stock_movement_closed_form_witness :
  uniqueNames (inventory sampleDb)
  ∧ ∃ d', inventory (updateInventoryForOrder 1000
                       [mkStockItem "Burger" 1; mkStockItem "Cola" 4;
                        mkStockItem " Burger " 3; mkStockItem "Burger" 1]
                       true sampleDb).1 !! 1%positive = Some d'
          ∧ Inventory.quantity d' = 0%float
          ∧ Inventory.lastUpdated d' = 1000.
Proof.
  split; [exact sampleInventory_unique|].
  destruct (stock_movement_closed_form 1000 true
              [mkStockItem "Burger" 1; mkStockItem "Cola" 4;
               mkStockItem " Burger " 3; mkStockItem "Burger" 1]
              sampleDb sampleInventory_unique ltac:(vm_compute; reflexivity))
    as (_ & _ & Hq).
  destruct (Hq 1%positive (Inventory.mk "Burger" 2 "pieces" 1 0) eq_refl)
    as (d' & Hd' & Hq' & Hl' & _).
  exists d'. split; [exact Hd'|]. rewrite Hq', Hl'.
  split; vm_compute; reflexivity.
Defined.

(** X16. Only the order of the items under one name matters.  Two
    batches in which, for every name, the items of that name come in the
    same order, run in the same direction on an inventory with unique
    names, leave the same inventory when both end normally. *)
Theorem stock_movement_order_across_names now dec l l' st :
  uniqueNames (inventory st) →
  (∀ n, matching n l = matching n l') →
  (updateInventoryForOrder now l dec st).2 = Val () →
  (updateInventoryForOrder now l' dec st).2 = Val () →
  inventory (updateInventoryForOrder now l dec st).1
  = inventory (updateInventoryForOrder now l' dec st).1.
Proof.
  intros Hu Hsame Hl Hl'.
  rewrite (updateInventoryForOrder_swept now dec l st Hu Hl),
    (updateInventoryForOrder_swept now dec l' st Hu Hl').
  apply map_fmap_ext. intros i d _. apply swept_matching, Hsame.
Qed.

Lemma stock_movement_order_across_names_witness :
  inventory (updateInventoryForOrder 1000
               [mkStockItem "Burger" 1; mkStockItem "Cola" 4] true sampleDb).1
  = inventory (updateInventoryForOrder 1000
                 [mkStockItem "Cola" 4; mkStockItem "Burger" 1] true sampleDb).1.
Proof.
  apply (stock_movement_order_across_names 1000 true
           [mkStockItem "Burger" 1; mkStockItem "Cola" 4]
           [mkStockItem "Cola" 4; mkStockItem "Burger" 1] sampleDb
           sampleInventory_unique).
  - intros n. unfold matching. cbn [List.filter si_name].
    change (trim "Burger") with "Burger". change (trim "Cola") with "Cola".
    destruct (String.eqb_spec n "Burger") as [->|?]; [reflexivity|].
    by destruct (String.eqb n "Cola").
  - vm_compute; reflexivity.
  - vm_compute; reflexivity.
Defined.

(** Under one name the order does matter: from 3.2 kg of rice, taking 1
    and then 1.2 leaves another quantity than taking 1.2 and then 1. *)
Lemma stock_movement_order_within_name_matters :
  Inventory.quantity
    <$> inventory (updateInventoryForOrder 1000
                     [mkStockItem "Rice" 1; mkStockItem "Rice" 1.2] true
                     (setInventory
                        (λ _, {[1%positive := Inventory.mk "Rice" 3.2 "kg" 1 0]})
                        riceDb)).1 !! 1%positive
  = Some 1.0000000000000002%float
  ∧ Inventory.quantity
      <$> inventory (updateInventoryForOrder 1000
                       [mkStockItem "Rice" 1.2; mkStockItem "Rice" 1] true
                       (setInventory
                          (λ _, {[1%positive := Inventory.mk "Rice" 3.2 "kg" 1 0]})
                          riceDb)).1 !! 1%positive
    = Some 1%float.
Proof. split; vm_compute; reflexivity. Qed.

(** ** Items without an inventory record *)

Lemma updateInventoryForOrder_unknown now dec l : ∀ st,
  (∀ it i d, it ∈ l → inventory st !! i = Some d →
             Inventory.itemName d ≠ trim (si_name it)) →
  updateInventoryForOrder now l dec st
  = (mkDb (menuItems st) (tables st) (orders st) (reservations st)
       (inventory st)
       (console st ++ ((λ it, WarnInventoryNotFound (si_name it)) <$> l)),
     Val ()).
Proof.
  induction l as [|item rest IH]; intros st Habs.
  - simpl. rewrite app_nil_r. by destruct st.
  - pose proof (updateInventoryForOrder_step_console now item rest dec st) as H.
    rewrite find_named_absent in H.
    2: { intros i d Hi. apply (Habs item i d); [|done]. by apply elem_of_cons; left. }
    rewrite H, IH.
    2: { intros it i d Hit Hi. apply (Habs it i d); [|done].
         by apply elem_of_cons; right. }
    simpl. by rewrite <- app_assoc.
Qed.

(** X18. A stock movement skips the items that have no inventory record:
    when no record bears the trimmed name of any item of the batch, the
    batch ends normally, changes no record, and logs one warning per
    item, in the order of the items. *)
Theorem unknown_items_are_skipped now dec l st :
  (∀ it i d, it ∈ l → inventory st !! i = Some d →
             Inventory.itemName d ≠ trim (si_name it)) →
  (updateInventoryForOrder now l dec st).2 = Val ()
  ∧ inventory (updateInventoryForOrder now l dec st).1 = inventory st
  ∧ console (updateInventoryForOrder now l dec st).1
    = console st ++ ((λ it, WarnInventoryNotFound (si_name it)) <$> l).
Proof. intros Habs. by rewrite (updateInventoryForOrder_unknown now dec l st Habs). Qed.

Lemma unknown_items_are_skipped_witness :
  console (updateInventoryForOrder 1000 [mkStockItem "Soup" 3] true sampleDb).1
  = [WarnInventoryNotFound "Soup"].
Proof.
  apply (unknown_items_are_skipped 1000 true [mkStockItem "Soup" 3] sampleDb).
  intros it i d Hit Hi. apply list_elem_of_singleton in Hit as ->.
  apply sampleInventory_lookup in Hi as [[-> ->]|[-> ->]]; discriminate.
Defined.

(** X19. Cancelling an order whose menu items have all been deleted
    returns no stock: every line is looked up under the name
    "Unknown Item", so, unless an inventory record bears that name, the
    cancellation is answered 200, the inventory stays as it is, and the
    console gets one warning per line item. *)
Theorem cancel_after_menu_items_deleted now (oid : ObjectId) o st :
  orders st !! oid = Some o →
  Order.valid o = true →
  Order.status o ≠ "cancelled" →
  (∀ it, it ∈ Order.items o → menuItems st !! OrderItem.menuItem it = None) →
  (∀ i d, inventory st !! i = Some d → Inventory.itemName d ≠ "Unknown Item") →
  (updateOrderStatus now (Oid oid) (Some "cancelled") st).2
  = Json 200 (BOrder oid (Order.setStatus "cancelled" o))
  ∧ inventory (updateOrderStatus now (Oid oid) (Some "cancelled") st).1
    = inventory st
  ∧ console (updateOrderStatus now (Oid oid) (Some "cancelled") st).1
    = console st
      ++ ((λ _, WarnInventoryNotFound "Unknown Item") <$> Order.items o).
Proof.
  intros Ho Hvo Hst Hgone Hun.
  rewrite (updateOrderStatus_found now oid o "cancelled" st Ho) by done.
  apply String.eqb_neq in Hst. rewrite Hst. simpl.
  assert (stockOf st o
          = (λ it, mkStockItem "Unknown Item" (OrderItem.quantity it))
              <$> Order.items o) as Hso.
  { unfold stockOf. apply map_ext_in. intros it Hit.
    by rewrite (Hgone it) by (by apply list_elem_of_In). }
  rewrite (updateInventoryForOrder_unknown now false (stockOf st o) st).
  2: { intros it i d Hit Hi. rewrite Hso in Hit.
       apply list_elem_of_fmap in Hit as (line & -> & _).
       change (trim (si_name (mkStockItem "Unknown Item" (OrderItem.quantity line))))
         with "Unknown Item".
       by eapply Hun. }
  simpl.
  rewrite (Order_valid_setStatus "cancelled" o Hvo cancelled_in_enum).
  simpl. split_and!; [done..|]. rewrite Hso, <- list_fmap_compose. done.
Qed.

Lemma cancel_after_menu_items_deleted_witness :
  Inventory.quantity
    <$> inventory (updateOrderStatus 2000 (Oid 1%positive) (Some "cancelled")
                     (deleteMenuItem (Oid 2%positive)
                        (placeOrder 1000 colaOrder sampleDb).1).1).1 !! 2%positive
  = Some 8%float.
Proof.
  destruct (cancel_after_menu_items_deleted 2000 1%positive colaPlaced
              (deleteMenuItem (Oid 2%positive)
                 (placeOrder 1000 colaOrder sampleDb).1).1)
    as (_ & -> & _).
  - vm_compute; reflexivity.
  - vm_compute; reflexivity.
  - discriminate.
  - intros it Hit. apply list_elem_of_singleton in Hit as ->.
    vm_compute; reflexivity.
  - intros i d Hi.
    assert (inventory (deleteMenuItem (Oid 2%positive)
                         (placeOrder 1000 colaOrder sampleDb).1).1
            = <[1%positive := Inventory.mk "Burger" 2 "pieces" 1 0]>
                (<[2%positive := Inventory.mk "Cola" 8 "pieces" 2 1000]> ∅))
      as Hinv by (vm_compute; reflexivity).
    rewrite Hinv in Hi. lookup_cases Hi; discriminate.
  - vm_compute; reflexivity.
Defined.

(** ** Low-stock alerts *)

Lemma updateInventoryForOrder_console_grows now l dec : ∀ st e,
  e ∈ console st → e ∈ console (updateInventoryForOrder now l dec st).1.
Proof.
  induction l as [|item rest IH]; intros st e He; [done|].
  pose proof (updateInventoryForOrder_step_console now item rest dec st) as H.
  destruct (List.find _ _) as [[j inv]|].
  - destruct H as (st1 & Hgrow & H).
    destruct (Inventory.valid _).
    + destruct H as (_ & _ & ->). by apply IH, Hgrow.
    + destruct H as [_ ->]. by apply Hgrow.
  - rewrite H. apply IH. simpl. apply elem_of_app. by left.
Qed.

(** Every record that the batch leaves in a state other than the one it
    found has had its low-stock check. *)
Lemma updateInventoryForOrder_alerts now l dec : ∀ st i d',
  inventory (updateInventoryForOrder now l dec st).1 !! i = Some d' →
  inventory st !! i = Some d'
  ∨ ∀ e, e ∈ lowStockAlert d' →
         e ∈ console (updateInventoryForOrder now l dec st).1.
Proof.
  induction l as [|item rest IH]; intros st i d' Hd'; [by left|].
  pose proof (updateInventoryForOrder_step_console now item rest dec st) as H.
  destruct (List.find _ _) as [[j inv]|].
  - destruct H as (st1 & Hgrow & H).
    destruct (Inventory.valid _).
    + destruct H as (Hinv & Halert & Heq). rewrite Heq in Hd' |- *.
      apply IH in Hd' as [Hd'|?]; [|by right].
      rewrite Hinv in Hd'. destruct (decide (j = i)) as [->|Hne].
      * rewrite lookup_insert_eq in Hd'. injection Hd' as <-. right.
        intros e He. by apply updateInventoryForOrder_console_grows, Halert.
      * rewrite lookup_insert_ne in Hd' by done. by left.
    + destruct H as [Hinv Heq]. rewrite Heq in Hd'. simpl in Hd'.
      rewrite Hinv in Hd'. by left.
  - rewrite H in Hd' |- *. apply IH in Hd' as [Hd'|?]; [by left|by right].
Qed.

Lemma lowStockAlert_low d :
  (Inventory.quantity d <=? Inventory.minStockLevel d)%float = true →
  WarnLowStock (Inventory.itemName d) (Inventory.quantity d) (Inventory.unit d)
  ∈ lowStockAlert d.
Proof.
  intros Hlow. unfold lowStockAlert. rewrite Hlow. apply list_elem_of_here.
Qed.

(** X20. Low stock is reported where a quantity is written, and only
    there.  A record that a stock movement leaves changed at or below its
    minStockLevel has its alert on the console, whatever else the batch
    did; so has a record that PUT /api/inventory/:id answers with.
    POST /api/inventory makes no such check: a creation that is answered
    201 logs nothing, whatever the quantity. *)
Theorem low_stock_is_reported now st :
  (∀ l dec i d',
     inventory (updateInventoryForOrder now l dec st).1 !! i = Some d' →
     inventory st !! i ≠ Some d' →
     (Inventory.quantity d' <=? Inventory.minStockLevel d')%float = true →
     WarnLowStock (Inventory.itemName d') (Inventory.quantity d')
       (Inventory.unit d')
     ∈ console (updateInventoryForOrder now l dec st).1)
  ∧ (∀ id body i d',
       (updateInventory now id body st).2 = Sent 200 (Some (i, d')) →
       (Inventory.quantity d' <=? Inventory.minStockLevel d')%float = true →
       WarnLowStock (Inventory.itemName d') (Inventory.quantity d')
         (Inventory.unit d')
       ∈ console (updateInventory now id body st).1)
  ∧ (∀ body r,
       (createInventory now body st).2 = Sent 201 r →
       console (createInventory now body st).1 = console st).
Proof.
  split_and!.
  - intros l dec i d' Hd' Hchg Hlow.
    destruct (updateInventoryForOrder_alerts now l dec st i d' Hd') as [?|Ha];
      [done|].
    by apply Ha, lowStockAlert_low.
  - intros [i0|raw] body i d'; [|done].
    destruct (inventory st !! i0) as [d|] eqn:Hd.
    + rewrite (updateInventory_found now i0 d body st Hd). cbv zeta.
      destruct (match ib_itemName _ with Some _ => _ | None => _ end);
        simpl; [done|].
      destruct (_ && taken _ _ _); simpl; [done|].
      intros [= <- <-] Hlow. apply elem_of_app. right.
      by apply lowStockAlert_low.
    + unfold updateInventory. route_unfold. simpl. by rewrite Hd.
  - intros body r. unfold createInventory. route_unfold. simpl.
    destruct (List.find _ _) as [[j e]|]; simpl; [done|].
    destruct (ib_itemName body), (ib_quantity body), (ib_unit body); try done.
    destruct (Inventory.valid _); simpl; [|done].
    by destruct (taken InventoryModel _ st).
Qed.

Lemma low_stock_is_reported_witness :
  WarnLowStock "Burger" 0 "pieces"
  ∈ console (updateInventoryForOrder 1000 [mkStockItem "Burger" 5] true
               sampleDb).1.
Proof.
  apply (proj1 (low_stock_is_reported 1000 sampleDb)
           [mkStockItem "Burger" 5] true 1%positive burgerEmptied).
  - vm_compute; reflexivity.
  - vm_compute. discriminate.
  - vm_compute. reflexivity.
Defined.
